(** * Trader: risk and execution invariants of the event pipeline

    A shallow embedding of the order-id utility, the risk arithmetic,
    the Risk, Execution, Strategy, Reconciliation and Data services, the
    in-process event bus and the configuration loader of [src/trader],
    together with the properties the specification states about them and
    further properties of the code.

    Conventions of the embedding.
    - A Python [float] is an IEEE-754 binary64 value: Rocq's primitive
      [float], whose comparisons are false on NaN exactly as Python's.
    - A Python [str] is a [string] of bytes, read as its UTF-8 encoding.
    - [payload.get(k)] on a JSON object is an [option]: [None] stands for
      an absent key as well as for a JSON null, which [dict.get] does not
      tell apart. Where the code gives a default, as in
      [payload.get("risk", {})], the two differ, and the key is kept as a
      [member]: absent, null or a value.
    - The tables live in the database the session factory is bound to;
      what a commit refuses depends on that engine, SQLite or PostgreSQL.
    - An exception is an explicit outcome, never a stuck computation. *)

From Stdlib Require Import ZArith List String Ascii Bool Lia.
From Stdlib Require Import DecimalString Floats.
From stdpp Require Import base option list strings gmap fin_maps.
Import ListNotations.

Set Default Proof Using "Type".
Set Warnings "-inexact-float".

(* ===================================================================== *)
(** ** BLAKE2b (RFC 7693), as [hashlib.blake2b(data, digest_size=nn)]     *)
(* ===================================================================== *)

Module Blake2b.
Local Open Scope Z_scope.

(** A 64-bit word is a [Z] reduced modulo 2^64. *)
Definition w64 (x : Z) : Z := x mod 2 ^ 64.

Definition rotr64 (x : Z) (n : Z) : Z :=
  Z.lor (Z.shiftr x n) (w64 (Z.shiftl x (64 - n))).

Definition IV : list Z :=
  [ 0x6a09e667f3bcc908; 0xbb67ae8584caa73b;
    0x3c6ef372fe94f82b; 0xa54ff53a5f1d36f1;
    0x510e527fade682d1; 0x9b05688c2b3e6c1f;
    0x1f83d9abfb41bd6b; 0x5be0cd19137e2179 ].

Definition SIGMA : list (list nat) :=
  [ [ 0; 1; 2; 3; 4; 5; 6; 7; 8; 9; 10; 11; 12; 13; 14; 15 ];
    [ 14; 10; 4; 8; 9; 15; 13; 6; 1; 12; 0; 2; 11; 7; 5; 3 ];
    [ 11; 8; 12; 0; 5; 2; 15; 13; 10; 14; 3; 6; 7; 1; 9; 4 ];
    [ 7; 9; 3; 1; 13; 12; 11; 14; 2; 6; 5; 10; 4; 0; 15; 8 ];
    [ 9; 0; 5; 7; 2; 4; 10; 15; 14; 1; 11; 12; 6; 8; 3; 13 ];
    [ 2; 12; 6; 10; 0; 11; 8; 3; 4; 13; 7; 5; 15; 14; 1; 9 ];
    [ 12; 5; 1; 15; 14; 13; 4; 10; 0; 7; 6; 3; 9; 2; 8; 11 ];
    [ 13; 11; 7; 14; 12; 1; 3; 9; 5; 0; 15; 4; 8; 6; 2; 10 ];
    [ 6; 15; 14; 9; 11; 3; 0; 8; 12; 2; 13; 7; 1; 4; 10; 5 ];
    [ 10; 2; 8; 4; 7; 6; 1; 5; 15; 11; 9; 14; 3; 12; 13; 0 ] ]%nat.

Definition word (v : list Z) (i : nat) : Z := nth i v 0.

(** The mixing function G on the working vector. *)
Definition G (v : list Z) (a b c d : nat) (x y : Z) : list Z :=
  let v := <[a := w64 (word v a + word v b + x)]> v in
  let v := <[d := rotr64 (Z.lxor (word v d) (word v a)) 32]> v in
  let v := <[c := w64 (word v c + word v d)]> v in
  let v := <[b := rotr64 (Z.lxor (word v b) (word v c)) 24]> v in
  let v := <[a := w64 (word v a + word v b + y)]> v in
  let v := <[d := rotr64 (Z.lxor (word v d) (word v a)) 16]> v in
  let v := <[c := w64 (word v c + word v d)]> v in
  <[b := rotr64 (Z.lxor (word v b) (word v c)) 63]> v.

Definition mix_round (m : list Z) (v : list Z) (r : nat) : list Z :=
  let s := nth (r mod 10)%nat SIGMA [] in
  let ms (i : nat) := word m (nth i s 0%nat) in
  let v := G v 0 4 8 12 (ms 0%nat) (ms 1%nat) in
  let v := G v 1 5 9 13 (ms 2%nat) (ms 3%nat) in
  let v := G v 2 6 10 14 (ms 4%nat) (ms 5%nat) in
  let v := G v 3 7 11 15 (ms 6%nat) (ms 7%nat) in
  let v := G v 0 5 10 15 (ms 8%nat) (ms 9%nat) in
  let v := G v 1 6 11 12 (ms 10%nat) (ms 11%nat) in
  let v := G v 2 7 8 13 (ms 12%nat) (ms 13%nat) in
  G v 3 4 9 14 (ms 14%nat) (ms 15%nat).

(** Compression function F: chaining value [h], message words [m],
    byte offset [t], final-block flag. *)
Definition F (h : list Z) (m : list Z) (t : Z) (final : bool) : list Z :=
  let v := h ++ IV in
  let v := <[12%nat := Z.lxor (word v 12) (w64 t)]> v in
  let v := <[13%nat := Z.lxor (word v 13) (w64 (Z.shiftr t 64))]> v in
  let v := if final then <[14%nat := Z.lxor (word v 14) (2 ^ 64 - 1)]> v else v in
  let v := fold_left (mix_round m) (seq 0 12) v in
  map (fun i => Z.lxor (Z.lxor (word h i) (word v i)) (word v (i + 8))) (seq 0 8).

(** Little-endian 64-bit word out of eight bytes (missing bytes are the
    zero padding of the last block). *)
Fixpoint le_word (bs : list Z) : Z :=
  match bs with
  | [] => 0
  | b :: rest => b + 256 * le_word rest
  end.

Definition block_words (block : list Z) : list Z :=
  map (fun i => le_word (firstn 8 (skipn (8 * i) block))) (seq 0 16).

(** Message bytes cut into 128-byte blocks; the last block holds between
    1 and 128 bytes, or none when the message is empty. *)
Fixpoint split_blocks (cur : list Z) (msg : list Z) : list (list Z) :=
  match msg with
  | [] => [cur]
  | b :: rest =>
      if (length cur =? 128)%nat
      then cur :: split_blocks [b] rest
      else split_blocks (cur ++ [b]) rest
  end.

Fixpoint absorb (h : list Z) (t : Z) (blocks : list (list Z)) : list Z :=
  match blocks with
  | [] => h
  | [last] => F h (block_words last) (t + Z.of_nat (length last)) true
  | b :: rest => absorb (F h (block_words b) (t + 128) false) (t + 128) rest
  end.

(** Unkeyed BLAKE2b with an [nn]-byte digest. *)
Definition blake2b (data : list Z) (nn : nat) : list Z :=
  let h0 := <[0%nat := Z.lxor (word IV 0) (Z.lxor 0x01010000 (Z.of_nat nn))]> IV in
  let h := absorb h0 0 (split_blocks [] data) in
  map (fun i => Z.land (Z.shiftr (word h (i / 8)) (8 * Z.of_nat (i mod 8))) 255)
      (seq 0 nn).

Definition hex_digit (n : Z) : ascii :=
  nth (Z.to_nat n)
      (list_ascii_of_string "0123456789abcdef") "0"%char.

Definition hex_of_byte (b : Z) : list ascii :=
  [hex_digit (b / 16); hex_digit (b mod 16)].

Definition hexdigest (digest : list Z) : string :=
  string_of_list_ascii (flat_map hex_of_byte digest).

(** [s.encode("utf-8")] on a string held as its UTF-8 bytes. *)
Definition encode_utf8 (s : string) : list Z :=
  map (fun a => Z.of_N (N_of_ascii a)) (list_ascii_of_string s).

End Blake2b.

(* ===================================================================== *)
(** ** utils/order_ids.py                                                 *)
(* ===================================================================== *)

(** [f"{n}"] for a Python [int]. *)
Definition format_int (n : Z) : string := NilZero.string_of_int (Z.to_int n).

(** [make_client_order_id(strategy, symbol, side, *, timestamp_ns, nonce)].
    [time_ns] is the reading [time.time_ns()] returns at the call; it is
    consulted only when [timestamp_ns] is [None]. *)
Definition make_client_order_id
    (time_ns : Z) (strategy symbol side : string)
    (timestamp_ns : option Z) (nonce : Z) : string :=
  let ts := match timestamp_ns with Some t => t | None => time_ns end in
  let payload :=
    (strategy ++ ":" ++ symbol ++ ":" ++ side ++ ":"
       ++ format_int ts ++ ":" ++ format_int nonce)%string in
  Blake2b.hexdigest (Blake2b.blake2b (Blake2b.encode_utf8 payload) 12).

Definition is_hex_char (c : ascii) : bool :=
  existsb (Ascii.eqb c) (list_ascii_of_string "0123456789abcdef").


(* ===================================================================== *)
(** ** Python values: exceptions, floats, truthiness                      *)
(* ===================================================================== *)

Inductive exn :=
  | ValueError (msg : string)
  | KeyError (key : string)
  | TypeError
  | AttributeError
  | ZeroDivisionError
  | IntegrityError
  | DataError
  | ProgrammingError
  | MultipleResultsFound
  | DetachedInstanceError
  | IndexError
  | VenueError (msg : string).

Inductive result (A : Type) :=
  | Ok (a : A)
  | Raise (e : exn).
Arguments Ok {A} a.
Arguments Raise {A} e.

Definition bind {A B} (r : result A) (k : A -> result B) : result B :=
  match r with
  | Ok a => k a
  | Raise e => Raise e
  end.

Notation "'let!' x ':=' e 'in' k" := (bind e (fun x => k))
  (at level 10, x name, e at level 100, k at level 200).

Module PyFloat.

Definition zero : float := 0%float.

(** [bool(x)] for a float: everything but the two zeros, NaN included. *)
Definition truthy (x : float) : bool := negb (PrimFloat.eqb x zero).

(** [bool(v)] where [v] came from [dict.get]: [None] is falsy. *)
Definition truthy_opt (v : option float) : bool :=
  match v with
  | Some x => truthy x
  | None => false
  end.

(** [a / b]: Python raises on a zero divisor where IEEE would give an
    infinity or NaN. *)
Definition truediv (a b : float) : result float :=
  if PrimFloat.eqb b zero then Raise ZeroDivisionError
  else Ok (PrimFloat.div a b).

(** The builtin [min(a, b)]: keeps [a] unless [b < a]. *)
Definition min (a b : float) : float :=
  if PrimFloat.ltb b a then b else a.

Definition gt (a b : float) : bool := PrimFloat.ltb b a.

End PyFloat.

(* ===================================================================== *)
(** ** utils/risk.py                                                      *)
(* ===================================================================== *)

Record PortfolioState := {
  equity : float;
  open_risk : float;
  cumulative_drawdown : float;
  daily_loss : float;
  volatility_scalar : float
}.

(** The dictionary [RiskConfig.model_dump()] hands to the risk functions,
    one optional field per key the code looks up; [None] is an absent
    key, for which the code's [.get] default applies. *)
Record VolatilityTargeting := {
  enabled : option bool;
  target_portfolio_vol : option float
}.

Record CircuitBreakers := {
  breaker_daily_loss : option float;
  breaker_total_drawdown : option float
}.

Record RiskSettings := {
  max_risk_per_trade : option float;
  max_portfolio_heat : option float;
  max_leverage : option float;
  volatility_targeting : option VolatilityTargeting;
  circuit_breakers : option CircuitBreakers
}.

Definition empty_volatility_targeting : VolatilityTargeting :=
  {| enabled := None; target_portfolio_vol := None |}.

Definition empty_circuit_breakers : CircuitBreakers :=
  {| breaker_daily_loss := None; breaker_total_drawdown := None |}.

Definition calculate_volatility_targeted_position_value
    (equity target_portfolio_vol asset_vol : float) : result float :=
  if PrimFloat.leb asset_vol 0
  then Raise (ValueError "Asset volatility must be positive.")
  else
    let! vol_scalar := PyFloat.truediv target_portfolio_vol asset_vol in
    Ok (PrimFloat.mul equity vol_scalar).

Definition calculate_position_size
    (equity stop_distance : float) (settings : RiskSettings)
    (asset_vol : option float) : result float :=
  let max_risk :=
    PrimFloat.mul equity (default 0.02%float (max_risk_per_trade settings)) in
  if PrimFloat.leb stop_distance 0
  then Raise (ValueError "stop_distance must be positive")
  else
    let! risk_capped_size := PyFloat.truediv max_risk stop_distance in
    let vt := default empty_volatility_targeting (volatility_targeting settings) in
    if default false (enabled vt) && PyFloat.truthy_opt asset_vol
    then
      match target_portfolio_vol vt, asset_vol with
      | Some target_vol, Some vol =>
          let! value :=
            calculate_volatility_targeted_position_value equity target_vol vol in
          let! vol_size := PyFloat.truediv value stop_distance in
          Ok (PyFloat.min risk_capped_size vol_size)
      | None, _ => Raise (KeyError "target_portfolio_vol")
      | _, None => Raise TypeError
      end
    else Ok risk_capped_size.

(** Returns [true] if trading should halt. *)
Definition apply_circuit_breakers (state : PortfolioState) (config : RiskSettings)
    : bool :=
  let breaker := default empty_circuit_breakers (circuit_breakers config) in
  if PrimFloat.leb (daily_loss state)
       (PrimFloat.mul (PrimFloat.opp (default 1%float (breaker_daily_loss breaker)))
                      (equity state))
  then true
  else if PrimFloat.leb (cumulative_drawdown state)
       (PrimFloat.mul (PrimFloat.opp (default 1%float (breaker_total_drawdown breaker)))
                      (equity state))
  then true
  else
    let max_heat :=
      PrimFloat.mul (default 0.06%float (max_portfolio_heat config)) (equity state) in
    if PyFloat.gt (open_risk state) max_heat then true else false.

(** The event [apply_circuit_breakers] logs, at error level, on its way to
    returning [True]: that of the first breaker that trips. *)
Definition circuit_breaker_event (state : PortfolioState) (config : RiskSettings)
    : string :=
  let breaker := default empty_circuit_breakers (circuit_breakers config) in
  if PrimFloat.leb (daily_loss state)
       (PrimFloat.mul (PrimFloat.opp (default 1%float (breaker_daily_loss breaker)))
                      (equity state))
  then "circuit_breaker.daily_loss"
  else if PrimFloat.leb (cumulative_drawdown state)
       (PrimFloat.mul (PrimFloat.opp (default 1%float (breaker_total_drawdown breaker)))
                      (equity state))
  then "circuit_breaker.drawdown"
  else "circuit_breaker.portfolio_heat".

(* ===================================================================== *)
(** ** config.py: the risk section                                        *)
(* ===================================================================== *)

(** [RiskConfig]: every field has a default (0.02, 0.06, 1.5 and two
    empty dictionaries), so a loaded configuration holds all five. *)
Module RiskConfig.
Record t := {
  max_risk_per_trade : float;
  max_portfolio_heat : float;
  max_leverage : float;
  volatility_targeting : VolatilityTargeting;
  circuit_breakers : CircuitBreakers
}.
End RiskConfig.

(** [RiskConfig.model_dump()]: the dictionary with every key present. *)
Definition model_dump (config : RiskConfig.t) : RiskSettings :=
  {| max_risk_per_trade := Some (RiskConfig.max_risk_per_trade config);
     max_portfolio_heat := Some (RiskConfig.max_portfolio_heat config);
     max_leverage := Some (RiskConfig.max_leverage config);
     volatility_targeting := Some (RiskConfig.volatility_targeting config);
     circuit_breakers := Some (RiskConfig.circuit_breakers config) |}.

(* ===================================================================== *)
(** ** db.py: the engine and the session scope                            *)
(* ===================================================================== *)

(** The engine [create_engine(settings.database.url)] binds the session
    factory to. *)
Inductive DatabaseEngine := sqlite | postgresql.

(** The number of characters of a string: the bytes of its UTF-8
    encoding that do not continue a character. *)
Definition characters (s : string) : nat :=
  length (List.filter (fun c => negb (Nat.eqb (Nat.div (nat_of_ascii c) 64) 2))
            (list_ascii_of_string s)).

(** A [String(n)] column of PostgreSQL, a [VARCHAR(n)], refuses a longer
    value; a null has no length. (SQLite does not enforce the length.) *)
Definition varchar_overflow (n : nat) (value : option string) : bool :=
  match value with
  | Some s => Nat.ltb n (characters s)
  | None => false
  end.

(** What PostgreSQL takes for a JSON number: [json.dumps] writes a float
    that is not finite as [NaN] or [Infinity], which is no JSON. *)
Definition json_number (x : option float) : bool :=
  match x with
  | Some x => PrimFloat.is_finite x
  | None => true
  end.

(** Instances as a session hands them out. [session_scope] commits on
    its way out, which expires every loaded attribute ([expire_on_commit]
    is the [sessionmaker] default), and then closes the session, which
    detaches the instances: reading a column afterwards has no session to
    refresh it from and raises. *)
Module Orm.
Record instance (Row : Type) := {
  row : Row;
  detached : bool
}.
Arguments row {Row} _.
Arguments detached {Row} _.

(** [session.query(Model).all()] *)
Definition query_all {Row} (table : list Row) : list (instance Row) :=
  map (fun r => {| row := r; detached := false |}) table.

(** Leaving [with session_scope(...)] without an exception. *)
Definition session_scope_exit {Row} (loaded : list (instance Row))
    : list (instance Row) :=
  map (fun i => {| row := row i; detached := true |}) loaded.

(** [instance.column] *)
Definition getattr {Row A} (column : Row -> A) (i : instance Row) : result A :=
  if detached i then Raise DetachedInstanceError else Ok (column (row i)).
End Orm.

(* ===================================================================== *)
(** ** models/order.py, models/position.py                                *)
(* ===================================================================== *)

Inductive OrderSide := BUY | SELL.
Inductive OrderType := MARKET | LIMIT | STOP_MARKET | STOP_LIMIT | TAKE_PROFIT.
Inductive OrderStatus :=
  NEW | PENDING | PARTIALLY_FILLED | FILLED | CANCELED | REJECTED.

Definition OrderSide_value (s : OrderSide) : string :=
  match s with BUY => "buy" | SELL => "sell" end.

Definition OrderType_value (t : OrderType) : string :=
  match t with
  | MARKET => "market" | LIMIT => "limit" | STOP_MARKET => "stop_market"
  | STOP_LIMIT => "stop_limit" | TAKE_PROFIT => "take_profit"
  end.

Definition OrderStatus_value (s : OrderStatus) : string :=
  match s with
  | NEW => "new" | PENDING => "pending"
  | PARTIALLY_FILLED => "partially_filled" | FILLED => "filled"
  | CANCELED => "canceled" | REJECTED => "rejected"
  end.

(** A row of [positions]. The surrogate key and the [opened_at] and
    [updated_at] stamps are written by the database layer and read by
    none of the functions below; they are left out. [closed_at] is a
    nullable timestamp (nanoseconds). *)
Module Position.
Record t := {
  symbol : string;
  exchange : string;
  strategy : string;
  quantity : float;
  entry_price : float;
  stop_price : float;
  take_profit_price : option float;
  reduce_only_stop_installed : bool;
  closed_at : option Z
}.

Definition mark_stop_installed (p : t) : t :=
  {| symbol := symbol p; exchange := exchange p; strategy := strategy p;
     quantity := quantity p; entry_price := entry_price p;
     stop_price := stop_price p; take_profit_price := take_profit_price p;
     reduce_only_stop_installed := true; closed_at := closed_at p |}.

Definition is_open (p : t) : bool :=
  match closed_at p with None => true | Some _ => false end.
End Position.

(** The keyword arguments of the venue adapter's [create_order]. *)
Module OrderRequest.
Record Params := {
  clientOrderId : string;
  reduceOnly : option bool;
  stopPrice : option float
}.
Record t := {
  symbol : option string;
  type : OrderType;
  side : OrderSide;
  amount : float;
  price : option float;
  params : Params
}.
End OrderRequest.

(** What [raw_response] holds: a literal dictionary of the code's own, or
    whatever the venue answered. *)
Inductive RawResponse (Resp : Type) :=
  | ResponseDict (d : gmap string string)
  | ResponseVenue (r : Resp).
Arguments ResponseDict {Resp} d.
Arguments ResponseVenue {Resp} r.

(** A row of [orders], with the columns [_record_order] fills in. *)
Module Order.
Record t (Resp : Type) := {
  client_order_id : string;
  strategy : string;
  symbol : string;
  exchange : string;
  side : OrderSide;
  type : OrderType;
  price : option float;
  quantity : float;
  raw_request : OrderRequest.t;
  raw_response : RawResponse Resp;
  status : OrderStatus
}.
Arguments client_order_id {Resp} _.
Arguments strategy {Resp} _.
Arguments symbol {Resp} _.
Arguments exchange {Resp} _.
Arguments side {Resp} _.
Arguments type {Resp} _.
Arguments price {Resp} _.
Arguments quantity {Resp} _.
Arguments raw_request {Resp} _.
Arguments raw_response {Resp} _.
Arguments status {Resp} _.
End Order.

(* ===================================================================== *)
(** ** events.py                                                          *)
(* ===================================================================== *)

(** What a JSON object holds under a key that the code reads with a
    default: nothing, a null, or a value. *)
Inductive member (A : Type) :=
  | Absent
  | Null
  | Member (a : A).
Arguments Absent {A}.
Arguments Null {A}.
Arguments Member {A} a.

(** The payload of a [signal] or [approved_signal] event, one optional
    field per key the services read. The value under [risk] is the nested
    dictionary of floats, kept as a finite map so that an empty
    dictionary, an absent key and a zero value stay distinct. *)
Module Payload.
Record t := {
  strategy : option string;
  exchange : option string;
  symbol : option string;
  decision : option string;
  confidence : option float;
  price : option float;
  risk_member : member (gmap string float);
  risk_approved : option bool
}.

(** The [risk] dictionary of the payload, when it has one. *)
Definition risk (p : t) : option (gmap string float) :=
  match risk_member p with
  | Member d => Some d
  | Absent | Null => None
  end.

(** [payload.get("risk", {})]: the default stands in for an absent key
    only; a null comes back as [None]. *)
Definition get_risk (p : t) : option (gmap string float) :=
  match risk_member p with
  | Member d => Some d
  | Absent => Some ∅
  | Null => None
  end.

(** [{**payload, "risk_approved": True}] *)
Definition approve (p : t) : t :=
  {| strategy := strategy p; exchange := exchange p; symbol := symbol p;
     decision := decision p; confidence := confidence p; price := price p;
     risk_member := risk_member p; risk_approved := Some true |}.

(** The same payload with another [risk] dictionary, or with none. *)
Definition with_risk (p : t) (r : option (gmap string float)) : t :=
  {| strategy := strategy p; exchange := exchange p; symbol := symbol p;
     decision := decision p; confidence := confidence p; price := price p;
     risk_member := match r with Some d => Member d | None => Absent end;
     risk_approved := risk_approved p |}.
End Payload.

Record Event := {
  type : string;
  payload : Payload.t
}.

Inductive level := Info | Warning | Error | Critical.

(** [bool(d)] for a dictionary. *)
Definition dict_truthy {V} (d : gmap string V) : bool :=
  negb (bool_decide (size d = 0%nat)).

(* ===================================================================== *)
(** ** services/risk_service.py                                           *)
(* ===================================================================== *)

Module RiskService.

(** The service together with what it reads and writes: the risk section
    of its settings, the [positions] table, the bus (as the sequence of
    [publish] calls) and the log (of the service and of the functions it
    calls). *)
Record t := {
  settings_risk : RiskConfig.t;
  _equity : float;
  positions : list Position.t;
  published : list (string * Event);
  log : list (level * string)
}.

(** [self.settings.risk.model_dump()] *)
Definition risk (s : t) : RiskSettings := model_dump (settings_risk s).

Definition logger (lvl : level) (event : string) (s : t) : t :=
  {| settings_risk := settings_risk s; _equity := _equity s;
     positions := positions s; published := published s;
     log := log s ++ [(lvl, event)] |}.

Definition publish (stream : string) (e : Event) (s : t) : t :=
  {| settings_risk := settings_risk s; _equity := _equity s;
     positions := positions s; published := published s ++ [(stream, e)];
     log := log s |}.

(** One step of the [for] loop of [_calculate_open_risk]. *)
Definition add_risk (open_risk : float) (pos : Position.t) : float :=
  let stop_distance :=
    PrimFloat.abs (PrimFloat.sub (Position.entry_price pos) (Position.stop_price pos)) in
  PrimFloat.add open_risk
    (PrimFloat.mul stop_distance (PrimFloat.abs (Position.quantity pos))).

(** [session.query(Position).all()] is every row of the table. *)
Definition _calculate_open_risk (s : t) : float :=
  fold_left add_risk (positions s) 0%float.

(** The sum the specification words: the same terms, taken over the rows
    whose [closed_at] is null only. *)
Definition open_positions_risk (rows : list Position.t) : float :=
  fold_left add_risk (List.filter Position.is_open rows) 0%float.

(** [_handle_signal]. For [not risk_payload] an absent key, a null and an
    empty dictionary are alike. When a breaker trips,
    [apply_circuit_breakers] has logged its own event before the
    service logs the rejection. *)
Definition _handle_signal (event : Event) (approved_stream : string) (s : t)
    : t * result unit :=
  let risk_payload := default ∅ (Payload.risk (payload event)) in
  if negb (dict_truthy risk_payload)
  then (logger Warning "risk_service.missing_risk_payload" s, Ok tt)
  else
    let stop_distance := risk_payload !! "stop_distance" in
    let position_size := risk_payload !! "position_size" in
    if negb (PyFloat.truthy_opt stop_distance)
       || negb (PyFloat.truthy_opt position_size)
    then (logger Warning "risk_service.incomplete_risk_payload" s, Ok tt)
    else
      match stop_distance, position_size with
      | Some stop_distance, Some position_size =>
          let open_risk := _calculate_open_risk s in
          let equity := _equity s in
          let state :=
            {| equity := equity;
               open_risk :=
                 PrimFloat.add open_risk (PrimFloat.mul stop_distance position_size);
               daily_loss := 0;
               cumulative_drawdown := 0;
               volatility_scalar := 1 |} in
          let risk_settings := risk s in
          if apply_circuit_breakers state risk_settings
          then (logger Error "risk_service.signal_rejected_circuit_breaker"
                  (logger Error (circuit_breaker_event state risk_settings) s),
                Ok tt)
          else
            let leverage_limit := default 1%float (max_leverage risk_settings) in
            let notional := position_size in
            match PyFloat.truediv notional equity with
            | Raise e => (s, Raise e)
            | Ok leverage =>
                if PyFloat.gt leverage leverage_limit
                then (logger Warning "risk_service.signal_rejected_leverage" s, Ok tt)
                else
                  let approved_event :=
                    {| type := "approved_signal";
                       payload := Payload.approve (payload event) |} in
                  (logger Info "risk_service.signal_approved"
                     (publish approved_stream approved_event s), Ok tt)
            end
      | _, _ => (s, Raise TypeError)
      end.

End RiskService.

(* ===================================================================== *)
(** ** services/execution_service.py                                      *)
(* ===================================================================== *)

Module ExecutionService.

(** How one call of the venue adapter's [create_order] ended. *)
Inductive call_outcome (Resp : Type) :=
  | Accepted (r : Resp)
  | Failed (error : string).
Arguments Accepted {Resp} r.
Arguments Failed {Resp} error.

Section Service.

(** The venue adapter is an external capability: a client has some state
    [Venue], and [create_order] answers with a response or raises (the
    string is [str(exc)]). [time_ns n] is what the [n]-th reading of
    [time.time_ns()] returns. *)
Context {Venue Resp : Type}.
Variable create_order : Venue -> OrderRequest.t -> Venue * call_outcome Resp.
Variable time_ns : nat -> Z.
Variable dry_run : bool.

(** The service with everything it touches: the engine behind
    [_session_factory] and the two tables it holds, the venue clients by
    exchange name, the trace of [create_order] calls, the log and the
    number of clock readings taken so far. *)
Record t := {
  database : DatabaseEngine;
  orders : list (Order.t Resp);
  positions : list Position.t;
  _clients : gmap string Venue;
  calls : list (string * OrderRequest.t * call_outcome Resp);
  log : list (level * string);
  clock : nat
}.

(** State and exceptions threaded through the coroutines. *)
Definition M (A : Type) : Type := t -> t * result A.

Definition ret {A} (a : A) : M A := fun s => (s, Ok a).
Definition raise {A} (e : exn) : M A := fun s => (s, Raise e).
Definition and_then {A B} (m : M A) (k : A -> M B) : M B :=
  fun s =>
    match m s with
    | (s', Ok a) => k a s'
    | (s', Raise e) => (s', Raise e)
    end.
(** [try: body except Exception as exc: handler] *)
Definition try_except {A} (body : M A) (handler : exn -> M A) : M A :=
  fun s =>
    match body s with
    | (s', Raise e) => handler e s'
    | r => r
    end.

Local Notation "x <- m ;; k" := (and_then m (fun x => k))
  (at level 100, m at next level, right associativity).
Local Notation "m ;;; k" := (and_then m (fun _ => k))
  (at level 100, right associativity).

Definition logger (lvl : level) (event : string) : M unit :=
  fun s =>
    ({| database := database s; orders := orders s; positions := positions s;
        _clients := _clients s; calls := calls s;
        log := log s ++ [(lvl, event)]; clock := clock s |},
     Ok tt).

(** [time.time_ns()] *)
Definition read_time_ns : M Z :=
  fun s =>
    ({| database := database s; orders := orders s; positions := positions s;
        _clients := _clients s; calls := calls s; log := log s;
        clock := S (clock s) |},
     Ok (time_ns (clock s))).

(** [await client.create_order] with the request as keyword arguments.
    A client is a shared mutable object: it is designated by its key in
    [_clients], and the call acts on, and leaves behind, the state stored
    there. *)
Definition client_create_order (client : string) (request : OrderRequest.t)
    : M Resp :=
  fun s =>
    match _clients s !! client with
    | None => (s, Raise TypeError)
    | Some venue =>
        let (venue', outcome) := create_order venue request in
        let s' :=
          {| database := database s; orders := orders s;
             positions := positions s;
             _clients := <[client := venue']> (_clients s);
             calls := calls s ++ [(client, request, outcome)];
             log := log s; clock := clock s |} in
        match outcome with
        | Accepted r => (s', Ok r)
        | Failed msg => (s', Raise (VenueError msg))
        end
    end.

(** [f"{x}"] of a value that [payload.get] may have left [None]. *)
Definition format_str (x : option string) : string := default "None" x.

(** [_record_order]: one [session.add] inside [session_scope]; a commit
    that fails rolls the row back and raises. What fails depends on the
    engine. On SQLite [raw_request] and [raw_response] are [Text]
    columns, the variant the model gives [JSONB] there, and the
    dictionaries bound to them are no text: every insert fails at
    binding, before a constraint is looked at. On PostgreSQL the values
    are checked first, the three [String(32)] columns for their length
    and [raw_request] for being JSON (the literal response is, and so is
    the venue's answer as the adapter parsed it); then the constraints,
    NOT NULL on [strategy] and [symbol] and UNIQUE on
    [client_order_id]. *)
Definition _record_order
    (client_order_id exchange : string) (strategy symbol : option string)
    (side : OrderSide) (order_type : OrderType) (price : option float)
    (quantity : float) (raw_request : OrderRequest.t)
    (raw_response : RawResponse Resp) (status : OrderStatus) : M unit :=
  fun s =>
    match database s with
    | sqlite => (s, Raise ProgrammingError)
    | postgresql =>
        if varchar_overflow 32 strategy || varchar_overflow 32 symbol
           || varchar_overflow 32 (Some exchange)
           || negb (json_number (Some (OrderRequest.amount raw_request))
                    && json_number (OrderRequest.price raw_request)
                    && json_number
                         (OrderRequest.stopPrice (OrderRequest.params raw_request)))
        then (s, Raise DataError)
        else
          match strategy, symbol with
          | Some strategy, Some symbol =>
              if existsb
                   (fun o => String.eqb (Order.client_order_id o) client_order_id)
                   (orders s)
              then (s, Raise IntegrityError)
              else
                let order :=
                  {| Order.client_order_id := client_order_id;
                     Order.strategy := strategy;
                     Order.symbol := symbol;
                     Order.exchange := exchange;
                     Order.side := side;
                     Order.type := order_type;
                     Order.price := price;
                     Order.quantity := quantity;
                     Order.raw_request := raw_request;
                     Order.raw_response := raw_response;
                     Order.status := status |} in
                ({| database := database s; orders := orders s ++ [order];
                    positions := positions s; _clients := _clients s;
                    calls := calls s; log := log s; clock := clock s |}, Ok tt)
          | _, _ => (s, Raise IntegrityError)
          end
    end.

Definition same_key (symbol exchange strategy : string) (p : Position.t) : bool :=
  String.eqb (Position.symbol p) symbol
  && String.eqb (Position.exchange p) exchange
  && String.eqb (Position.strategy p) strategy.

(** The three [String(32)] columns of a new [positions] row, on an
    engine that enforces their length. *)
Definition position_overflow (database : DatabaseEngine)
    (symbol exchange strategy : string) : bool :=
  match database with
  | postgresql =>
      varchar_overflow 32 (Some symbol) || varchar_overflow 32 (Some exchange)
      || varchar_overflow 32 (Some strategy)
  | sqlite => false
  end.

(** [_update_position]: read-modify-write of the one row
    [filter_by(symbol, exchange, strategy).one_or_none()] finds, or the
    insertion of a fresh row with the stop marked installed. *)
Definition _update_position
    (symbol : option string) (exchange : string) (strategy : option string)
    (quantity entry_price stop_price : float) : M unit :=
  fun s =>
    match symbol, strategy with
    | Some symbol, Some strategy =>
        let set_positions ps :=
          {| database := database s; orders := orders s; positions := ps;
             _clients := _clients s; calls := calls s; log := log s;
             clock := clock s |} in
        match List.filter (same_key symbol exchange strategy) (positions s) with
        | [] =>
            if position_overflow (database s) symbol exchange strategy
            then (s, Raise DataError)
            else
            let position :=
              {| Position.symbol := symbol;
                 Position.exchange := exchange;
                 Position.strategy := strategy;
                 Position.quantity := quantity;
                 Position.entry_price := entry_price;
                 Position.stop_price := stop_price;
                 Position.take_profit_price := None;
                 Position.reduce_only_stop_installed := true;
                 Position.closed_at := None |} in
            (set_positions (positions s ++ [position]), Ok tt)
        | [_] =>
            let update (p : Position.t) :=
              if same_key symbol exchange strategy p
              then Position.mark_stop_installed
                     {| Position.symbol := Position.symbol p;
                        Position.exchange := Position.exchange p;
                        Position.strategy := Position.strategy p;
                        Position.quantity :=
                          PrimFloat.add (Position.quantity p) quantity;
                        Position.entry_price := entry_price;
                        Position.stop_price := stop_price;
                        Position.take_profit_price := Position.take_profit_price p;
                        Position.reduce_only_stop_installed :=
                          Position.reduce_only_stop_installed p;
                        Position.closed_at := Position.closed_at p |}
              else p in
            (set_positions (map update (positions s)), Ok tt)
        | _ => (s, Raise MultipleResultsFound)
        end
    | _, _ => (s, Raise IntegrityError)
    end.

Definition stop_request_of
    (symbol : option string) (stop_side : OrderSide) (position_size : float)
    (client_order_id : string) (stop_price : float) : OrderRequest.t :=
  {| OrderRequest.symbol := symbol;
     OrderRequest.type := STOP_MARKET;
     OrderRequest.side := stop_side;
     OrderRequest.amount := position_size;
     OrderRequest.price := None;
     OrderRequest.params :=
       {| OrderRequest.clientOrderId := client_order_id;
          OrderRequest.reduceOnly := Some true;
          OrderRequest.stopPrice := Some stop_price |} |}.

Definition _install_stop
    (client : string) (strategy : option string) (exchange : string)
    (symbol : option string) (side : OrderSide) (entry_price : option float)
    (stop_distance position_size : float) : M unit :=
  let stop_side := match side with BUY => SELL | SELL => BUY end in
  match entry_price with
  | None => raise TypeError
  | Some entry_price =>
      let stop_price :=
        match side with
        | BUY => PrimFloat.sub entry_price stop_distance
        | SELL => PrimFloat.add entry_price stop_distance
        end in
      now <- read_time_ns ;;
      let client_order_id :=
        make_client_order_id now (format_str strategy) (format_str symbol)
          (OrderSide_value stop_side) None 0 in
      let stop_request :=
        stop_request_of symbol stop_side position_size client_order_id stop_price in
      if dry_run
      then logger Info "execution_service.dry_run_stop"
      else
        try_except
          (response <- client_create_order client stop_request ;;
           logger Info "execution_service.stop_installed" ;;;
           _update_position symbol exchange strategy
             (match side with
              | BUY => position_size
              | SELL => PrimFloat.opp position_size
              end)
             entry_price stop_price)
          (fun exc => logger Error "execution_service.stop_install_failed")
  end.

Definition order_request_of
    (symbol : option string) (side : OrderSide) (position_size : float)
    (price : option float) (client_order_id : string) : OrderRequest.t :=
  {| OrderRequest.symbol := symbol;
     OrderRequest.type := LIMIT;
     OrderRequest.side := side;
     OrderRequest.amount := position_size;
     OrderRequest.price := price;
     OrderRequest.params :=
       {| OrderRequest.clientOrderId := client_order_id;
          OrderRequest.reduceOnly := None;
          OrderRequest.stopPrice := None |} |}.

(** [_handle_signal]. [risk] is what [payload.get("risk", {})] returns:
    for a null it is [None], and [risk.get], which comes before the
    [try], raises. *)
Definition _handle_signal (event : Event) : M unit :=
  fun s =>
  let payload := payload event in
  let exchange_name := Payload.exchange payload in
  let symbol := Payload.symbol payload in
  let strategy := Payload.strategy payload in
  let decision := Payload.decision payload in
  let risk := Payload.get_risk payload in
  let client := exchange_name ≫= (fun name => _clients s !! name) in
  match exchange_name, client with
  | Some exchange_name, Some _ =>
      let client := exchange_name in
      match risk with
      | None => raise AttributeError s
      | Some risk =>
      let position_size := risk !! "position_size" in
      let stop_distance := risk !! "stop_distance" in
      if negb (PyFloat.truthy_opt position_size)
         || negb (PyFloat.truthy_opt stop_distance)
      then logger Error "execution_service.missing_risk_info" s
      else
        match position_size, stop_distance with
        | Some position_size, Some stop_distance =>
            let side :=
              if bool_decide (decision = Some "buy") then BUY else SELL in
            (now <- read_time_ns ;;
             let client_order_id :=
               make_client_order_id now (format_str strategy) (format_str symbol)
                 (OrderSide_value side) None 0 in
             let order_type := LIMIT in
             let price := Payload.price payload in
             let order_request :=
               order_request_of symbol side position_size price client_order_id in
             if dry_run
             then
               logger Info "execution_service.dry_run_order" ;;;
               _record_order client_order_id exchange_name strategy symbol side
                 order_type price position_size order_request
                 (ResponseDict {[ "status" := "dry_run" ]}) NEW
             else
               try_except
                 (response <- client_create_order client order_request ;;
                  _record_order client_order_id exchange_name strategy symbol side
                    order_type price position_size order_request
                    (ResponseVenue response) PENDING ;;;
                  _install_stop client strategy exchange_name symbol side price
                    stop_distance position_size)
                 (fun exc => logger Error "execution_service.order_failed")) s
        | _, _ => raise TypeError s
        end
      end
  | _, _ => logger Error "execution_service.unknown_exchange" s
  end.

(** The body of [run]: events are handled in delivery order; an exception
    that escapes a handler ends the loop. *)
Fixpoint run (events : list Event) : M unit :=
  match events with
  | [] => ret tt
  | event :: rest => _handle_signal event ;;; run rest
  end.

End Service.

End ExecutionService.

(* ===================================================================== *)
(** ** services/strategy_service.py                                       *)
(* ===================================================================== *)

Module StrategyService.

(** [StrategyConfig.parameters], one optional field per key looked up. *)
Record Parameters := {
  fast_ma_period : option Z;
  slow_ma_period : option Z;
  atr_period : option Z;
  atr_multiplier : option float;
  asset_volatility : option float
}.

(** What [_evaluate_trend_strategy] returns when it has an action. *)
Record Decision := {
  action : string;
  confidence : float;
  risk : gmap string float
}.

(** The payload of a [market_data] event: rows of
    [ts, open, high, low, close, vol]. *)
Module MarketData.
Record t := {
  exchange : option string;
  symbol : option string;
  data : list (list float)
}.
End MarketData.

(** [a[-k:]] on a one-dimensional array: the slice starts at [-k], which
    counts from the end when negative and is clipped to the array. *)
Definition last_slice (k : Z) (a : list float) : list float :=
  let n := Z.of_nat (length a) in
  let start := (if 0 <? k then Z.max (n - k) 0 else Z.min (- k) n)%Z in
  skipn (Z.to_nat start) a.

(** [np.diff(a)] *)
Fixpoint diff (a : list float) : list float :=
  match a with
  | x :: (y :: _) as rest => PrimFloat.sub y x :: diff rest
  | _ => []
  end.

Definition is_nan (x : float) : bool := negb (PrimFloat.eqb x x).

Section Service.

(** [ndarray.mean()] is numpy's: its summation order is not part of this
    repository, so the mean is a parameter of the model. *)
Variable mean : list float -> float.

Definition _calculate_atr (prices : list float) (period : Z) : float :=
  if (Z.of_nat (length prices) <=? period)%Z then nan
  else
    let returns := map PrimFloat.abs (diff prices) in
    let atr := mean (last_slice period returns) in
    atr.

Definition _evaluate_trend_strategy
    (params : Parameters) (risk_settings : RiskSettings) (history : list float)
    : result (option Decision) :=
  let fast_period := default 50%Z (fast_ma_period params) in
  let slow_period := default 200%Z (slow_ma_period params) in
  let atr_period := default 14%Z (atr_period params) in
  if (Z.of_nat (length history)
        <? Z.max (Z.max fast_period slow_period) atr_period + 1)%Z
  then Ok None
  else
    let prices := history in
    let fast_ma := mean (last_slice fast_period prices) in
    let slow_ma := mean (last_slice slow_period prices) in
    let atr := _calculate_atr prices atr_period in
    if is_nan atr || PrimFloat.leb atr 0
    then Ok None
    else
      let action :=
        if PyFloat.gt fast_ma (PrimFloat.mul slow_ma 1.001) then Some "buy"
        else if PrimFloat.ltb fast_ma (PrimFloat.mul slow_ma 0.999) then Some "sell"
        else None in
      match action with
      | None => Ok None
      | Some action =>
          let stop_distance :=
            PrimFloat.mul atr (default 2%float (atr_multiplier params)) in
          let! position_size :=
            calculate_position_size 100000 stop_distance risk_settings
              (asset_volatility params) in
          Ok (Some {| action := action;
                      confidence := 0.6;
                      risk := {[ "stop_distance" := stop_distance;
                                 "position_size" := position_size ]} |})
      end.

(** The service: its enabled strategies in configuration order, the
    bounded price history per (exchange, symbol), and the bus as the
    sequence of [publish] calls. *)
Record t := {
  strategy_configs : list (string * Parameters);
  risk_settings : RiskSettings;
  price_history : gmap (option string * option string) (list float);
  published : list (string * Event)
}.

(** [deque(maxlen=500).append]: the oldest close falls out when full. *)
Definition history_append (history : list float) (close : float) : list float :=
  let h := history ++ [close] in
  skipn (length h - 500) h.

Fixpoint evaluate_all
    (strategies : list (string * Parameters)) (risk_settings : RiskSettings)
    (exchange symbol : option string) (close_price : float)
    (history : list float) (signal_stream : string)
    (published : list (string * Event))
    : list (string * Event) * result unit :=
  match strategies with
  | [] => (published, Ok tt)
  | (strategy_name, strategy) :: rest =>
      match _evaluate_trend_strategy strategy risk_settings history with
      | Raise e => (published, Raise e)
      | Ok None =>
          evaluate_all rest risk_settings exchange symbol close_price history
            signal_stream published
      | Ok (Some decision) =>
          let payload :=
            {| Payload.strategy := Some strategy_name;
               Payload.exchange := exchange;
               Payload.symbol := symbol;
               Payload.decision := Some (action decision);
               Payload.confidence := Some (confidence decision);
               Payload.price := Some close_price;
               Payload.risk_member := Member (risk decision);
               Payload.risk_approved := None |} in
          evaluate_all rest risk_settings exchange symbol close_price history
            signal_stream
            (published ++ [(signal_stream, {| type := "signal"; payload := payload |})])
      end
  end.

Definition _handle_market_event (event : MarketData.t) (signal_stream : string)
    (s : t) : t * result unit :=
  match last (MarketData.data event) with
  | None => (s, Ok tt)
  | Some row =>
      match row !! 4%nat with
      | None => (s, Raise IndexError)
      | Some close_price =>
          let key := (MarketData.exchange event, MarketData.symbol event) in
          let history :=
            history_append (default [] (price_history s !! key)) close_price in
          let '(published', r) :=
            evaluate_all (strategy_configs s) (risk_settings s)
              (MarketData.exchange event) (MarketData.symbol event)
              close_price history signal_stream (published s) in
          ({| strategy_configs := strategy_configs s;
              risk_settings := risk_settings s;
              price_history := <[key := history]> (price_history s);
              published := published' |}, r)
      end
  end.

End Service.

End StrategyService.

(* ===================================================================== *)
(** ** events.py: the in-process event bus                                *)
(* ===================================================================== *)

(** [EventBus(redis_url=None)], the backend a service gets when Redis is
    disabled: [_redis] stays [None] and every operation goes through
    [_queue], one [asyncio.Queue] shared by all streams. The Redis backend
    is an external store and is not modelled. *)
Module EventBus.

Record t := {
  _queue : option (list Event)
}.

(** What an operation on the bus comes to. [Waiting] is [consume]
    suspended on an empty queue, until some task publishes. *)
Inductive outcome (A : Type) :=
  | Returned (a : A)
  | Waiting
  | RuntimeError (msg : string).
Arguments Returned {A} a.
Arguments Waiting {A}.
Arguments RuntimeError {A} msg.

(** [EventBus(redis_url=None)] before [connect]. *)
Definition new : t := {| _queue := None |}.

(** [connect()]: a fresh queue, whatever was there. *)
Definition connect (bus : t) : t := {| _queue := Some [] |}.

(** [disconnect()] *)
Definition disconnect (bus : t) : t :=
  match _queue bus with
  | Some _ => {| _queue := None |}
  | None => bus
  end.

(** [publish(stream, event)] *)
Definition publish (stream : string) (event : Event) (bus : t) : t * outcome unit :=
  match _queue bus with
  | Some queue => ({| _queue := Some (queue ++ [event]) |}, Returned tt)
  | None => (bus, RuntimeError "EventBus is not connected.")
  end.

(** [consume(stream, last_id)]: the event and an empty message id. *)
Definition consume (stream last_id : string) (bus : t)
    : t * outcome (Event * string) :=
  match _queue bus with
  | Some [] => (bus, Waiting)
  | Some (event :: queue) => ({| _queue := Some queue |}, Returned (event, ""))
  | None => (bus, RuntimeError "EventBus is not connected.")
  end.

(** Publishing a batch, each event on its own stream, until one fails. *)
Fixpoint publish_all (batch : list (string * Event)) (bus : t) : t * outcome unit :=
  match batch with
  | [] => (bus, Returned tt)
  | (stream, event) :: rest =>
      match publish stream event bus with
      | (bus', Returned _) => publish_all rest bus'
      | failed => failed
      end
  end.

(** A reader's loop: one [consume] per requested stream, collecting what
    comes back, until one does not return. *)
Fixpoint consume_all (reads : list (string * string)) (bus : t)
    : t * list (Event * string) :=
  match reads with
  | [] => (bus, [])
  | (stream, last_id) :: rest =>
      match consume stream last_id bus with
      | (bus', Returned got) =>
          let (bus'', more) := consume_all rest bus' in (bus'', got :: more)
      | (bus', _) => (bus', [])
      end
  end.

End EventBus.

(* ===================================================================== *)
(** ** config.py: placeholder resolution                                  *)
(* ===================================================================== *)

Module Config.

(** What [yaml.safe_load] hands over: scalars, lists and mappings (with
    their keys in document order). *)
Unset Elimination Schemes.
Inductive value :=
  | Null
  | Bool (b : bool)
  | Int (n : Z)
  | Float (x : float)
  | Str (s : string)
  | List (items : list value)
  | Dict (items : list (string * value)).
Set Elimination Schemes.

Inductive outcome (A : Type) :=
  | Resolved (a : A)
  | EnvironmentError (env_key : string).
Arguments Resolved {A} a.
Arguments EnvironmentError {A} env_key.

(** [s.startswith(prefix)] *)
Fixpoint startswith (prefix s : string) : bool :=
  match prefix, s with
  | EmptyString, _ => true
  | String a prefix', String b s' => Ascii.eqb a b && startswith prefix' s'
  | String _ _, EmptyString => false
  end.

(** [s.endswith("}")] *)
Fixpoint endswith_brace (s : string) : bool :=
  match s with
  | EmptyString => false
  | String a EmptyString => Ascii.eqb a "}"
  | String _ rest => endswith_brace rest
  end.

(** [s[:-1]] *)
Fixpoint drop_last (s : string) : string :=
  match s with
  | EmptyString => EmptyString
  | String a EmptyString => EmptyString
  | String a rest => String a (drop_last rest)
  end.

(** [s[2:-1]] *)
Definition env_key_of (s : string) : string :=
  match s with
  | String _ (String _ rest) => drop_last rest
  | _ => EmptyString
  end.

Definition is_placeholder (s : string) : bool :=
  startswith "${" s && endswith_brace s.

Section Resolve.
(** [os.environ] *)
Variable environ : gmap string string.

(** The inner [resolve] of [_resolve_env_placeholders]. *)
Fixpoint resolve (v : value) : outcome value :=
  match v with
  | Str s =>
      if is_placeholder s
      then
        let env_key := env_key_of s in
        match environ !! env_key with
        | None => EnvironmentError env_key
        | Some env_value => Resolved (Str env_value)
        end
      else Resolved v
  | Dict items =>
      let fix resolve_items (items : list (string * value))
          : outcome (list (string * value)) :=
        match items with
        | [] => Resolved []
        | (k, v) :: rest =>
            match resolve v with
            | EnvironmentError env_key => EnvironmentError env_key
            | Resolved v' =>
                match resolve_items rest with
                | EnvironmentError env_key => EnvironmentError env_key
                | Resolved rest' => Resolved ((k, v') :: rest')
                end
            end
        end in
      match resolve_items items with
      | EnvironmentError env_key => EnvironmentError env_key
      | Resolved items' => Resolved (Dict items')
      end
  | List items =>
      let fix resolve_list (items : list value) : outcome (list value) :=
        match items with
        | [] => Resolved []
        | item :: rest =>
            match resolve item with
            | EnvironmentError env_key => EnvironmentError env_key
            | Resolved item' =>
                match resolve_list rest with
                | EnvironmentError env_key => EnvironmentError env_key
                | Resolved rest' => Resolved (item' :: rest')
                end
            end
        end in
      match resolve_list items with
      | EnvironmentError env_key => EnvironmentError env_key
      | Resolved items' => Resolved (List items')
      end
  | _ => Resolved v
  end.

Definition _resolve_env_placeholders (raw : value) : outcome value := resolve raw.

End Resolve.

(** The environment variables a configuration refers to, in the order
    resolution meets them. *)
Fixpoint placeholders (v : value) : list string :=
  match v with
  | Str s => if is_placeholder s then [env_key_of s] else []
  | List items => flat_map placeholders items
  | Dict items => flat_map (fun item => placeholders (snd item)) items
  | _ => []
  end.

(** Same tree, up to the text of its strings. *)
Fixpoint same_shape (v w : value) : Prop :=
  match v, w with
  | Null, Null => True
  | Bool b, Bool c => b = c
  | Int n, Int m => n = m
  | Float x, Float y => x = y
  | Str s, Str r => is_placeholder s = false -> s = r
  | List items, List items' =>
      (fix all2 (l l' : list value) : Prop :=
         match l, l' with
         | [], [] => True
         | x :: r, x' :: r' => same_shape x x' /\ all2 r r'
         | _, _ => False
         end) items items'
  | Dict items, Dict items' =>
      (fix all2 (l l' : list (string * value)) : Prop :=
         match l, l' with
         | [], [] => True
         | (k, x) :: r, (k', x') :: r' => k = k' /\ same_shape x x' /\ all2 r r'
         | _, _ => False
         end) items items'
  | _, _ => False
  end.

(** Induction on a configuration tree, with the induction hypothesis
    for every item of a list and every value of a mapping. *)
Section ValueInduction.
Variable P : value -> Prop.
Hypothesis P_null : P Null.
Hypothesis P_bool : forall b, P (Bool b).
Hypothesis P_int : forall n, P (Int n).
Hypothesis P_float : forall x, P (Float x).
Hypothesis P_str : forall s, P (Str s).
Hypothesis P_list : forall items, Forall P items -> P (List items).
Hypothesis P_dict : forall items, Forall (fun item => P (snd item)) items -> P (Dict items).

Fixpoint value_rect_nested (v : value) : P v :=
  match v with
  | Null => P_null
  | Bool b => P_bool b
  | Int n => P_int n
  | Float x => P_float x
  | Str s => P_str s
  | List items =>
      P_list items
        ((fix all (l : list value) : Forall P l :=
            match l with
            | [] => Forall_nil_2 P
            | x :: r => Forall_cons_2 P x r (value_rect_nested x) (all r)
            end) items)
  | Dict items =>
      P_dict items
        ((fix all (l : list (string * value)) : Forall (fun item => P (snd item)) l :=
            match l with
            | [] => Forall_nil_2 _
            | x :: r => Forall_cons_2 _ x r (value_rect_nested (snd x)) (all r)
            end) items)
  end.
End ValueInduction.

End Config.

(* ===================================================================== *)
(** ** services/reconciliation_service.py                                 *)
(* ===================================================================== *)

Module ReconciliationService.

(** One entry of [fetch_positions], with the keys [_verify_position]
    reads; the quantities are numbers, as in ccxt's unified structure. *)
Module ExchangePosition.
Record t := {
  symbol : option string;
  contracts : option float;
  positionAmt : option float;
  size : option float
}.
End ExchangePosition.

(** One entry of [fetch_open_orders]. For [type] the two ways of having
    no string differ: an absent key ([None]) reads as [""], a null value
    ([Some None]) has no [lower]. *)
Module OpenOrder.
Record t := {
  reduceOnly : option bool;
  type : option (option string)
}.
End OpenOrder.

(** The [reinstall_stop] event. *)
Module Repair.
Record Payload := {
  symbol : string;
  exchange : string;
  strategy : string;
  quantity : float;
  stop_price : float
}.
Record t := {
  type : string;
  payload : Payload
}.
End Repair.

(** How a call of the venue adapter ended. *)
Inductive fetched (A : Type) :=
  | Fetched (a : A)
  | FetchFailed (error : string).
Arguments Fetched {A} a.
Arguments FetchFailed {A} error.

(** What the [try] of [_reconcile_once] may catch. *)
Inductive caught :=
  | VenueError (error : string)
  | AttributeError.

(** [c.lower()] on an ASCII letter; bytes of other characters are kept
    (none of them is a letter of ["stop"]). *)
Definition lower_char (c : ascii) : ascii :=
  let n := nat_of_ascii c in
  if (65 <=? n)%nat && (n <=? 90)%nat then ascii_of_nat (n + 32) else c.

Fixpoint lower (s : string) : string :=
  match s with
  | EmptyString => EmptyString
  | String c rest => String (lower_char c) (lower rest)
  end.

(** [a or b] *)
Definition or_else (a b : option float) : option float :=
  if PyFloat.truthy_opt a then a else b.

(** [_has_reduce_only_stop]; the position itself is not looked at. *)
Fixpoint _has_reduce_only_stop (local : Position.t) (open_orders : list OpenOrder.t)
    : caught + bool :=
  match open_orders with
  | [] => inr false
  | order :: rest =>
      if default false (OpenOrder.reduceOnly order)
      then
        match default (Some EmptyString) (OpenOrder.type order) with
        | None => inl AttributeError
        | Some order_type =>
            if Config.startswith "stop" (lower order_type)
            then inr true
            else _has_reduce_only_stop local rest
        end
      else _has_reduce_only_stop local rest
  end.

Section Service.

Context {Venue : Type}.
Variable fetch_positions :
  Venue -> list string -> Venue * fetched (list ExchangePosition.t).
Variable fetch_open_orders :
  Venue -> string -> Venue * fetched (list OpenOrder.t).

(** The service with what it reads and writes: the [positions] table, its
    venue clients, the [auto_repair] setting, the name of the
    [reconciliations] stream, the bus as the sequence of [publish] calls
    (the bus is connected, so [publish] returns), and the log. *)
Record t := {
  positions : list Position.t;
  _clients : gmap string Venue;
  auto_repair : bool;
  reconciliations : string;
  published : list (string * Repair.t);
  log : list (level * string)
}.

Definition logger (lvl : level) (event : string) (s : t) : t :=
  {| positions := positions s; _clients := _clients s;
     auto_repair := auto_repair s; reconciliations := reconciliations s;
     published := published s; log := log s ++ [(lvl, event)] |}.

Definition publish (stream : string) (event : Repair.t) (s : t) : t :=
  {| positions := positions s; _clients := _clients s;
     auto_repair := auto_repair s; reconciliations := reconciliations s;
     published := published s ++ [(stream, event)]; log := log s |}.

Definition set_client (name : string) (venue : Venue) (s : t) : t :=
  {| positions := positions s; _clients := <[name := venue]> (_clients s);
     auto_repair := auto_repair s; reconciliations := reconciliations s;
     published := published s; log := log s |}.

Definition _publish_stop_repair (position : Position.t) (s : t) : t :=
  let streams := reconciliations s in
  let payload :=
    {| Repair.symbol := Position.symbol position;
       Repair.exchange := Position.exchange position;
       Repair.strategy := Position.strategy position;
       Repair.quantity := Position.quantity position;
       Repair.stop_price := Position.stop_price position |} in
  logger Warning "reconciliation.requested_stop_repair"
    (publish streams {| Repair.type := "reinstall_stop"; Repair.payload := payload |} s).

Definition _verify_position (local : Position.t)
    (exchange_positions : list ExchangePosition.t) (open_orders : list OpenOrder.t)
    (s : t) : t * option caught :=
  let matching :=
    List.find
      (fun p => bool_decide (ExchangePosition.symbol p = Some (Position.symbol local)))
      exchange_positions in
  match matching with
  | None => (logger Critical "reconciliation.position_missing_on_exchange" s, None)
  | Some matching =>
      let qty :=
        or_else (or_else (ExchangePosition.contracts matching)
                         (ExchangePosition.positionAmt matching))
                (ExchangePosition.size matching) in
      let s :=
        match qty with
        | Some qty =>
            if PrimFloat.eqb (PrimFloat.abs qty) 0
            then logger Critical "reconciliation.position_closed_but_local_open" s
            else s
        | None => s
        end in
      match _has_reduce_only_stop local open_orders with
      | inl exc => (s, Some exc)
      | inr true => (s, None)
      | inr false =>
          let s := logger Critical "reconciliation.stop_missing" s in
          if auto_repair s
          then (_publish_stop_repair local s, None)
          else (s, None)
      end
  end.

(** The body of the [for] loop of [_reconcile_once], for one of the
    instances the query loaded. [position.exchange] is read before the
    [try]; what the venue or the check raises inside the [try] is caught
    and logged. The handler reads the two columns again for its log
    line, so a column that cannot be read inside the [try] cannot be
    read there either, and that exception leaves the loop. *)
Definition reconcile_position (position : Orm.instance Position.t) (s : t)
    : t * result unit :=
  match Orm.getattr Position.exchange position with
  | Raise e => (s, Raise e)
  | Ok exchange =>
      match _clients s !! exchange with
      | None => (s, Ok tt)
      | Some client =>
          let failed (s : t) :=
            logger Error "reconciliation.exchange_fetch_failed" s in
          match Orm.getattr Position.symbol position with
          | Raise e => (s, Raise e)
          | Ok symbol =>
              match fetch_positions client [symbol] with
              | (client, FetchFailed error) =>
                  (failed (set_client exchange client s), Ok tt)
              | (client, Fetched exchange_positions) =>
                  match fetch_open_orders client symbol with
                  | (client, FetchFailed error) =>
                      (failed (set_client exchange client s), Ok tt)
                  | (client, Fetched open_orders) =>
                      let s := set_client exchange client s in
                      match _verify_position (Orm.row position) exchange_positions
                              open_orders s with
                      | (s, Some exc) => (failed s, Ok tt)
                      | (s, None) => (s, Ok tt)
                      end
                  end
              end
          end
      end
  end.

(** The [for] loop: an exception that leaves the body ends it. *)
Fixpoint reconcile_all (positions : list (Orm.instance Position.t)) (s : t)
    : t * result unit :=
  match positions with
  | [] => (s, Ok tt)
  | position :: rest =>
      match reconcile_position position s with
      | (s, Ok _) => reconcile_all rest s
      | (s, Raise e) => (s, Raise e)
      end
  end.

(** [_reconcile_once]: the rows are loaded inside [session_scope], and
    the loop over them runs after the scope is left. *)
Definition _reconcile_once (s : t) : t * result unit :=
  let positions := Orm.session_scope_exit (Orm.query_all (positions s)) in
  reconcile_all positions s.

End Service.

End ReconciliationService.

(* ===================================================================== *)
(** ** services/data_service.py                                           *)
(* ===================================================================== *)

Module DataService.

(** One entry of [settings.exchanges], with the keys [_poll_once] reads. *)
Record ExchangeConf := {
  name : string;
  symbols : option (list string)
}.

(** The [market_data] event. *)
Module MarketEvent.
Record Payload := {
  exchange : string;
  symbol : string;
  timeframe : string;
  data : list (list float);
  timestamp : string
}.
Record t := {
  type : string;
  payload : Payload
}.
End MarketEvent.

Section Service.

(** [fetch_ohlcv symbol timeframe limit] is the venue adapter's;
    [utcnow n] is [datetime.utcnow().isoformat()] at its [n]-th reading.
    The bus is connected, so [publish] returns and is the append to
    [published]. *)
Context {Venue : Type}.
Variable fetch_ohlcv :
  Venue -> string -> string -> nat
  -> Venue * ReconciliationService.fetched (list (list float)).
Variable utcnow : nat -> string.

Record t := {
  exchanges : list ExchangeConf;
  market_data : string;
  _clients : gmap string Venue;
  published : list (string * MarketEvent.t);
  log : list (level * string);
  clock : nat
}.

(** The body of the inner [for] loop: one symbol of one exchange. *)
Definition poll_symbol (exchange_name : string) (symbol : string) (s : t) : t :=
  match _clients s !! exchange_name with
  | None => s
  | Some client =>
      match fetch_ohlcv client symbol "1m" 2 with
      | (client, ReconciliationService.Fetched ohlcv) =>
          let event :=
            {| MarketEvent.type := "market_data";
               MarketEvent.payload :=
                 {| MarketEvent.exchange := exchange_name;
                    MarketEvent.symbol := symbol;
                    MarketEvent.timeframe := "1m";
                    MarketEvent.data := ohlcv;
                    MarketEvent.timestamp := utcnow (clock s) |} |} in
          {| exchanges := exchanges s; market_data := market_data s;
             _clients := <[exchange_name := client]> (_clients s);
             published := published s ++ [(market_data s, event)];
             log := log s ++ [(Info, "data_service.published")];
             clock := S (clock s) |}
      | (client, ReconciliationService.FetchFailed error) =>
          {| exchanges := exchanges s; market_data := market_data s;
             _clients := <[exchange_name := client]> (_clients s);
             published := published s;
             log := log s ++ [(Error, "data_service.fetch_failed")];
             clock := clock s |}
      end
  end.

(** The body of the outer loop: one configured exchange. *)
Definition poll_exchange (exchange_conf : ExchangeConf) (s : t) : t :=
  let exchange_name := name exchange_conf in
  let symbols := default [] (symbols exchange_conf) in
  match _clients s !! exchange_name with
  | None => s
  | Some _ =>
      fold_left (fun s symbol => poll_symbol exchange_name symbol s) symbols s
  end.

Definition _poll_once (s : t) : t :=
  fold_left (fun s exchange_conf => poll_exchange exchange_conf s) (exchanges s) s.

End Service.

End DataService.

(* ===================================================================== *)
(** ** Vocabulary of the statements                                       *)
(* ===================================================================== *)

Definition opposite (side : OrderSide) : OrderSide :=
  match side with BUY => SELL | SELL => BUY end.

(** The side [_handle_signal] gives an order: a buy for the decision
    ["buy"], a sell for anything else. *)
Definition side_of (decision : option string) : OrderSide :=
  if bool_decide (decision = Some "buy") then BUY else SELL.

(** A signal the execution service handles rather than drops: its
    exchange has a client and both risk fields are truthy. *)
Definition accepted {Venue} (clients : gmap string Venue) (event : Event) : bool :=
  let p := payload event in
  let risk := default ∅ (Payload.risk p) in
  match Payload.exchange p ≫= (fun name => clients !! name) with
  | Some _ =>
      PyFloat.truthy_opt (risk !! "position_size")
      && PyFloat.truthy_opt (risk !! "stop_distance")
  | None => false
  end.

(** The [orders] row a dry run records for a signal. *)
Definition dry_run_row {Resp} (event : Event) (row : Order.t Resp) : Prop :=
  let p := payload event in
  Order.status row = NEW
  /\ Order.raw_response row = ResponseDict {[ "status" := "dry_run" ]}
  /\ Order.type row = LIMIT
  /\ Order.side row = side_of (Payload.decision p)
  /\ Payload.exchange p = Some (Order.exchange row)
  /\ Payload.symbol p = Some (Order.symbol row)
  /\ Payload.strategy p = Some (Order.strategy row)
  /\ Payload.price p = Order.price row
  /\ default ∅ (Payload.risk p) !! "position_size" = Some (Order.quantity row).

(** The hysteresis band [[slow_ma * 0.999, slow_ma * 1.001]], closed at
    both ends. *)
Definition in_band (fast_ma slow_ma : float) : bool :=
  PrimFloat.leb (PrimFloat.mul slow_ma 0.999) fast_ma
  && PrimFloat.leb fast_ma (PrimFloat.mul slow_ma 1.001).

(** No row of the table has been closed. *)
Definition all_open (rows : list Position.t) : Prop :=
  Forall (fun p => Position.closed_at p = None) rows.

(** What a failed commit of [_record_order] raises: the binding error of
    SQLite, a value PostgreSQL does not take, or a constraint. *)
Definition commit_error (e : exn) : Prop :=
  e = ProgrammingError \/ e = DataError \/ e = IntegrityError.

(** A property of the execution service's state that a computation never
    breaks, whether it returns or raises. *)
Definition preserves {Venue Resp A}
    (I : @ExecutionService.t Venue Resp -> Prop)
    (m : @ExecutionService.M Venue Resp A) : Prop :=
  forall s, I s -> I (fst (m s)).

(** What [filter_by(symbol, exchange, strategy)] tells rows apart by. *)
Definition position_key (p : Position.t) : string * string * string :=
  (Position.symbol p, Position.exchange p, Position.strategy p).

(** The quantity an order adds to a position: negative for a sell. *)
Definition signed_quantity (side : OrderSide) (amount : float) : float :=
  match side with BUY => amount | SELL => PrimFloat.opp amount end.

(** The row [_update_position] inserts. *)
Definition new_position (symbol exchange strategy : string)
    (quantity entry_price stop_price : float) : Position.t :=
  {| Position.symbol := symbol; Position.exchange := exchange;
     Position.strategy := strategy; Position.quantity := quantity;
     Position.entry_price := entry_price; Position.stop_price := stop_price;
     Position.take_profit_price := None;
     Position.reduce_only_stop_installed := true;
     Position.closed_at := None |}.

(** The row [_update_position] leaves where it found [p]. *)
Definition merged_position (p : Position.t)
    (quantity entry_price stop_price : float) : Position.t :=
  {| Position.symbol := Position.symbol p; Position.exchange := Position.exchange p;
     Position.strategy := Position.strategy p;
     Position.quantity := PrimFloat.add (Position.quantity p) quantity;
     Position.entry_price := entry_price; Position.stop_price := stop_price;
     Position.take_profit_price := Position.take_profit_price p;
     Position.reduce_only_stop_installed := true;
     Position.closed_at := Position.closed_at p |}.

(** The portfolio the risk service checks a signal against: the table's
    risk with the candidate's added, no loss and no drawdown. *)
Definition candidate_state (s : RiskService.t) (stop_distance position_size : float)
    : PortfolioState :=
  {| equity := RiskService._equity s;
     open_risk :=
       PrimFloat.add (RiskService._calculate_open_risk s)
         (PrimFloat.mul stop_distance position_size);
     cumulative_drawdown := 0;
     daily_loss := 0;
     volatility_scalar := 1 |}.

Definition approved_event (event : Event) : Event :=
  {| type := "approved_signal"; payload := Payload.approve (payload event) |}.

(** What lets a signal through: both risk fields truthy, no breaker
    tripped by the portfolio with the candidate's risk added, and a
    notional over equity within [max_leverage], which the dumped
    configuration always holds (the default 1.0 of the lookup never
    applies). *)
Definition approvable (s : RiskService.t) (event : Event) : Prop :=
  let risk := default ∅ (Payload.risk (payload event)) in
  exists stop_distance position_size,
    risk !! "stop_distance" = Some stop_distance
    /\ risk !! "position_size" = Some position_size
    /\ PyFloat.truthy stop_distance = true
    /\ PyFloat.truthy position_size = true
    /\ apply_circuit_breakers (candidate_state s stop_distance position_size)
         (RiskService.risk s) = false
    /\ PrimFloat.eqb (RiskService._equity s) 0 = false
    /\ PyFloat.gt (PrimFloat.div position_size (RiskService._equity s))
         (RiskConfig.max_leverage (RiskService.settings_risk s)) = false.

(** The signal payload a strategy's decision is published as. *)
Definition signal_payload (strategy_name : string) (exchange symbol : option string)
    (close_price : float) (decision : StrategyService.Decision) : Payload.t :=
  {| Payload.strategy := Some strategy_name;
     Payload.exchange := exchange;
     Payload.symbol := symbol;
     Payload.decision := Some (StrategyService.action decision);
     Payload.confidence := Some (StrategyService.confidence decision);
     Payload.price := Some close_price;
     Payload.risk_member := Member (StrategyService.risk decision);
     Payload.risk_approved := None |}.

(** A published signal that stems from one of the given strategies. *)
Definition signal_of (strategies : list (string * StrategyService.Parameters))
    (exchange symbol : option string) (close_price : float)
    (signal_stream : string) (published : string * Event) : Prop :=
  fst published = signal_stream
  /\ type (snd published) = "signal"
  /\ exists strategy_name decision,
       In strategy_name (map fst strategies)
       /\ (StrategyService.action decision = "buy"
           \/ StrategyService.action decision = "sell")
       /\ payload (snd published)
          = signal_payload strategy_name exchange symbol close_price decision.

(** Every stored history holds at most 500 closes. *)
Definition histories_bounded
    (price_history : gmap (option string * option string) (list float)) : Prop :=
  forall key history, price_history !! key = Some history -> length history <= 500.

(** The first referenced variable the environment does not define. *)
Definition first_unset (environ : gmap string string) (keys : list string)
    : option string :=
  List.find (fun k => bool_decide (environ !! k = None)) keys.

(** What resolution comes to, read off the list of referenced variables. *)
Definition resolves_to (environ : gmap string string) (v : Config.value)
    (r : Config.outcome Config.value) : Prop :=
  match first_unset environ (Config.placeholders v) with
  | Some env_key => r = Config.EnvironmentError env_key
  | None => exists v', r = Config.Resolved v' /\ Config.same_shape v v'
  end.

(** The repair request for a local position. *)
Definition repair_of (position : Position.t) : ReconciliationService.Repair.t :=
  {| ReconciliationService.Repair.type := "reinstall_stop";
     ReconciliationService.Repair.payload :=
       {| ReconciliationService.Repair.symbol := Position.symbol position;
          ReconciliationService.Repair.exchange := Position.exchange position;
          ReconciliationService.Repair.strategy := Position.strategy position;
          ReconciliationService.Repair.quantity := Position.quantity position;
          ReconciliationService.Repair.stop_price := Position.stop_price position |} |}.


(** The venue reports the position as flat: nothing truthy under
    [contracts] or [positionAmt], and a zero under [size]. *)
Definition reported_flat (p : ReconciliationService.ExchangePosition.t) : bool :=
  negb (PyFloat.truthy_opt (ReconciliationService.ExchangePosition.contracts p))
  && negb (PyFloat.truthy_opt (ReconciliationService.ExchangePosition.positionAmt p))
  && match ReconciliationService.ExchangePosition.size p with
     | Some z => PrimFloat.eqb z 0
     | None => false
     end.

(** What the check of a position leaves alone: the table, the settings
    and the set of exchanges that have a client. *)
Definition same_settings {Venue} (s s' : @ReconciliationService.t Venue) : Prop :=
  ReconciliationService.positions s' = ReconciliationService.positions s
  /\ ReconciliationService.auto_repair s' = ReconciliationService.auto_repair s
  /\ ReconciliationService.reconciliations s'
     = ReconciliationService.reconciliations s
  /\ dom (ReconciliationService._clients s') = dom (ReconciliationService._clients s).

(** The (exchange, symbol) pairs one poll asks the venues about. *)
Definition polled_pairs {Venue} (clients : gmap string Venue)
    (exchanges : list DataService.ExchangeConf) : list (string * string) :=
  flat_map
    (fun conf =>
       match clients !! DataService.name conf with
       | Some _ =>
           map (fun symbol => (DataService.name conf, symbol))
             (default [] (DataService.symbols conf))
       | None => []
       end) exchanges.

(** A published event that reports the given pair. *)
Definition reports (stream : string) (pair : string * string)
    (item : string * DataService.MarketEvent.t) : Prop :=
  fst item = stream
  /\ DataService.MarketEvent.type (snd item) = "market_data"
  /\ DataService.MarketEvent.exchange (DataService.MarketEvent.payload (snd item))
     = fst pair
  /\ DataService.MarketEvent.symbol (DataService.MarketEvent.payload (snd item))
     = snd pair
  /\ DataService.MarketEvent.timeframe (DataService.MarketEvent.payload (snd item))
     = "1m".

(** The log line a fetch leaves, by whether it succeeded. *)
Definition poll_line (ok : bool) : level * string :=
  if ok then (Info, "data_service.published") else (Error, "data_service.fetch_failed").

(** The pairs whose fetch succeeded. *)
Definition answered (pairs : list (string * string)) (outcomes : list bool)
    : list (string * string) :=
  map fst (List.filter snd (combine pairs outcomes)).

(** What polling the given pairs, in order, makes of the service: one log
    line per pair and one event per pair that was answered. *)
Definition polled {Venue} (pairs : list (string * string))
    (s s' : @DataService.t Venue) : Prop :=
  DataService.exchanges s' = DataService.exchanges s
  /\ DataService.market_data s' = DataService.market_data s
  /\ dom (DataService._clients s') = dom (DataService._clients s)
  /\ exists outcomes events,
       length outcomes = length pairs
       /\ DataService.log s' = DataService.log s ++ map poll_line outcomes
       /\ DataService.published s' = DataService.published s ++ events
       /\ Forall2 (reports (DataService.market_data s)) (answered pairs outcomes)
            events.

(* ===================================================================== *)
(** ** Sample data                                                        *)
(* ===================================================================== *)

Module Sample.

Definition settings : RiskSettings :=
  {| max_risk_per_trade := Some 0.02%float;
     max_portfolio_heat := Some 0.06%float;
     max_leverage := Some 1.5%float;
     volatility_targeting := Some empty_volatility_targeting;
     circuit_breakers := Some empty_circuit_breakers |}.

(** The risk section the settings above are dumped from: the defaults of
    [RiskConfig]. *)
Definition risk_config : RiskConfig.t :=
  {| RiskConfig.max_risk_per_trade := 0.02;
     RiskConfig.max_portfolio_heat := 0.06;
     RiskConfig.max_leverage := 1.5;
     RiskConfig.volatility_targeting := empty_volatility_targeting;
     RiskConfig.circuit_breakers := empty_circuit_breakers |}.

Definition overheated : PortfolioState :=
  {| equity := 100000; open_risk := 6000.5; cumulative_drawdown := 0;
     daily_loss := 0; volatility_scalar := 1 |}.

(** A left-to-right mean, to run the strategy on small histories. *)
Definition mean (a : list float) : float :=
  PrimFloat.div (fold_left PrimFloat.add a 0%float)
    (PrimFloat.of_uint63 (Uint63.of_Z (Z.of_nat (length a)))).

Definition parameters : StrategyService.Parameters :=
  {| StrategyService.fast_ma_period := Some 2%Z;
     StrategyService.slow_ma_period := Some 3%Z;
     StrategyService.atr_period := Some 2%Z;
     StrategyService.atr_multiplier := None;
     StrategyService.asset_volatility := None |}.

Definition rising : list float := [100; 101; 103; 106]%float.
Definition flat : list float := [100; 100; 100; 100]%float.
Definition drifting : list float := [1000; 1000; 1000; 1000.5]%float.

(** A position that was closed, with 6000 of risk on its books. *)
Definition closed_position : Position.t :=
  {| Position.symbol := "BTC/USDT"; Position.exchange := "binance";
     Position.strategy := "trend"; Position.quantity := 1000;
     Position.entry_price := 50; Position.stop_price := 44;
     Position.take_profit_price := None;
     Position.reduce_only_stop_installed := true;
     Position.closed_at := Some 1700000000000000000%Z |}.

Definition open_position : Position.t :=
  {| Position.symbol := "ETH/USDT"; Position.exchange := "binance";
     Position.strategy := "trend"; Position.quantity := (-10)%float;
     Position.entry_price := 2000; Position.stop_price := 2050;
     Position.take_profit_price := None;
     Position.reduce_only_stop_installed := true;
     Position.closed_at := None |}.

Definition risk_service (positions : list Position.t) : RiskService.t :=
  {| RiskService.settings_risk := risk_config; RiskService._equity := 100000;
     RiskService.positions := positions; RiskService.published := [];
     RiskService.log := [] |}.

(** A venue that remembers the client order ids it has accepted. *)
Definition accepting (venue : list string) (request : OrderRequest.t)
    : list string * ExecutionService.call_outcome string :=
  (OrderRequest.clientOrderId (OrderRequest.params request) :: venue,
   ExecutionService.Accepted "accepted").

(** The same venue, except that it refuses every stop order. *)
Definition refusing_stops (venue : list string) (request : OrderRequest.t)
    : list string * ExecutionService.call_outcome string :=
  match OrderRequest.type request with
  | STOP_MARKET => (venue, ExecutionService.Failed "stop rejected")
  | _ => accepting venue request
  end.

(** A clock that advances one nanosecond per reading. *)
Definition time_ns (n : nat) : Z := (1700000000000000000 + Z.of_nat n)%Z.

(** An execution service on PostgreSQL with empty tables. *)
Definition execution_service : @ExecutionService.t (list string) string :=
  {| ExecutionService.database := postgresql;
     ExecutionService.orders := [];
     ExecutionService.positions := [];
     ExecutionService._clients := {[ "binance" := [] ]};
     ExecutionService.calls := [];
     ExecutionService.log := [];
     ExecutionService.clock := 0 |}.

Definition signal (risk : gmap string float) : Event :=
  {| type := "signal";
     payload :=
       {| Payload.strategy := Some "trend"; Payload.exchange := Some "binance";
          Payload.symbol := Some "BTC/USDT"; Payload.decision := Some "buy";
          Payload.confidence := Some 0.6%float; Payload.price := Some 100%float;
          Payload.risk_member := Member risk; Payload.risk_approved := None |} |}.

Definition approved_signal : Event :=
  {| type := "approved_signal";
     payload :=
       Payload.approve
         (payload (signal {[ "stop_distance" := 4%float;
                             "position_size" := 500%float ]})) |}.

(** A signal for an exchange the service has no client for. *)
Definition stray_signal : Event :=
  {| type := "approved_signal";
     payload :=
       {| Payload.strategy := Some "trend"; Payload.exchange := Some "kraken";
          Payload.symbol := Some "BTC/USDT"; Payload.decision := Some "sell";
          Payload.confidence := Some 0.6%float; Payload.price := Some 100%float;
          Payload.risk_member := Member {[ "stop_distance" := 4%float;
                                  "position_size" := 500%float ]};
          Payload.risk_approved := Some true |} |}.

End Sample.

(** Further sample data: venues, feeds and states the services are run
    on below. *)
Module Scenario.

(** A venue that refuses every order. *)
Definition refusing (venue : list string) (request : OrderRequest.t)
    : list string * ExecutionService.call_outcome string :=
  (venue, ExecutionService.Failed "insufficient margin").

Definition risk : gmap string float :=
  {[ "stop_distance" := 4%float; "position_size" := 500%float ]}.


(** A signal whose [risk] is a JSON null. *)
Definition null_risk_signal : Event :=
  {| type := "approved_signal";
     payload :=
       {| Payload.strategy := Some "trend"; Payload.exchange := Some "binance";
          Payload.symbol := Some "BTC/USDT"; Payload.decision := Some "buy";
          Payload.confidence := Some 0.6%float; Payload.price := Some 100%float;
          Payload.risk_member := Null;
          Payload.risk_approved := Some true |} |}.

(** The execution service of [Sample] on SQLite, the default engine of
    [DatabaseConfig]. *)
Definition sqlite_execution_service : @ExecutionService.t (list string) string :=
  {| ExecutionService.database := sqlite;
     ExecutionService.orders := [];
     ExecutionService.positions := [];
     ExecutionService._clients := {[ "binance" := [] ]};
     ExecutionService.calls := [];
     ExecutionService.log := [];
     ExecutionService.clock := 0 |}.

(** A risk service whose account is empty. *)
Definition broke_risk_service : RiskService.t :=
  {| RiskService.settings_risk := Sample.risk_config; RiskService._equity := 0;
     RiskService.positions := []; RiskService.published := [];
     RiskService.log := [] |}.

(** A strategy service with one trend strategy and three closes on
    record, and the candle that brings the fourth. *)
Definition strategy_service : StrategyService.t :=
  {| StrategyService.strategy_configs := [("trend", Sample.parameters)];
     StrategyService.risk_settings := Sample.settings;
     StrategyService.price_history :=
       {[ (Some "binance", Some "BTC/USDT") := [100; 101; 103]%float ]};
     StrategyService.published := [] |}.

Definition candle : StrategyService.MarketData.t :=
  {| StrategyService.MarketData.exchange := Some "binance";
     StrategyService.MarketData.symbol := Some "BTC/USDT";
     StrategyService.MarketData.data :=
       [[1700000000000; 103; 107; 102; 106; 12.5]%float] |}.

(** Two events published on two streams. *)
Definition batch : list (string * Event) :=
  [("signals", Sample.signal risk); ("approved_signals", Sample.approved_signal)].

(** A configuration without placeholders. *)
Definition config : Config.value :=
  Config.Dict
    [("database",
      Config.Dict [("url", Config.Str "sqlite:///trader.db");
                   ("echo", Config.Bool false)]);
     ("exchanges",
      Config.List
        [Config.Dict [("name", Config.Str "binance");
                      ("symbols", Config.List [Config.Str "BTC/USDT"])]])].

(** A venue that reports the local short as flat and protected by
    nothing. *)
Definition flat_position : ReconciliationService.ExchangePosition.t :=
  {| ReconciliationService.ExchangePosition.symbol := Some "ETH/USDT";
     ReconciliationService.ExchangePosition.contracts := Some 0%float;
     ReconciliationService.ExchangePosition.positionAmt := None;
     ReconciliationService.ExchangePosition.size := Some 0%float |}.

Definition fetch_positions (venue : unit) (symbols : list string)
    : unit * ReconciliationService.fetched
               (list ReconciliationService.ExchangePosition.t) :=
  (venue, ReconciliationService.Fetched [flat_position]).

Definition fetch_open_orders (venue : unit) (symbol : string)
    : unit * ReconciliationService.fetched (list ReconciliationService.OpenOrder.t) :=
  (venue, ReconciliationService.Fetched []).

Definition reconciliation_service : @ReconciliationService.t unit :=
  {| ReconciliationService.positions := [Sample.open_position];
     ReconciliationService._clients := {[ "binance" := tt ]};
     ReconciliationService.auto_repair := false;
     ReconciliationService.reconciliations := "reconciliations";
     ReconciliationService.published := [];
     ReconciliationService.log := [] |}.

End Scenario.


(* ===================================================================== *)
(** ** Facts about binary64 comparisons                                   *)
(* ===================================================================== *)

Module FloatFacts.

Lemma SFcompare_antisym (f1 f2 : spec_float) :
  SFcompare f2 f1 = option_map CompOpp (SFcompare f1 f2).
Proof.
  destruct f1 as [s1|s1| |s1 m1 e1], f2 as [s2|s2| |s2 m2 e2]; simpl;
    try destruct s1; try destruct s2; try reflexivity;
    rewrite (Z.compare_antisym e1 e2); destruct (e1 ?= e2)%Z; simpl;
    try reflexivity;
    rewrite (ZC4 m1 m2); destruct (Pos.compare_cont Eq m2 m1); reflexivity.
Qed.

Lemma ltb_leb (a b : float) : PrimFloat.ltb a b = true -> PrimFloat.leb a b = true.
Proof.
  rewrite ltb_spec, leb_spec. unfold SFltb, SFleb.
  destruct (SFcompare (Prim2SF a) (Prim2SF b)) as [[]|]; congruence.
Qed.

Lemma leb_not_gt (a b : float) : PrimFloat.leb a b = true -> PrimFloat.ltb b a = false.
Proof.
  rewrite ltb_spec, leb_spec. unfold SFltb, SFleb.
  rewrite (SFcompare_antisym (Prim2SF a) (Prim2SF b)).
  destruct (SFcompare (Prim2SF a) (Prim2SF b)) as [[]|]; simpl; congruence.
Qed.

Lemma ltb_asym (a b : float) : PrimFloat.ltb a b = true -> PrimFloat.ltb b a = false.
Proof. intros H. apply leb_not_gt, ltb_leb, H. Qed.

Lemma ltb_irrefl (a : float) : PrimFloat.ltb a a = false.
Proof.
  destruct (PrimFloat.ltb a a) eqn:E; [|reflexivity].
  rewrite (ltb_asym a a E) in E. discriminate.
Qed.

Lemma leb_refl (a : float) : PrimFloat.is_nan a = false -> PrimFloat.leb a a = true.
Proof.
  unfold PrimFloat.is_nan. rewrite FloatAxioms.eqb_spec, leb_spec.
  unfold SFeqb, SFleb.
  destruct (SFcompare (Prim2SF a) (Prim2SF a)) as [[]|]; simpl; congruence.
Qed.

Lemma gt_zero (a : float) :
  PrimFloat.ltb 0 a = true ->
  PrimFloat.leb a 0 = false /\ PrimFloat.eqb a 0 = false.
Proof.
  rewrite ltb_spec, leb_spec, FloatAxioms.eqb_spec. unfold SFltb, SFleb, SFeqb.
  rewrite (SFcompare_antisym (Prim2SF 0) (Prim2SF a)).
  destruct (SFcompare (Prim2SF 0) (Prim2SF a)) as [[]|]; simpl; intros H;
    try discriminate; auto.
Qed.

Lemma min_cases (a b : float) :
  PyFloat.min a b = a \/ (PyFloat.min a b = b /\ PrimFloat.ltb b a = true).
Proof. unfold PyFloat.min. destruct (PrimFloat.ltb b a); auto. Qed.

(** Two floats told apart by a comparison are different values. *)
Lemma eqb_false_neq (a b : float) : PrimFloat.eqb a a = true -> PrimFloat.eqb a b = false -> a <> b.
Proof. intros Ha Hab ->. congruence. Qed.

End FloatFacts.

(* ===================================================================== *)
(** ** Order ids                                                          *)
(* ===================================================================== *)

Module Blake2bFacts.

Lemma blake2b_length (data : list Z) (nn : nat) :
  length (Blake2b.blake2b data nn) = nn.
Proof. unfold Blake2b.blake2b. rewrite length_map. apply length_seq. Qed.

Lemma hex_digit_is_hex (n : Z) : is_hex_char (Blake2b.hex_digit n) = true.
Proof.
  unfold Blake2b.hex_digit.
  generalize (Z.to_nat n). intros k.
  do 16 (destruct k as [|k]; [reflexivity|]).
  destruct k; reflexivity.
Qed.

Lemma hexdigest_chars (digest : list Z) :
  forallb is_hex_char (list_ascii_of_string (Blake2b.hexdigest digest)) = true.
Proof.
  unfold Blake2b.hexdigest. rewrite list_ascii_of_string_of_list_ascii.
  induction digest as [|b digest IH]; [reflexivity|].
  cbn [flat_map Blake2b.hex_of_byte app forallb].
  rewrite !hex_digit_is_hex. exact IH.
Qed.

Lemma hexdigest_length (digest : list Z) :
  String.length (Blake2b.hexdigest digest) = (2 * length digest)%nat.
Proof.
  unfold Blake2b.hexdigest.
  induction digest as [|b digest IH]; [reflexivity|].
  cbn [flat_map Blake2b.hex_of_byte app string_of_list_ascii String.length length].
  rewrite IH. lia.
Qed.

(** The RFC 7693 test vector, and digests [hashlib] gives for zero, one
    and more than one block of input. *)
Example blake2b_512_abc :
  Blake2b.hexdigest (Blake2b.blake2b (Blake2b.encode_utf8 "abc") 64)
  = ("ba80a53f981c4d0d6a2797b69f12f6e94c212f14685ac4b74b12bb6fdbffa2d1"
       ++ "7d87c5392aab792dc252d5de4533cc9518d38aa8dbf1925ab92386edd4009923")%string.
Proof. vm_compute. reflexivity. Qed.

Example blake2b_96_vectors :
  Blake2b.hexdigest (Blake2b.blake2b [] 12) = "b8e1dda3ac0aa3820ad2990b"
  /\ Blake2b.hexdigest (Blake2b.blake2b (repeat 97%Z 128) 12)
     = "e2a76400d48dd7e05fa3d305"
  /\ Blake2b.hexdigest (Blake2b.blake2b (repeat 97%Z 129) 12)
     = "0f5638e1eb4422dcc78b8d07"
  /\ Blake2b.hexdigest (Blake2b.blake2b (repeat 120%Z 300) 12)
     = "9ad2747ceb9b59a561cf6584".
Proof. vm_compute. repeat split. Qed.

End Blake2bFacts.

(** C2: with [timestamp_ns] given, [make_client_order_id] returns the
    same string whatever the clock reads at the call, and that string is
    exactly 24 characters long, each of them a hexadecimal digit. *)
Theorem make_client_order_id_deterministic_24_hex
    (strategy symbol side : string) (timestamp_ns nonce : Z) :
  (forall now now' : Z,
     make_client_order_id now strategy symbol side (Some timestamp_ns) nonce
     = make_client_order_id now' strategy symbol side (Some timestamp_ns) nonce)
  /\ (forall now : Z,
        let id := make_client_order_id now strategy symbol side (Some timestamp_ns) nonce in
        String.length id = 24%nat
        /\ forallb is_hex_char (list_ascii_of_string id) = true).
Proof.
  split.
  - intros now now'. reflexivity.
  - intros now id. subst id. unfold make_client_order_id. split.
    + rewrite Blake2bFacts.hexdigest_length, Blake2bFacts.blake2b_length. reflexivity.
    + apply Blake2bFacts.hexdigest_chars.
Qed.

(** The id of the end-to-end scenario, as [hashlib] computes it. *)
Example make_client_order_id_trend_btc :
  make_client_order_id 0 "trend" "BTC/USDT" "buy" (Some 1700000000000000000%Z) 0
  = "0a4c7487cced1c1bee3dd3a8".
Proof. vm_compute. reflexivity. Qed.

(* ===================================================================== *)
(** ** Risk arithmetic                                                    *)
(* ===================================================================== *)

(** C4: a portfolio state whose open risk is strictly above
    [max_portfolio_heat * equity] (0.06 when the key is absent) makes
    [apply_circuit_breakers] halt, whatever the configuration. *)
Theorem apply_circuit_breakers_heat_halts
    (state : PortfolioState) (config : RiskSettings) :
  PyFloat.gt (open_risk state)
    (PrimFloat.mul (default 0.06%float (max_portfolio_heat config)) (equity state))
  = true ->
  apply_circuit_breakers state config = true.
Proof.
  intros Hheat. unfold apply_circuit_breakers.
  destruct (PrimFloat.leb (daily_loss state) _); [reflexivity|].
  destruct (PrimFloat.leb (cumulative_drawdown state) _); [reflexivity|].
  rewrite Hheat. reflexivity.
Qed.

Lemma apply_circuit_breakers_heat_halts_witness :
  apply_circuit_breakers Sample.overheated Sample.settings = true.
Proof.
  apply apply_circuit_breakers_heat_halts. vm_compute. reflexivity.
Defined.

(** At the cap itself the heat breaker stays quiet. *)
Example apply_circuit_breakers_at_cap :
  apply_circuit_breakers
    {| equity := 100000; open_risk := 6000; cumulative_drawdown := 0;
       daily_loss := 0; volatility_scalar := 1 |} Sample.settings = false.
Proof. vm_compute. reflexivity. Qed.

(** The size [calculate_position_size] returns is the risk-capped size or
    a volatility-targeted size strictly below it. *)
Lemma calculate_position_size_cases
    (equity stop_distance : float) (settings : RiskSettings)
    (asset_vol : option float) (size : float) :
  calculate_position_size equity stop_distance settings asset_vol = Ok size ->
  let cap :=
    PrimFloat.div
      (PrimFloat.mul equity (default 0.02%float (max_risk_per_trade settings)))
      stop_distance in
  PrimFloat.leb stop_distance 0 = false
  /\ (size = cap \/ PrimFloat.ltb size cap = true).
Proof.
  unfold calculate_position_size.
  destruct (PrimFloat.leb stop_distance 0) eqn:Hstop; [discriminate|].
  unfold PyFloat.truediv at 1.
  destruct (PrimFloat.eqb stop_distance PyFloat.zero); [discriminate|].
  cbn [bind].
  destruct (default false _ && PyFloat.truthy_opt asset_vol).
  - destruct (target_portfolio_vol _) as [target_vol|]; [|discriminate].
    destruct asset_vol as [vol|]; [|discriminate].
    destruct (calculate_volatility_targeted_position_value _ _ _) as [value|];
      [|discriminate].
    cbn [bind]. destruct (PyFloat.truediv value stop_distance) as [vol_size|];
      [|discriminate].
    cbn [bind]. intros [= <-]. split; [reflexivity|].
    destruct (FloatFacts.min_cases
                (PrimFloat.div (PrimFloat.mul equity
                   (default 0.02%float (max_risk_per_trade settings))) stop_distance)
                vol_size) as [->|[-> Hlt]]; auto.
  - intros [= <-]. auto.
Qed.

(** C5: for a stop distance above zero, the size [calculate_position_size]
    returns never exceeds [max_risk_per_trade * equity / stop_distance]
    (0.02 when the key is absent), and is at most that bound in the IEEE
    order as soon as the bound is a number; when volatility targeting does
    not apply, the call does return, and returns the bound itself. *)
Theorem calculate_position_size_capped
    (equity stop_distance : float) (settings : RiskSettings)
    (asset_vol : option float) :
  PrimFloat.ltb 0 stop_distance = true ->
  let bound :=
    PrimFloat.div
      (PrimFloat.mul equity (default 0.02%float (max_risk_per_trade settings)))
      stop_distance in
  let targeting :=
    default false
      (enabled (default empty_volatility_targeting (volatility_targeting settings)))
    && PyFloat.truthy_opt asset_vol in
  (forall size,
     calculate_position_size equity stop_distance settings asset_vol = Ok size ->
     PyFloat.gt size bound = false
     /\ (PrimFloat.is_nan bound = false -> PrimFloat.leb size bound = true))
  /\ (targeting = false ->
      calculate_position_size equity stop_distance settings asset_vol = Ok bound).
Proof.
  intros Hstop. cbv zeta. split.
  - intros size Hsize.
    destruct (calculate_position_size_cases _ _ _ _ _ Hsize) as [_ [->|Hlt]];
      unfold PyFloat.gt.
    + split; [apply FloatFacts.ltb_irrefl | apply FloatFacts.leb_refl].
    + split; [apply FloatFacts.ltb_asym, Hlt | intros _; apply FloatFacts.ltb_leb, Hlt].
  - intros Hoff. destruct (FloatFacts.gt_zero _ Hstop) as [Hle Heq].
    unfold calculate_position_size, PyFloat.truediv, PyFloat.zero.
    rewrite Hle, Heq. cbn [bind]. rewrite Hoff. reflexivity.
Qed.

Lemma calculate_position_size_capped_witness :
  (PyFloat.gt 500 (PrimFloat.div (PrimFloat.mul 100000 0.02) 4) = false
   /\ PrimFloat.leb 500 (PrimFloat.div (PrimFloat.mul 100000 0.02) 4) = true)
  /\ calculate_position_size 100000 4 Sample.settings None = Ok 500%float.
Proof.
  destruct (calculate_position_size_capped 100000 4 Sample.settings None)
    as [Hcap Hreturns]; [vm_compute; reflexivity|].
  split.
  - destruct (Hcap 500%float) as [Hgt Hle]; [vm_compute; reflexivity|].
    split; [exact Hgt|]. apply Hle. vm_compute. reflexivity.
  - apply Hreturns. vm_compute. reflexivity.
Defined.

(** With volatility targeting on, the smaller of the two sizes is
    returned: 100000 * (0.1 / 0.5) / 4 = 5000 gives way to the cap 500,
    and an asset five hundred times as volatile brings the size to 10. *)
Example calculate_position_size_targeted :
  let targeted :=
    {| max_risk_per_trade := Some 0.02%float; max_portfolio_heat := None;
       max_leverage := None;
       volatility_targeting :=
         Some {| enabled := Some true; target_portfolio_vol := Some 0.1%float |};
       circuit_breakers := None |} in
  calculate_position_size 100000 4 targeted (Some 0.5%float) = Ok 500%float
  /\ calculate_position_size 100000 4 targeted (Some 250%float) = Ok 10%float
  /\ calculate_position_size 100000 0 targeted None
     = Raise (ValueError "stop_distance must be positive").
Proof. vm_compute. repeat split. Qed.

(* ===================================================================== *)
(** ** RiskService                                                        *)
(* ===================================================================== *)

Lemma filter_all_open (rows : list Position.t) :
  all_open rows -> List.filter Position.is_open rows = rows.
Proof.
  induction 1 as [|p rows Hp _ IH]; [reflexivity|].
  cbn [List.filter]. unfold Position.is_open at 1. rewrite Hp, IH. reflexivity.
Qed.

(** C3, as the code has it: [_calculate_open_risk] sums
    [|entry_price - stop_price| * |quantity|] over every row of
    [positions], a closed row adding its term like any other; the result
    is the sum over the open positions when no row has [closed_at] set. *)
Theorem calculate_open_risk_all_rows (s : RiskService.t) :
  (forall rows p,
     RiskService.positions s = rows ++ [p] ->
     RiskService._calculate_open_risk s
     = PrimFloat.add (fold_left RiskService.add_risk rows 0%float)
         (PrimFloat.mul
            (PrimFloat.abs
               (PrimFloat.sub (Position.entry_price p) (Position.stop_price p)))
            (PrimFloat.abs (Position.quantity p))))
  /\ (all_open (RiskService.positions s) ->
      RiskService._calculate_open_risk s
      = RiskService.open_positions_risk (RiskService.positions s)).
Proof.
  split.
  - intros rows p Hrows. unfold RiskService._calculate_open_risk.
    rewrite Hrows, fold_left_app. reflexivity.
  - intros Hopen. unfold RiskService._calculate_open_risk,
      RiskService.open_positions_risk.
    rewrite (filter_all_open _ Hopen). reflexivity.
Qed.

Lemma calculate_open_risk_all_rows_witness :
  RiskService._calculate_open_risk
    (Sample.risk_service [Sample.open_position; Sample.closed_position])
  = PrimFloat.add (fold_left RiskService.add_risk [Sample.open_position] 0%float)
      (PrimFloat.mul (PrimFloat.abs (PrimFloat.sub 50 44)) (PrimFloat.abs 1000))
  /\ RiskService._calculate_open_risk (Sample.risk_service [Sample.open_position])
     = RiskService.open_positions_risk [Sample.open_position].
Proof.
  split.
  - apply (proj1 (calculate_open_risk_all_rows
                    (Sample.risk_service [Sample.open_position; Sample.closed_position]))
             [Sample.open_position] Sample.closed_position).
    reflexivity.
  - apply (proj2 (calculate_open_risk_all_rows
                    (Sample.risk_service [Sample.open_position]))).
    repeat constructor.
Defined.

(** C3 as stated fails: with one closed position of entry 50, stop 44 and
    quantity 1000 in the table, the loaded open risk is 6000 while the
    sum over the open positions is 0. *)
Lemma calculate_open_risk_counts_closed :
  RiskService._calculate_open_risk (Sample.risk_service [Sample.closed_position])
  <> RiskService.open_positions_risk [Sample.closed_position].
Proof.
  apply FloatFacts.eqb_false_neq; vm_compute; reflexivity.
Qed.

Example calculate_open_risk_closed_value :
  RiskService._calculate_open_risk (Sample.risk_service [Sample.closed_position])
  = 6000%float.
Proof. vm_compute. reflexivity. Qed.

Lemma dict_truthy_lookup {V} (d : gmap string V) (k : string) (v : V) :
  d !! k = Some v -> dict_truthy d = true.
Proof.
  intros Hk. unfold dict_truthy. rewrite bool_decide_eq_false_2; [reflexivity|].
  intros Hsize. apply map_size_empty_iff in Hsize. subst d.
  rewrite lookup_empty in Hk. discriminate.
Qed.

(** C10: a signal whose risk payload is present but holds a zero
    [stop_distance] or [position_size] is dropped with the warning of an
    incomplete payload and nothing is published; the outcome is the one
    of the same signal with that field missing from the payload. *)
Theorem risk_service_zero_field_dropped
    (event : Event) (approved_stream : string) (s : RiskService.t)
    (risk : gmap string float) (key : string) (zero : float) :
  Payload.risk (payload event) = Some risk ->
  key = "stop_distance" \/ key = "position_size" ->
  risk !! key = Some zero ->
  PrimFloat.eqb zero 0 = true ->
  RiskService._handle_signal event approved_stream s
  = (RiskService.logger Warning "risk_service.incomplete_risk_payload" s, Ok tt)
  /\ RiskService.published (fst (RiskService._handle_signal event approved_stream s))
     = RiskService.published s
  /\ (dict_truthy (delete key risk) = true ->
      RiskService._handle_signal
        {| type := type event;
           payload := Payload.with_risk (payload event) (Some (delete key risk)) |}
        approved_stream s
      = RiskService._handle_signal event approved_stream s).
Proof.
  intros Hrisk Hkey Hlookup Hzero.
  assert (Hdrop : RiskService._handle_signal event approved_stream s
                  = (RiskService.logger Warning
                       "risk_service.incomplete_risk_payload" s, Ok tt)).
  { unfold RiskService._handle_signal. rewrite Hrisk. cbn [default from_option id].
    rewrite (dict_truthy_lookup _ _ _ Hlookup). cbn [negb].
    destruct Hkey as [-> | ->]; rewrite Hlookup; cbn [PyFloat.truthy_opt];
      unfold PyFloat.truthy, PyFloat.zero; rewrite Hzero; cbn [negb orb].
    - reflexivity.
    - rewrite orb_true_r. reflexivity. }
  split; [exact Hdrop|]. split; [rewrite Hdrop; reflexivity|].
  intros Hrest. rewrite Hdrop.
  unfold RiskService._handle_signal.
  cbn [payload Payload.with_risk Payload.risk Payload.risk_member].
  cbn [default from_option id]. rewrite Hrest. cbn [negb].
  destruct Hkey as [-> | ->]; rewrite lookup_delete_eq; cbn [PyFloat.truthy_opt negb orb].
  - reflexivity.
  - rewrite orb_true_r. reflexivity.
Qed.

Lemma risk_service_zero_field_dropped_witness :
  let risk : gmap string float :=
    {[ "stop_distance" := 0%float; "position_size" := 500%float ]} in
  let event := Sample.signal risk in
  let s := Sample.risk_service [] in
  RiskService._handle_signal event "approved_signals" s
  = (RiskService.logger Warning "risk_service.incomplete_risk_payload" s, Ok tt)
  /\ RiskService.published (fst (RiskService._handle_signal event "approved_signals" s))
     = []
  /\ RiskService._handle_signal
       (Sample.signal (delete "stop_distance" risk)) "approved_signals" s
     = RiskService._handle_signal event "approved_signals" s.
Proof.
  intros risk event s.
  destruct (risk_service_zero_field_dropped event "approved_signals" s risk
              "stop_distance" 0%float)
    as (Hdropped & Hpublished & Hmissing).
  - reflexivity.
  - left. reflexivity.
  - vm_compute. reflexivity.
  - vm_compute. reflexivity.
  - split; [exact Hdropped|]. split; [exact Hpublished|].
    apply Hmissing. vm_compute. reflexivity.
Defined.

(** The same signal with a sound payload goes through. *)
Example risk_service_approves :
  RiskService.published
    (fst (RiskService._handle_signal
            (Sample.signal {[ "stop_distance" := 4%float; "position_size" := 500%float ]})
            "approved_signals" (Sample.risk_service [])))
  = [("approved_signals",
      {| type := "approved_signal";
         payload :=
           Payload.approve
             (payload (Sample.signal
                {[ "stop_distance" := 4%float; "position_size" := 500%float ]})) |})].
Proof. vm_compute. reflexivity. Qed.

(* ===================================================================== *)
(** ** StrategyService                                                    *)
(* ===================================================================== *)

(** C9: whatever the history and the parameters, the trend evaluation
    yields no signal when the history is shorter than
    [max(fast_ma_period, slow_ma_period, atr_period) + 1], when the atr is
    at most zero or NaN, or when [fast_ma] lies in the closed band around
    [slow_ma]; and whenever it yields a signal none of the three holds. *)
Theorem trend_strategy_silent
    (mean : list float -> float) (params : StrategyService.Parameters)
    (risk_settings : RiskSettings) (history : list float) :
  let fast_period := default 50%Z (StrategyService.fast_ma_period params) in
  let slow_period := default 200%Z (StrategyService.slow_ma_period params) in
  let atr_period := default 14%Z (StrategyService.atr_period params) in
  let needed := (Z.max (Z.max fast_period slow_period) atr_period + 1)%Z in
  let fast_ma := mean (StrategyService.last_slice fast_period history) in
  let slow_ma := mean (StrategyService.last_slice slow_period history) in
  let atr := StrategyService._calculate_atr mean history atr_period in
  let evaluation :=
    StrategyService._evaluate_trend_strategy mean params risk_settings history in
  ((Z.of_nat (length history) < needed)%Z -> evaluation = Ok None)
  /\ (PrimFloat.leb atr 0 = true \/ StrategyService.is_nan atr = true ->
      evaluation = Ok None)
  /\ (in_band fast_ma slow_ma = true -> evaluation = Ok None)
  /\ (forall decision,
        evaluation = Ok (Some decision) ->
        (needed <= Z.of_nat (length history))%Z
        /\ PrimFloat.leb atr 0 = false
        /\ StrategyService.is_nan atr = false
        /\ in_band fast_ma slow_ma = false).
Proof.
  cbv zeta. unfold StrategyService._evaluate_trend_strategy.
  set (fast_period := default 50%Z (StrategyService.fast_ma_period params)).
  set (slow_period := default 200%Z (StrategyService.slow_ma_period params)).
  set (atr_period := default 14%Z (StrategyService.atr_period params)).
  set (needed := (Z.max (Z.max fast_period slow_period) atr_period + 1)%Z).
  set (fast_ma := mean (StrategyService.last_slice fast_period history)).
  set (slow_ma := mean (StrategyService.last_slice slow_period history)).
  set (atr := StrategyService._calculate_atr mean history atr_period).
  destruct (Z.ltb_spec (Z.of_nat (length history)) needed) as [Hshort|Hlong].
  { split; [reflexivity|]. split; [reflexivity|]. split; [reflexivity|].
    intros decision H. discriminate. }
  split; [intros Hshort; lia|].
  destruct (StrategyService.is_nan atr) eqn:Hnan; cbn [orb].
  { split; [reflexivity|]. split; [reflexivity|]. intros decision H. discriminate. }
  destruct (PrimFloat.leb atr 0) eqn:Hatr.
  { split; [reflexivity|]. split; [reflexivity|]. intros decision H. discriminate. }
  split; [intros [H|H]; discriminate|].
  unfold in_band, PyFloat.gt.
  destruct (PrimFloat.ltb (PrimFloat.mul slow_ma 1.001) fast_ma) eqn:Hbuy.
  - assert (Hout : PrimFloat.leb fast_ma (PrimFloat.mul slow_ma 1.001) = false).
    { destruct (PrimFloat.leb fast_ma _) eqn:Hle; [|reflexivity].
      apply FloatFacts.leb_not_gt in Hle. congruence. }
    rewrite Hout, andb_false_r.
    split; [intros H; discriminate|]. intros decision _. auto.
  - destruct (PrimFloat.ltb fast_ma (PrimFloat.mul slow_ma 0.999)) eqn:Hsell.
    + assert (Hout : PrimFloat.leb (PrimFloat.mul slow_ma 0.999) fast_ma = false).
      { destruct (PrimFloat.leb _ fast_ma) eqn:Hle; [|reflexivity].
        apply FloatFacts.leb_not_gt in Hle. congruence. }
      rewrite Hout. cbn [andb].
      split; [intros H; discriminate|]. intros decision _. auto.
    + split; [reflexivity|]. intros decision H. discriminate.
Qed.

Lemma trend_strategy_silent_witness :
  StrategyService._evaluate_trend_strategy Sample.mean Sample.parameters
    Sample.settings [100%float] = Ok None
  /\ StrategyService._evaluate_trend_strategy Sample.mean Sample.parameters
       Sample.settings Sample.flat = Ok None
  /\ StrategyService._evaluate_trend_strategy Sample.mean Sample.parameters
       Sample.settings Sample.drifting = Ok None
  /\ in_band (Sample.mean (StrategyService.last_slice 2 Sample.rising))
       (Sample.mean (StrategyService.last_slice 3 Sample.rising)) = false.
Proof.
  split; [|split; [|split]].
  - apply (proj1 (trend_strategy_silent Sample.mean Sample.parameters
                    Sample.settings [100%float])).
    vm_compute. reflexivity.
  - apply (proj1 (proj2 (trend_strategy_silent Sample.mean Sample.parameters
                           Sample.settings Sample.flat))).
    left. vm_compute. reflexivity.
  - apply (proj1 (proj2 (proj2 (trend_strategy_silent Sample.mean Sample.parameters
                                  Sample.settings Sample.drifting)))).
    vm_compute. reflexivity.
  - eapply (proj2 (proj2 (proj2 (trend_strategy_silent Sample.mean Sample.parameters
                                   Sample.settings Sample.rising)))).
    vm_compute. reflexivity.
Defined.

(** A rising history crosses the band and yields a buy of 400 units with
    a stop 5 away. *)
Example trend_strategy_buys :
  StrategyService._evaluate_trend_strategy Sample.mean Sample.parameters
    Sample.settings Sample.rising
  = Ok (Some {| StrategyService.action := "buy";
                StrategyService.confidence := 0.6;
                StrategyService.risk :=
                  {[ "stop_distance" := 5%float; "position_size" := 400%float ]} |}).
Proof. vm_compute. reflexivity. Qed.

(** Strategies that all stay silent publish nothing. *)
Lemma evaluate_all_silent
    (mean : list float -> float) (strategies : list (string * StrategyService.Parameters))
    (risk_settings : RiskSettings) (exchange symbol : option string)
    (close_price : float) (history : list float) (signal_stream : string)
    (published : list (string * Event)) :
  Forall (fun strategy =>
            StrategyService._evaluate_trend_strategy mean (snd strategy)
              risk_settings history = Ok None) strategies ->
  StrategyService.evaluate_all mean strategies risk_settings exchange symbol
    close_price history signal_stream published
  = (published, Ok tt).
Proof.
  induction 1 as [|[name params] rest Hsilent _ IH]; [reflexivity|].
  cbn [StrategyService.evaluate_all]. cbn [snd] in Hsilent. rewrite Hsilent.
  exact IH.
Qed.

(** One market tick completing a rising history publishes the buy. *)
Example handle_market_event_publishes :
  let service :=
    {| StrategyService.strategy_configs := [("trend", Sample.parameters)];
       StrategyService.risk_settings := Sample.settings;
       StrategyService.price_history :=
         {[ (Some "binance", Some "BTC/USDT") := [100; 101; 103]%float ]};
       StrategyService.published := [] |} in
  let tick :=
    {| StrategyService.MarketData.exchange := Some "binance";
       StrategyService.MarketData.symbol := Some "BTC/USDT";
       StrategyService.MarketData.data := [[0; 103; 107; 102; 106; 9]%float] |} in
  map (fun e => (Payload.decision (payload (snd e)), Payload.price (payload (snd e))))
    (StrategyService.published
       (fst (StrategyService._handle_market_event Sample.mean tick "signals" service)))
  = [(Some "buy", Some 106%float)].
Proof. vm_compute. reflexivity. Qed.

(* ===================================================================== *)
(** ** ExecutionService                                                   *)
(* ===================================================================== *)

Import ExecutionService.

Lemma get_risk_default (p : Payload.t) (risk : gmap string float) :
  Payload.get_risk p = Some risk -> default ∅ (Payload.risk p) = risk.
Proof.
  unfold Payload.get_risk, Payload.risk.
  destruct (Payload.risk_member p); intros [= <-]; reflexivity.
Qed.

Lemma get_risk_member (p : Payload.t) (risk : gmap string float) (k : string)
    (v : float) :
  Payload.get_risk p = Some risk -> risk !! k = Some v -> Payload.risk p = Some risk.
Proof.
  unfold Payload.get_risk, Payload.risk.
  destruct (Payload.risk_member p); intros [= <-]; [|reflexivity].
  rewrite lookup_empty. discriminate.
Qed.

Lemma get_risk_null (p : Payload.t) :
  Payload.get_risk p = None -> default ∅ (Payload.risk p) = ∅.
Proof.
  unfold Payload.get_risk, Payload.risk.
  destruct (Payload.risk_member p); intros [=]; reflexivity.
Qed.

Section ExecutionFacts.
Context {Venue Resp : Type}.
Variable create_order : Venue -> OrderRequest.t -> Venue * call_outcome Resp.
Variable time_ns : nat -> Z.

Local Abbreviation t := (@ExecutionService.t Venue Resp).

Local Opaque make_client_order_id.

(** What [_record_order] comes to: the commit failed and nothing changed,
    or the engine is PostgreSQL, it took the values, and the row is the
    last of the table. *)
Lemma record_order_effect
    (client_order_id exchange : string) (strategy symbol : option string)
    (side : OrderSide) (order_type : OrderType) (price : option float)
    (quantity : float) (raw_request : OrderRequest.t)
    (raw_response : RawResponse Resp) (status : OrderStatus)
    (s s' : t) (r : result unit) :
  _record_order client_order_id exchange strategy symbol side order_type price
    quantity raw_request raw_response status s = (s', r) ->
  (s' = s /\ exists e, r = Raise e /\ commit_error e)
  \/ (r = Ok tt
      /\ database s = postgresql
      /\ existsb (fun o => String.eqb (Order.client_order_id o) client_order_id)
           (orders s) = false
      /\ exists strategy' symbol',
           strategy = Some strategy' /\ symbol = Some symbol'
           /\ position_overflow postgresql symbol' exchange strategy' = false
           /\ s' = {| database := database s;
                      orders :=
                        orders s
                          ++ [{| Order.client_order_id := client_order_id;
                                 Order.strategy := strategy';
                                 Order.symbol := symbol';
                                 Order.exchange := exchange;
                                 Order.side := side;
                                 Order.type := order_type;
                                 Order.price := price;
                                 Order.quantity := quantity;
                                 Order.raw_request := raw_request;
                                 Order.raw_response := raw_response;
                                 Order.status := status |}];
                      positions := positions s; _clients := _clients s;
                      calls := calls s; log := log s; clock := clock s |}).
Proof.
  unfold _record_order, commit_error.
  destruct (database s) eqn:Hdatabase; [intros [= <- <-]; left; eauto 10|].
  destruct (varchar_overflow 32 strategy) eqn:Hstrategy;
    [intros [= <- <-]; left; eauto 10|].
  destruct (varchar_overflow 32 symbol) eqn:Hsymbol;
    [intros [= <- <-]; left; eauto 10|].
  destruct (varchar_overflow 32 (Some exchange)) eqn:Hexchange;
    [intros [= <- <-]; left; eauto 10|].
  cbn [orb]. destruct (negb _); [intros [= <- <-]; left; eauto 10|].
  destruct strategy as [strategy'|]; [|intros [= <- <-]; left; eauto 10].
  destruct symbol as [symbol'|]; [|intros [= <- <-]; left; eauto 10].
  destruct (existsb _ _) eqn:Htaken; intros [= <- <-]; [left; eauto 10|].
  right. split; [reflexivity|]. split; [reflexivity|]. split; [reflexivity|].
  exists strategy', symbol'. split; [reflexivity|]. split; [reflexivity|].
  split; [|reflexivity].
  unfold position_overflow. rewrite Hsymbol, Hexchange, Hstrategy. reflexivity.
Qed.

(** What [_update_position] comes to, as far as the other tables go. *)
Lemma update_position_frame
    (symbol : option string) (exchange : string) (strategy : option string)
    (quantity entry_price stop_price : float) (s s' : t) (r : result unit) :
  _update_position symbol exchange strategy quantity entry_price stop_price s = (s', r) ->
  database s' = database s /\ orders s' = orders s /\ _clients s' = _clients s
  /\ calls s' = calls s /\ log s' = log s /\ clock s' = clock s
  /\ (forall e, r = Raise e -> s' = s).
Proof.
  unfold _update_position.
  destruct symbol as [symbol'|], strategy as [strategy'|];
    try (intros [= <- <-]; auto 10; fail).
  destruct (List.filter _ _) as [|p [|q rest]];
    try destruct (position_overflow _ _ _ _);
    intros [= <- <-]; cbn; repeat (split; [reflexivity|]);
    intros e; first [discriminate | reflexivity].
Qed.
Lemma install_stop_effect (dry_run : bool)
    (client : string) (strategy : option string) (exchange : string)
    (symbol : option string) (side : OrderSide) (entry_price : option float)
    (stop_distance position_size : float) (s s' : t) (r : result unit) :
  _install_stop create_order time_ns dry_run client strategy exchange symbol side
    entry_price stop_distance position_size s = (s', r) ->
  orders s' = orders s
  /\ ((calls s' = calls s /\ positions s' = positions s)
      \/ exists entry outcome,
           entry_price = Some entry
           /\ calls s'
              = calls s
                  ++ [(client,
                       stop_request_of symbol (opposite side) position_size
                         (make_client_order_id (time_ns (clock s))
                            (format_str strategy) (format_str symbol)
                            (OrderSide_value (opposite side)) None 0)
                         (match side with
                          | BUY => PrimFloat.sub entry stop_distance
                          | SELL => PrimFloat.add entry stop_distance
                          end),
                       outcome)]
           /\ r = Ok tt
           /\ (forall error, outcome = Failed error ->
                 positions s' = positions s
                 /\ log s' = log s ++ [(Error, "execution_service.stop_install_failed")])).
Proof.
  unfold _install_stop. destruct entry_price as [entry|].
  2:{ intros [= <- <-]. auto. }
  unfold and_then, read_time_ns. cbn.
  destruct dry_run.
  { intros [= <- <-]. cbn. auto. }
  unfold try_except, and_then, client_create_order. cbn.
  destruct (_clients s !! client) as [venue|] eqn:Hclient.
  2:{ cbn. intros [= <- <-]. cbn. auto. }
  fold (opposite side).
  destruct (create_order venue _) as [venue' outcome] eqn:Hcall.
  destruct outcome as [resp|error]; cbn.
  - unfold _update_position. cbn.
    destruct symbol as [symbol'|], strategy as [strategy'|]; cbn;
      try (intros [= <- <-]; cbn; split; [reflexivity|]; right;
           eexists _, _; split; [reflexivity|]; split; [reflexivity|];
           split; [reflexivity|]; intros error [=]).
    destruct (List.filter _ _) as [|p [|q rest]];
      try destruct (position_overflow _ _ _ _); cbn;
      intros [= <- <-]; cbn; (split; [reflexivity|]); right;
           eexists _, _; (split; [reflexivity|]); (split; [reflexivity|]);
           (split; [reflexivity|]); intros error [=].
  - intros [= <- <-]; cbn. split; [reflexivity|]. right.
    eexists _, _. split; [reflexivity|]. split; [reflexivity|].
    split; [reflexivity|]. intros error' _. auto.
Qed.

Lemma trace_no_growth {A} (l : list A) (c1 c2 : A) : l = l ++ [c1; c2] -> False.
Proof.
  intros H. apply (f_equal (@length A)) in H. rewrite length_app in H. cbn in H. lia.
Qed.

Lemma trace_one_call {A} (l : list A) (c c1 c2 : A) : l ++ [c] = l ++ [c1; c2] -> False.
Proof. intros H. apply app_inv_head in H. discriminate. Qed.

Lemma trace_two_calls {A} (l : list A) (a b c1 c2 : A) :
  (l ++ [a]) ++ [b] = l ++ [c1; c2] -> a = c1 /\ b = c2.
Proof.
  rewrite <- app_assoc. intros H. apply app_inv_head in H.
  injection H as -> ->. auto.
Qed.

Lemma handle_signal_two_calls (dry_run : bool) (event : Event) (s s' : t) (r : result unit)
    (c1 c2 : string * OrderRequest.t * call_outcome Resp) :
  _handle_signal create_order time_ns dry_run event s = (s', r) ->
  calls s' = calls s ++ [c1; c2] ->
  let p := payload event in
  let side := side_of (Payload.decision p) in
  exists exchange_name risk position_size stop_distance entry strategy symbol
         response outcome,
    Payload.exchange p = Some exchange_name
    /\ Payload.risk p = Some risk
    /\ risk !! "position_size" = Some position_size
    /\ risk !! "stop_distance" = Some stop_distance
    /\ Payload.price p = Some entry
    /\ Payload.strategy p = Some strategy
    /\ Payload.symbol p = Some symbol
    /\ c1 = (exchange_name,
             order_request_of (Some symbol) side position_size (Some entry)
               (make_client_order_id (time_ns (clock s)) strategy symbol
                  (OrderSide_value side) None 0),
             Accepted response)
    /\ c2 = (exchange_name,
             stop_request_of (Some symbol) (opposite side) position_size
               (make_client_order_id (time_ns (S (clock s))) strategy symbol
                  (OrderSide_value (opposite side)) None 0)
               (match side with
                | BUY => PrimFloat.sub entry stop_distance
                | SELL => PrimFloat.add entry stop_distance
                end),
             outcome)
    /\ r = Ok tt
    /\ orders s'
       = orders s
           ++ [{| Order.client_order_id :=
                    make_client_order_id (time_ns (clock s)) strategy symbol
                      (OrderSide_value side) None 0;
                  Order.strategy := strategy;
                  Order.symbol := symbol;
                  Order.exchange := exchange_name;
                  Order.side := side;
                  Order.type := LIMIT;
                  Order.price := Some entry;
                  Order.quantity := position_size;
                  Order.raw_request :=
                    order_request_of (Some symbol) side position_size (Some entry)
                      (make_client_order_id (time_ns (clock s)) strategy symbol
                         (OrderSide_value side) None 0);
                  Order.raw_response := ResponseVenue response;
                  Order.status := PENDING |}]
    /\ (forall error, outcome = Failed error ->
          positions s' = positions s
          /\ log s' = log s ++ [(Error, "execution_service.stop_install_failed")]).
Proof.
  unfold _handle_signal. fold (side_of (Payload.decision (payload event))).
  destruct (Payload.exchange (payload event)) as [exchange_name|] eqn:Hexchange;
    cbn [base.mbind option_bind].
  2:{ intros [= <- <-] Hcalls. cbn in Hcalls. destruct (trace_no_growth _ _ _ Hcalls). }
  destruct (_clients s !! exchange_name) as [venue|] eqn:Hclient.
  2:{ intros [= <- <-] Hcalls. cbn in Hcalls. destruct (trace_no_growth _ _ _ Hcalls). }
  destruct (Payload.get_risk (payload event)) as [risk|] eqn:Hrisk.
  2:{ intros [= <- <-] Hcalls. destruct (trace_no_growth _ _ _ Hcalls). }
  destruct (risk !! "position_size") as [position_size|] eqn:Hsize.
  2:{ cbn. intros [= <- <-] Hcalls. cbn in Hcalls.
      destruct (trace_no_growth _ _ _ Hcalls). }
  destruct (risk !! "stop_distance") as [stop_distance|] eqn:Hstop.
  2:{ cbn [PyFloat.truthy_opt negb]. rewrite orb_true_r.
      intros [= <- <-] Hcalls. cbn in Hcalls.
      destruct (trace_no_growth _ _ _ Hcalls). }
  destruct (negb _ || negb _).
  { intros [= <- <-] Hcalls. cbn in Hcalls. destruct (trace_no_growth _ _ _ Hcalls). }
  unfold and_then at 1. unfold read_time_ns at 1.
  destruct dry_run eqn:Hdry.
  { unfold and_then at 1. unfold logger at 1.
    match goal with
    | |- context [_record_order ?x1 ?x2 ?x3 ?x4 ?x5 ?x6 ?x7 ?x8 ?x9 ?x10 ?x11 ?s0] =>
        destruct (_record_order x1 x2 x3 x4 x5 x6 x7 x8 x9 x10 x11 s0)
          as [s2 r2] eqn:Hrecord;
        apply record_order_effect in Hrecord;
        destruct Hrecord as [(-> & e & -> & _) | (-> & _ & _ & st & sy & _ & _ & _ & ->)]
    end; intros [= <- <-] Hcalls; cbn in Hcalls;
      destruct (trace_no_growth _ _ _ Hcalls). }
  unfold try_except. unfold and_then at 1. unfold client_create_order at 1.
  cbn [_clients]. rewrite Hclient.
  destruct (create_order venue _) as [venue' outcome1] eqn:Hentry.
  destruct outcome1 as [response|error].
  2:{ cbn. intros [= <- <-] Hcalls. cbn in Hcalls.
      destruct (trace_one_call _ _ _ _ Hcalls). }
  unfold and_then at 1.
  match goal with
  | |- context [_record_order ?x1 ?x2 ?x3 ?x4 ?x5 ?x6 ?x7 ?x8 ?x9 ?x10 ?x11 ?s0] =>
      destruct (_record_order x1 x2 x3 x4 x5 x6 x7 x8 x9 x10 x11 s0)
        as [s2 r2] eqn:Hrecord;
      apply record_order_effect in Hrecord;
      destruct Hrecord as [(-> & e & -> & _)
                          | (-> & _ & _ & strategy & symbol & Hstrategy & Hsymbol & _ & ->)]
  end.
  { cbn. intros [= <- <-] Hcalls. cbn in Hcalls.
    destruct (trace_one_call _ _ _ _ Hcalls). }
  rewrite Hstrategy, Hsymbol.
  match goal with
  | |- context [_install_stop ?co ?tn ?dr ?cl ?st ?ex ?sy ?sd ?ep ?d ?ps ?s0] =>
      destruct (_install_stop co tn dr cl st ex sy sd ep d ps s0) as [s3 r3] eqn:Hstopcall;
      pose proof (install_stop_effect _ _ _ _ _ _ _ _ _ _ _ _ Hstopcall) as Heffect
  end.
  cbn [orders positions _clients calls log clock] in Heffect.
  destruct Heffect
    as [Horders [[Hcalls2 Hpos2]
                | (entry & outcome & Hprice & Hcalls2 & -> & Hfail)]].
  { destruct r3; cbn; intros [= <- <-] Hcalls; cbn in Hcalls; rewrite Hcalls2 in Hcalls;
      destruct (trace_one_call _ _ _ _ Hcalls). }
  intros [= <- <-] Hcalls. rewrite Hcalls2 in Hcalls.
  apply trace_two_calls in Hcalls. destruct Hcalls as [<- <-].
  rewrite Hprice in *. rewrite Hstrategy, Hsymbol in *.
  exists exchange_name, risk, position_size, stop_distance, entry, strategy, symbol,
    response, outcome.
  split; [reflexivity|]. split; [exact (get_risk_member _ _ _ _ Hrisk Hsize)|].
  repeat (split; [first [reflexivity | assumption]|]).
  exact Hfail.
Qed.

Lemma handle_signal_dry_run (event : Event) (s s' : t) (r : result unit) :
  _handle_signal create_order time_ns true event s = (s', r) ->
  calls s' = calls s /\ positions s' = positions s /\ _clients s' = _clients s
  /\ ((accepted (_clients s) event = false /\ orders s' = orders s
       /\ (r = Ok tt \/ (r = Raise AttributeError /\ s' = s)))
      \/ (accepted (_clients s) event = true
          /\ ((orders s' = orders s /\ exists e, r = Raise e /\ commit_error e)
              \/ exists row, dry_run_row event row
                   /\ orders s' = orders s ++ [row] /\ r = Ok tt))).
Proof.
  unfold _handle_signal, accepted. fold (side_of (Payload.decision (payload event))).
  destruct (Payload.exchange (payload event)) as [exchange_name|] eqn:Hexchange;
    cbn [base.mbind option_bind].
  2:{ intros [= <- <-]. cbn. auto 10. }
  destruct (_clients s !! exchange_name) as [venue|] eqn:Hclient.
  2:{ intros [= <- <-]. cbn. auto 10. }
  destruct (Payload.get_risk (payload event)) as [risk|] eqn:Hrisk.
  2:{ rewrite (get_risk_null _ Hrisk), lookup_empty.
      intros [= <- <-]. cbn. auto 10. }
  rewrite (get_risk_default _ _ Hrisk).
  rewrite <- negb_andb.
  destruct (PyFloat.truthy_opt _ && PyFloat.truthy_opt _) eqn:Htruthy; cbn [negb].
  2:{ intros [= <- <-]. cbn. auto 10. }
  apply andb_prop in Htruthy. destruct Htruthy as [Hsize Hstop].
  destruct (risk !! "position_size") as [position_size|] eqn:Hps; [|discriminate].
  destruct (risk !! "stop_distance") as [stop_distance|] eqn:Hsd; [|discriminate].
  unfold and_then at 1. unfold read_time_ns at 1.
  unfold and_then at 1. unfold logger at 1.
  match goal with
  | |- context [_record_order ?x1 ?x2 ?x3 ?x4 ?x5 ?x6 ?x7 ?x8 ?x9 ?x10 ?x11 ?s0] =>
      destruct (_record_order x1 x2 x3 x4 x5 x6 x7 x8 x9 x10 x11 s0)
        as [s2 r2] eqn:Hrecord;
      apply record_order_effect in Hrecord;
      destruct Hrecord as [(-> & e & -> & He)
                          | (-> & _ & _ & strategy & symbol & Hstrategy & Hsymbol & _ & ->)]
  end; intros [= <- <-]; cbn.
  - repeat (split; [reflexivity|]). right. split; [reflexivity|]. left. eauto.
  - repeat (split; [reflexivity|]). right. split; [reflexivity|]. right.
    eexists. split; [|split; reflexivity].
    unfold dry_run_row. cbn.
    rewrite Hexchange, Hstrategy, Hsymbol, (get_risk_default _ _ Hrisk), Hps. auto 10.
Qed.

Lemma run_dry_run (events : list Event) (s s' : t) (r : result unit) :
  run create_order time_ns true events s = (s', r) ->
  calls s' = calls s /\ positions s' = positions s /\ _clients s' = _clients s
  /\ exists rows,
       orders s' = orders s ++ rows
       /\ Forall (fun row => Order.status row = NEW
                             /\ Order.raw_response row
                                = ResponseDict {[ "status" := "dry_run" ]})
            rows
       /\ (r = Ok tt ->
           Forall2 dry_run_row (List.filter (accepted (_clients s)) events) rows).
Proof.
  revert s. induction events as [|event rest IH]; intros s.
  - intros [= <- <-]. repeat (split; [reflexivity|]).
    exists []. rewrite app_nil_r. repeat constructor.
  - cbn [run]. unfold and_then.
    destruct (_handle_signal create_order time_ns true event s) as [s1 r1] eqn:Hstep.
    destruct (handle_signal_dry_run _ _ _ _ Hstep)
      as (Hcalls & Hpos & Hclients & Hcase).
    destruct Hcase
      as [(Hacc & Horders & [-> | [-> _]])
         | (Hacc & [(Horders & e & -> & _) | (row & Hrow & Horders & ->)])].
    + intros Hrest. destruct (IH _ Hrest) as (Hc & Hp & Hcl & rows & Ho & Hall & Hok).
      rewrite Hc, Hp, Hcl, Ho, Hcalls, Hpos, Hclients, Horders.
      repeat (split; [reflexivity|]). exists rows. split; [reflexivity|].
      split; [exact Hall|]. intros Hr. cbn [List.filter]. rewrite Hacc.
      rewrite <- Hclients. auto.
    + intros [= <- <-]. rewrite Hcalls, Hpos, Hclients, Horders.
      repeat (split; [reflexivity|]). exists []. rewrite app_nil_r.
      split; [reflexivity|]. split; [constructor|]. discriminate.
    + intros [= <- <-]. rewrite Hcalls, Hpos, Hclients, Horders.
      repeat (split; [reflexivity|]). exists []. rewrite app_nil_r.
      split; [reflexivity|]. split; [constructor|]. discriminate.
    + intros Hrest. destruct (IH _ Hrest) as (Hc & Hp & Hcl & rows & Ho & Hall & Hok).
      rewrite Hc, Hp, Hcl, Ho, Hcalls, Hpos, Hclients, Horders.
      repeat (split; [reflexivity|]). exists (row :: rows).
      split; [rewrite <- app_assoc; reflexivity|].
      split.
      * constructor; [|exact Hall]. destruct Hrow as (H1 & H2 & _). auto.
      * intros Hr. cbn [List.filter]. rewrite Hacc. constructor; [exact Hrow|].
        rewrite <- Hclients. auto.
Qed.

Lemma update_position_all_open
    (symbol : option string) (exchange : string) (strategy : option string)
    (quantity entry_price stop_price : float) (s s' : t) (r : result unit) :
  _update_position symbol exchange strategy quantity entry_price stop_price s = (s', r) ->
  all_open (positions s) -> all_open (positions s').
Proof.
  unfold _update_position, all_open.
  destruct symbol as [symbol'|], strategy as [strategy'|];
    try (intros [= <- <-]; auto).
  destruct (List.filter _ _) as [|p [|q rest]];
    try destruct (position_overflow _ _ _ _);
    intros [= <- <-] Hopen; cbn; auto.
  - apply Forall_app. split; [exact Hopen|]. repeat constructor.
  - apply Forall_fmap. eapply Forall_impl; [exact Hopen|].
    intros row Hrow. cbn. destruct (same_key _ _ _ row); cbn; exact Hrow.
Qed.

Lemma install_stop_all_open (dry_run : bool)
    (client : string) (strategy : option string) (exchange : string)
    (symbol : option string) (side : OrderSide) (entry_price : option float)
    (stop_distance position_size : float) (s s' : t) (r : result unit) :
  _install_stop create_order time_ns dry_run client strategy exchange symbol side
    entry_price stop_distance position_size s = (s', r) ->
  all_open (positions s) -> all_open (positions s').
Proof.
  unfold _install_stop. destruct entry_price as [entry|].
  2:{ intros [= <- <-]. auto. }
  unfold and_then at 1. unfold read_time_ns at 1.
  destruct dry_run.
  { intros [= <- <-]. cbn. auto. }
  unfold try_except, and_then, client_create_order, logger. cbn.
  destruct (_clients s !! client) as [venue|].
  2:{ intros [= <- <-]. cbn. auto. }
  destruct (create_order venue _) as [venue' [response|error]].
  2:{ intros [= <- <-]. cbn. auto. }
  match goal with
  | |- context [_update_position ?a ?b ?c ?d ?e ?f ?s0] =>
      destruct (_update_position a b c d e f s0) as [s2 r2] eqn:Hupdate
  end.
  pose proof (update_position_all_open _ _ _ _ _ _ _ _ _ Hupdate) as Hkeep.
  cbn [orders positions _clients calls log clock] in Hkeep.
  destruct r2; intros [= <- <-]; cbn; exact Hkeep.
Qed.

Lemma handle_signal_all_open (dry_run : bool) (event : Event) (s s' : t)
    (r : result unit) :
  _handle_signal create_order time_ns dry_run event s = (s', r) ->
  all_open (positions s) -> all_open (positions s').
Proof.
  unfold _handle_signal.
  destruct (Payload.exchange (payload event)) as [exchange_name|];
    cbn [base.mbind option_bind].
  2:{ intros [= <- <-]. auto. }
  destruct (_clients s !! exchange_name) as [venue|] eqn:Hclient.
  2:{ intros [= <- <-]. auto. }
  destruct (Payload.get_risk (payload event)) as [risk|].
  2:{ intros [= <- <-]. auto. }
  destruct (negb _ || negb _).
  { intros [= <- <-]. auto. }
  destruct (_ !! "position_size") as [position_size|]; [|intros [= <- <-]; auto].
  destruct (_ !! "stop_distance") as [stop_distance|]; [|intros [= <- <-]; auto].
  unfold and_then at 1. unfold read_time_ns at 1.
  destruct dry_run.
  { unfold and_then at 1. unfold logger at 1.
    match goal with
    | |- context [_record_order ?x1 ?x2 ?x3 ?x4 ?x5 ?x6 ?x7 ?x8 ?x9 ?x10 ?x11 ?s0] =>
        destruct (_record_order x1 x2 x3 x4 x5 x6 x7 x8 x9 x10 x11 s0)
          as [s2 r2] eqn:Hrecord;
        apply record_order_effect in Hrecord;
        destruct Hrecord as [(-> & e & -> & _)
                            | (-> & _ & _ & st & sy & _ & _ & _ & ->)]
    end; intros [= <- <-]; auto. }
  unfold try_except. unfold and_then at 1. unfold client_create_order at 1.
  cbn [_clients]. rewrite Hclient.
  destruct (create_order venue _) as [venue' [response|error]].
  2:{ intros [= <- <-]. auto. }
  unfold and_then at 1.
  match goal with
  | |- context [_record_order ?x1 ?x2 ?x3 ?x4 ?x5 ?x6 ?x7 ?x8 ?x9 ?x10 ?x11 ?s0] =>
      destruct (_record_order x1 x2 x3 x4 x5 x6 x7 x8 x9 x10 x11 s0)
        as [s2 r2] eqn:Hrecord;
      apply record_order_effect in Hrecord;
      destruct Hrecord as [(-> & e & -> & _)
                          | (-> & _ & _ & st & sy & _ & _ & _ & ->)]
  end.
  { intros [= <- <-]. auto. }
  match goal with
  | |- context [_install_stop ?co ?tn ?dr ?cl ?st ?ex ?sy ?sd ?ep ?d ?ps ?s0] =>
      destruct (_install_stop co tn dr cl st ex sy sd ep d ps s0) as [s3 r3] eqn:Hstop
  end.
  pose proof (install_stop_all_open _ _ _ _ _ _ _ _ _ _ _ _ Hstop) as Hkeep.
  cbn [orders positions _clients calls log clock] in Hkeep.
  destruct r3; intros [= <- <-]; cbn; exact Hkeep.
Qed.

Lemma handle_signal_calls (dry_run : bool) (event : Event) (s s' : t)
    (r : result unit) :
  _handle_signal create_order time_ns dry_run event s = (s', r) ->
  calls s' = calls s
  \/ (exists c, calls s' = calls s ++ [c] /\ OrderRequest.type (snd (fst c)) = LIMIT)
  \/ (exists c1 c2, calls s' = calls s ++ [c1; c2]).
Proof.
  unfold _handle_signal.
  destruct (Payload.exchange (payload event)) as [exchange_name|];
    cbn [base.mbind option_bind].
  2:{ intros [= <- <-]. auto. }
  destruct (_clients s !! exchange_name) as [venue|] eqn:Hclient.
  2:{ intros [= <- <-]. auto. }
  destruct (Payload.get_risk (payload event)) as [risk|].
  2:{ intros [= <- <-]. auto. }
  destruct (negb _ || negb _).
  { intros [= <- <-]. auto. }
  destruct (_ !! "position_size") as [position_size|]; [|intros [= <- <-]; auto].
  destruct (_ !! "stop_distance") as [stop_distance|]; [|intros [= <- <-]; auto].
  unfold and_then at 1. unfold read_time_ns at 1.
  destruct dry_run.
  { unfold and_then at 1. unfold logger at 1.
    match goal with
    | |- context [_record_order ?x1 ?x2 ?x3 ?x4 ?x5 ?x6 ?x7 ?x8 ?x9 ?x10 ?x11 ?s0] =>
        destruct (_record_order x1 x2 x3 x4 x5 x6 x7 x8 x9 x10 x11 s0)
          as [s2 r2] eqn:Hrecord;
        apply record_order_effect in Hrecord;
        destruct Hrecord as [(-> & e & -> & _)
                            | (-> & _ & _ & st & sy & _ & _ & _ & ->)]
    end; intros [= <- <-]; auto. }
  unfold try_except. unfold and_then at 1. unfold client_create_order at 1.
  cbn [_clients]. rewrite Hclient.
  destruct (create_order venue _) as [venue' [response|error]].
  2:{ intros [= <- <-]. cbn. right. left. eexists. split; reflexivity. }
  unfold and_then at 1.
  match goal with
  | |- context [_record_order ?x1 ?x2 ?x3 ?x4 ?x5 ?x6 ?x7 ?x8 ?x9 ?x10 ?x11 ?s0] =>
      destruct (_record_order x1 x2 x3 x4 x5 x6 x7 x8 x9 x10 x11 s0)
        as [s2 r2] eqn:Hrecord;
      apply record_order_effect in Hrecord;
      destruct Hrecord as [(-> & e & -> & _)
                          | (-> & _ & _ & st & sy & _ & _ & _ & ->)]
  end.
  { intros [= <- <-]. cbn. right. left. eexists. split; reflexivity. }
  match goal with
  | |- context [_install_stop ?co ?tn ?dr ?cl ?st ?ex ?sy ?sd ?ep ?d ?ps ?s0] =>
      destruct (_install_stop co tn dr cl st ex sy sd ep d ps s0) as [s3 r3] eqn:Hstop
  end.
  apply install_stop_effect in Hstop. cbn [orders positions _clients calls log clock] in Hstop.
  destruct Hstop as [_ [[Hcalls _] | (entry & outcome & _ & Hcalls & _)]].
  - destruct r3; intros [= <- <-]; cbn; rewrite Hcalls; right; left;
      eexists; split; reflexivity.
  - destruct r3; intros [= <- <-]; cbn; rewrite Hcalls, <- app_assoc; right; right;
      eexists _, _; reflexivity.
Qed.

Lemma run_all_open (dry_run : bool) (events : list Event) (s s' : t)
    (r : result unit) :
  run create_order time_ns dry_run events s = (s', r) ->
  all_open (positions s) -> all_open (positions s').
Proof.
  revert s. induction events as [|event rest IH]; intros s.
  - intros [= <- <-]. auto.
  - cbn [run]. unfold and_then.
    destruct (_handle_signal create_order time_ns dry_run event s) as [s1 r1] eqn:Hstep.
    pose proof (handle_signal_all_open _ _ _ _ _ Hstep) as Hkeep.
    destruct r1; [eauto|]. intros [= <- <-]. exact Hkeep.
Qed.

(** C6: when handling a signal sends the entry order and then the
    protective stop, the entry was accepted and the stop request is a
    [stop_market] order with [reduceOnly] set, on the side opposite to the
    entry's, for the entry's amount (the signal's position size), with
    stop price [entry - stop_distance] for a buy entry and
    [entry + stop_distance] for a sell entry. *)
Theorem install_stop_request (dry_run : bool) (event : Event) (s s' : t)
    (r : result unit) (c1 c2 : string * OrderRequest.t * call_outcome Resp) :
  _handle_signal create_order time_ns dry_run event s = (s', r) ->
  calls s' = calls s ++ [c1; c2] ->
  let entry_order := snd (fst c1) in
  let stop_order := snd (fst c2) in
  let risk := default ∅ (Payload.risk (payload event)) in
  (exists response, snd c1 = Accepted response)
  /\ OrderRequest.type stop_order = STOP_MARKET
  /\ OrderRequest.reduceOnly (OrderRequest.params stop_order) = Some true
  /\ OrderRequest.side stop_order = opposite (OrderRequest.side entry_order)
  /\ OrderRequest.amount stop_order = OrderRequest.amount entry_order
  /\ risk !! "position_size" = Some (OrderRequest.amount entry_order)
  /\ OrderRequest.symbol stop_order = OrderRequest.symbol entry_order
  /\ fst (fst c2) = fst (fst c1)
  /\ exists entry stop_distance,
       OrderRequest.price entry_order = Some entry
       /\ risk !! "stop_distance" = Some stop_distance
       /\ OrderRequest.stopPrice (OrderRequest.params stop_order)
          = Some (match OrderRequest.side entry_order with
                  | BUY => PrimFloat.sub entry stop_distance
                  | SELL => PrimFloat.add entry stop_distance
                  end).
Proof.
  intros Hstep Hcalls.
  destruct (handle_signal_two_calls _ _ _ _ _ _ _ Hstep Hcalls)
    as (exchange_name & risk & position_size & stop_distance & entry & strategy
        & symbol & response & outcome & Hexchange & Hrisk & Hsize & Hstop & Hprice
        & Hstrategy & Hsymbol & -> & -> & _).
  cbn. rewrite Hrisk. cbn.
  split; [eauto|]. repeat (split; [first [reflexivity | assumption]|]).
  exists entry, stop_distance. auto.
Qed.

(** C7: when the venue accepts the entry order and then raises on the
    stop order, the handler returns normally, the [orders] table has
    gained the entry's row with status [pending], the [positions] table
    is unchanged, and the failure is logged. *)
Theorem stop_failure_keeps_order (dry_run : bool) (event : Event) (s s' : t)
    (r : result unit) (exchange1 exchange2 : string)
    (entry_order stop_order : OrderRequest.t) (response : Resp) (error : string) :
  _handle_signal create_order time_ns dry_run event s = (s', r) ->
  calls s'
  = calls s ++ [(exchange1, entry_order, Accepted response);
                (exchange2, stop_order, Failed error)] ->
  r = Ok tt
  /\ positions s' = positions s
  /\ (exists row,
        orders s' = orders s ++ [row]
        /\ Order.status row = PENDING
        /\ Order.client_order_id row
           = OrderRequest.clientOrderId (OrderRequest.params entry_order)
        /\ Order.raw_request row = entry_order
        /\ Order.raw_response row = ResponseVenue response)
  /\ log s' = log s ++ [(Error, "execution_service.stop_install_failed")].
Proof.
  intros Hstep Hcalls.
  destruct (handle_signal_two_calls _ _ _ _ _ _ _ Hstep Hcalls)
    as (exchange_name & risk & position_size & stop_distance & entry & strategy
        & symbol & response' & outcome & _ & _ & _ & _ & _ & _ & _
        & Hc1 & Hc2 & -> & Horders & Hfailed).
  injection Hc1 as -> -> <-. injection Hc2 as -> -> <-.
  destruct (Hfailed error eq_refl) as [Hpositions Hlog].
  split; [reflexivity|]. split; [exact Hpositions|]. split; [|exact Hlog].
  eexists. split; [exact Horders|]. cbn. auto.
Qed.


End ExecutionFacts.

Lemma install_stop_request_witness :
  let s := Sample.execution_service in
  let s' := fst (_handle_signal Sample.accepting Sample.time_ns false
                   Sample.approved_signal s) in
  exists c1 c2,
    calls s' = calls s ++ [c1; c2]
    /\ OrderRequest.type (snd (fst c2)) = STOP_MARKET
    /\ OrderRequest.reduceOnly (OrderRequest.params (snd (fst c2))) = Some true
    /\ OrderRequest.side (snd (fst c2)) = SELL
    /\ OrderRequest.amount (snd (fst c2)) = 500%float
    /\ OrderRequest.stopPrice (OrderRequest.params (snd (fst c2))) = Some 96%float.
Proof.
  intros s s'.
  destruct (_handle_signal Sample.accepting Sample.time_ns false
              Sample.approved_signal s) as [s1 r1] eqn:Hstep.
  assert (Hcalls : exists c1 c2, calls s1 = calls s ++ [c1; c2]
                     /\ OrderRequest.side (snd (fst c1)) = BUY
                     /\ OrderRequest.amount (snd (fst c1)) = 500%float
                     /\ OrderRequest.price (snd (fst c1)) = Some 100%float).
  { vm_compute in Hstep. injection Hstep as <- <-.
    eexists _, _. split; [reflexivity|]. repeat split. }
  destruct Hcalls as (c1 & c2 & Hcalls & Hside & Hamount & Hprice).
  exists c1, c2. split; [exact Hcalls|].
  destruct (install_stop_request Sample.accepting Sample.time_ns false
              Sample.approved_signal s s1 r1 c1 c2 Hstep Hcalls)
    as (_ & Htype & Hreduce & Hopp & Hsame & _ & _ & _
        & entry & stop_distance & Hentry & Hstop & Hstop_price).
  rewrite Hside in *. rewrite Hamount in *. rewrite Hprice in Hentry.
  injection Hentry as <-.
  assert (stop_distance = 4%float) as ->.
  { vm_compute in Hstop. congruence. }
  repeat (split; [assumption|]). exact Hstop_price.
Defined.

Lemma stop_failure_keeps_order_witness :
  let s := Sample.execution_service in
  let outcome := _handle_signal Sample.refusing_stops Sample.time_ns false
                   Sample.approved_signal s in
  snd outcome = Ok tt
  /\ positions (fst outcome) = []
  /\ (exists row,
        orders (fst outcome) = [row]
        /\ Order.status row = PENDING
        /\ Order.client_order_id row = "0a4c7487cced1c1bee3dd3a8")
  /\ log (fst outcome) = [(Error, "execution_service.stop_install_failed")].
Proof.
  intros s outcome. subst outcome.
  destruct (_handle_signal Sample.refusing_stops Sample.time_ns false
              Sample.approved_signal s) as [s1 r1] eqn:Hstep.
  assert (Hcalls : exists entry_order stop_order,
             calls s1 = calls s ++ [("binance", entry_order, Accepted "accepted");
                                    ("binance", stop_order, Failed "stop rejected")]
             /\ OrderRequest.clientOrderId (OrderRequest.params entry_order)
                = "0a4c7487cced1c1bee3dd3a8").
  { vm_compute in Hstep. injection Hstep as <- <-.
    eexists _, _. split; reflexivity. }
  destruct Hcalls as (entry_order & stop_order & Hcalls & Hid).
  destruct (stop_failure_keeps_order Sample.refusing_stops Sample.time_ns false
              Sample.approved_signal s s1 r1 _ _ _ _ _ _ Hstep Hcalls)
    as (Hr & Hpositions & (row & Horders & Hstatus & Hrow_id & _) & Hlog).
  cbn [fst snd]. split; [exact Hr|]. split; [exact Hpositions|].
  split; [|exact Hlog].
  exists row. split; [exact Horders|]. split; [exact Hstatus|]. congruence.
Defined.

(** C8, on the code: on SQLite, the default engine of the settings, a
    dry run records nothing. The approved signal of the happy path is
    handled on empty tables: the insert of its row fails at binding, as
    [raw_request] is a dictionary and the column is [Text] there; the row
    is rolled back and [ProgrammingError] leaves the handler and ends the
    run. No venue is called and no position is written, as the claim
    says. On PostgreSQL the same signal is recorded as the claim says,
    with status [new] and raw response [{"status": "dry_run"}]. *)
Theorem dry_run_on_sqlite_records_nothing :
  let on_sqlite :=
    run Sample.accepting Sample.time_ns true [Sample.approved_signal]
      Scenario.sqlite_execution_service in
  let on_postgresql :=
    run Sample.accepting Sample.time_ns true [Sample.approved_signal]
      Sample.execution_service in
  snd on_sqlite = Raise ProgrammingError
  /\ orders (fst on_sqlite) = []
  /\ calls (fst on_sqlite) = []
  /\ positions (fst on_sqlite) = []
  /\ snd on_postgresql = Ok tt
  /\ map (fun row => (Order.client_order_id row, Order.status row,
                      Order.raw_response row))
       (orders (fst on_postgresql))
     = [("0a4c7487cced1c1bee3dd3a8", NEW, ResponseDict {[ "status" := "dry_run" ]})].
Proof. vm_compute. repeat split. Qed.

(** C1, on the code: the same approved signal handled twice, one clock
    tick after the other, reaches the venue under four different client
    order ids; the entry order of the redelivery does not repeat the id of
    the first delivery. *)
Theorem redelivery_changes_client_order_id :
  let s0 := Sample.execution_service in
  let s1 := fst (_handle_signal Sample.accepting Sample.time_ns false
                   Sample.approved_signal s0) in
  let s2 := fst (_handle_signal Sample.accepting Sample.time_ns false
                   Sample.approved_signal s1) in
  map (fun c => (OrderRequest.type (snd (fst c)),
                 OrderRequest.clientOrderId (OrderRequest.params (snd (fst c)))))
      (calls s2)
  = [ (LIMIT, "0a4c7487cced1c1bee3dd3a8");
      (STOP_MARKET, "53575d4c88e934fdca1a86a6");
      (LIMIT, "f942fc8fab15d6c936faaffa");
      (STOP_MARKET, "049bdc99c6f1112d087f1d05") ].
Proof. vm_compute. reflexivity. Qed.

(** Every table the service leaves behind, started from one without
    closed rows, is one on which the risk service's sum is the sum over
    the open positions. *)
Lemma open_risk_after_run {Venue Resp : Type}
    (create_order : Venue -> OrderRequest.t -> Venue * call_outcome Resp)
    (time_ns : nat -> Z) (dry_run : bool) (events : list Event)
    (s s' : @ExecutionService.t Venue Resp) (r : result unit)
    (risk_service : RiskService.t) :
  run create_order time_ns dry_run events s = (s', r) ->
  all_open (positions s) ->
  RiskService.positions risk_service = positions s' ->
  RiskService._calculate_open_risk risk_service
  = RiskService.open_positions_risk (positions s').
Proof.
  intros Hrun Hopen Hrows.
  unfold RiskService._calculate_open_risk, RiskService.open_positions_risk.
  rewrite Hrows, (filter_all_open _ (run_all_open _ _ _ _ _ _ _ Hrun Hopen)).
  reflexivity.
Qed.

(** Under [dry_run] the redelivered signal is recorded a second time,
    under a second id. *)
Example redelivery_dry_run_rows :
  map Order.client_order_id
    (orders (fst (run Sample.accepting Sample.time_ns true
                    [Sample.approved_signal; Sample.approved_signal]
                    Sample.execution_service)))
  = [ "0a4c7487cced1c1bee3dd3a8"; "00e8855925713d2ab9973051" ].
Proof. vm_compute. reflexivity. Qed.

(* ===================================================================== *)
(** ** The execution service: what a signal comes to                      *)
(* ===================================================================== *)

Section ExecutionBehaviour.
Context {Venue Resp : Type}.
Variable create_order : Venue -> OrderRequest.t -> Venue * call_outcome Resp.
Variable time_ns : nat -> Z.

Local Abbreviation t := (@ExecutionService.t Venue Resp).
Local Opaque make_client_order_id.

Lemma preserves_ret {A} (I : t -> Prop) (a : A) : preserves I (ret a).
Proof. intros s Hs. exact Hs. Qed.

Lemma preserves_raise {A} (I : t -> Prop) (e : exn) : preserves I (@raise _ _ A e).
Proof. intros s Hs. exact Hs. Qed.

Lemma preserves_and_then {A B} (I : t -> Prop) (m : M A) (k : A -> M B) :
  preserves I m -> (forall a, preserves I (k a)) -> preserves I (and_then m k).
Proof.
  intros Hm Hk s Hs. unfold and_then. specialize (Hm s Hs).
  destruct (m s) as [s1 [a|e]]; cbn [fst] in *; [apply Hk|]; exact Hm.
Qed.

Lemma preserves_try_except {A} (I : t -> Prop) (body : M A) (handler : exn -> M A) :
  preserves I body -> (forall e, preserves I (handler e)) ->
  preserves I (try_except body handler).
Proof.
  intros Hbody Hhandler s Hs. unfold try_except. specialize (Hbody s Hs).
  destruct (body s) as [s1 [a|e]]; cbn [fst] in *; [|apply Hhandler]; exact Hbody.
Qed.

Section Invariant.
Variable I : t -> Prop.
Hypothesis I_logger : forall lvl event, preserves I (logger lvl event).
Hypothesis I_read_time_ns : preserves I (read_time_ns time_ns).
Hypothesis I_create_order :
  forall client request, preserves I (client_create_order create_order client request).
Hypothesis I_record_order :
  forall id exchange strategy symbol side type price quantity request response status,
    preserves I (_record_order id exchange strategy symbol side type price quantity
                   request response status).
Hypothesis I_update_position :
  forall symbol exchange strategy quantity entry_price stop_price,
    preserves I (_update_position symbol exchange strategy quantity entry_price
                   stop_price).

Lemma install_stop_preserves (dry_run : bool)
    (client : string) (strategy : option string) (exchange : string)
    (symbol : option string) (side : OrderSide) (entry_price : option float)
    (stop_distance position_size : float) :
  preserves I (_install_stop create_order time_ns dry_run client strategy exchange
                 symbol side entry_price stop_distance position_size).
Proof using I_logger I_read_time_ns I_create_order I_record_order
  I_update_position.
  unfold _install_stop. destruct entry_price as [entry|]; [|apply preserves_raise].
  apply preserves_and_then; [exact I_read_time_ns|]. intros now.
  destruct dry_run; [apply I_logger|].
  apply preserves_try_except; [|intros e; apply I_logger].
  apply preserves_and_then; [apply I_create_order|]. intros response.
  apply preserves_and_then; [apply I_logger|]. intros _.
  apply I_update_position.
Qed.

Lemma handle_signal_preserves (dry_run : bool) (event : Event) :
  preserves I (_handle_signal create_order time_ns dry_run event).
Proof using I_logger I_read_time_ns I_create_order I_record_order
  I_update_position.
  intros s Hs. unfold _handle_signal.
  destruct (Payload.exchange (payload event)) as [exchange_name|];
    cbn [base.mbind option_bind]; [|apply I_logger; exact Hs].
  destruct (_clients s !! exchange_name) as [venue|]; [|apply I_logger; exact Hs].
  destruct (Payload.get_risk (payload event)) as [risk|]; [|exact Hs].
  destruct (negb _ || negb _); [apply I_logger; exact Hs|].
  destruct (_ !! "position_size") as [position_size|]; [|exact Hs].
  destruct (_ !! "stop_distance") as [stop_distance|]; [|exact Hs].
  revert s Hs. apply preserves_and_then; [exact I_read_time_ns|]. intros now.
  destruct dry_run.
  - apply preserves_and_then; [apply I_logger|]. intros _. apply I_record_order.
  - apply preserves_try_except; [|intros e; apply I_logger].
    apply preserves_and_then; [apply I_create_order|]. intros response.
    apply preserves_and_then; [apply I_record_order|]. intros _.
    apply install_stop_preserves.
Qed.

Lemma run_preserves (dry_run : bool) (events : list Event) :
  preserves I (run create_order time_ns dry_run events).
Proof using I_logger I_read_time_ns I_create_order I_record_order
  I_update_position.
  induction events as [|event rest IH]; [apply preserves_ret|].
  cbn [run]. apply preserves_and_then; [apply handle_signal_preserves|].
  intros _. exact IH.
Qed.
End Invariant.



Lemma same_key_position_key (symbol exchange strategy : string) (p : Position.t) :
  same_key symbol exchange strategy p = true
  <-> position_key p = (symbol, exchange, strategy).
Proof.
  unfold same_key, position_key. rewrite !andb_true_iff, !String.eqb_eq.
  split; [intros [[-> ->] ->]; reflexivity | intros [= -> -> ->]; auto].
Qed.

Lemma filter_nil_not_in (symbol exchange strategy : string) (rows : list Position.t) :
  List.filter (same_key symbol exchange strategy) rows = [] ->
  ~ In (symbol, exchange, strategy) (map position_key rows).
Proof.
  intros Hnone Hin. apply in_map_iff in Hin. destruct Hin as (p & Hkey & Hp).
  assert (Hfilter : In p (List.filter (same_key symbol exchange strategy) rows)).
  { apply filter_In. split; [exact Hp|]. apply same_key_position_key, Hkey. }
  rewrite Hnone in Hfilter. destruct Hfilter.
Qed.


(** X1. Whatever the mode and the events, a run of the execution service
    leaves every row of the positions table marked as protected by an
    installed stop, if every row was so marked before: no row is ever
    written, or rewritten, without the mark. *)
Theorem run_keeps_stops_installed (dry_run : bool) (events : list Event) (s : t) :
  Forall (fun p => Position.reduce_only_stop_installed p = true) (positions s) ->
  Forall (fun p => Position.reduce_only_stop_installed p = true)
    (positions (fst (run create_order time_ns dry_run events s))).
Proof.
  revert s.
  change (preserves
            (fun s => Forall (fun p => Position.reduce_only_stop_installed p = true)
                        (positions s))
            (run create_order time_ns dry_run events)).
  apply run_preserves.
  - intros lvl event s Hs. exact Hs.
  - intros s Hs. exact Hs.
  - intros client request s Hs. unfold client_create_order.
    destruct (_clients s !! client); [|exact Hs].
    destruct (create_order _ _) as [? [?|?]]; exact Hs.
  - intros id exchange strategy symbol side type price quantity request response
      status s Hs.
    destruct (_record_order _ _ _ _ _ _ _ _ _ _ _ s) as [s' r] eqn:Hrecord.
    apply record_order_effect in Hrecord.
    destruct Hrecord as [[-> _] | (_ & _ & _ & ? & ? & _ & _ & _ & ->)]; exact Hs.
  - intros symbol exchange strategy quantity entry_price stop_price s Hs.
    unfold _update_position. destruct symbol, strategy; try exact Hs.
    destruct (List.filter _ _) as [|p [|q rest]];
      try destruct (position_overflow _ _ _ _); cbn; try exact Hs.
    + apply Forall_app. split; [exact Hs|]. repeat constructor.
    + apply Forall_fmap. eapply Forall_impl; [exact Hs|].
      intros row Hrow. cbn. destruct (same_key _ _ _ row); [reflexivity|exact Hrow].
Qed.

(** X2. A run never records two orders under one client order id: if the
    ids of the orders table are pairwise different before, they are
    pairwise different after, whatever the clock returns. *)
Theorem run_keeps_client_order_ids_unique
    (dry_run : bool) (events : list Event) (s : t) :
  NoDup (map Order.client_order_id (orders s)) ->
  NoDup (map Order.client_order_id
           (orders (fst (run create_order time_ns dry_run events s)))).
Proof.
  revert s.
  change (preserves (fun s => NoDup (map Order.client_order_id (orders s)))
            (run create_order time_ns dry_run events)).
  apply run_preserves.
  - intros lvl event s Hs. exact Hs.
  - intros s Hs. exact Hs.
  - intros client request s Hs. unfold client_create_order.
    destruct (_clients s !! client); [|exact Hs].
    destruct (create_order _ _) as [? [?|?]]; exact Hs.
  - intros id exchange strategy symbol side type price quantity request response
      status s Hs.
    destruct (_record_order _ _ _ _ _ _ _ _ _ _ _ s) as [s' r] eqn:Hrecord.
    apply record_order_effect in Hrecord.
    destruct Hrecord as [[-> _] | (_ & _ & Htaken & ? & ? & _ & _ & _ & ->)];
      [exact Hs|]. cbn.
    rewrite map_app. cbn. apply NoDup_app. split; [exact Hs|].
    split; [|apply NoDup_singleton].
    intros other Hin Hother. apply list_elem_of_In in Hin.
    apply list_elem_of_In in Hother. destruct Hother as [<-|[]].
    apply in_map_iff in Hin. destruct Hin as (row & Hid & Hrow).
    assert (Hexists : existsb (fun o => String.eqb (Order.client_order_id o) id)
                        (orders s) = true).
    { apply existsb_exists. exists row. split; [exact Hrow|].
      apply String.eqb_eq. exact Hid. }
    congruence.
  - intros symbol exchange strategy quantity entry_price stop_price s Hs.
    unfold _update_position. destruct symbol, strategy; try exact Hs.
    destruct (List.filter _ _) as [|p [|q rest]];
      try destruct (position_overflow _ _ _ _); exact Hs.
Qed.

(** X3. A run keeps at most one position per (symbol, exchange,
    strategy): if the keys of the positions table are pairwise different
    before, they are pairwise different after. *)
Theorem run_keeps_position_keys_unique
    (dry_run : bool) (events : list Event) (s : t) :
  NoDup (map position_key (positions s)) ->
  NoDup (map position_key
           (positions (fst (run create_order time_ns dry_run events s)))).
Proof.
  revert s.
  change (preserves (fun s => NoDup (map position_key (positions s)))
            (run create_order time_ns dry_run events)).
  apply run_preserves.
  - intros lvl event s Hs. exact Hs.
  - intros s Hs. exact Hs.
  - intros client request s Hs. unfold client_create_order.
    destruct (_clients s !! client); [|exact Hs].
    destruct (create_order _ _) as [? [?|?]]; exact Hs.
  - intros id exchange strategy symbol side type price quantity request response
      status s Hs.
    destruct (_record_order _ _ _ _ _ _ _ _ _ _ _ s) as [s' r] eqn:Hrecord.
    apply record_order_effect in Hrecord.
    destruct Hrecord as [[-> _] | (_ & _ & _ & ? & ? & _ & _ & _ & ->)]; exact Hs.
  - intros symbol exchange strategy quantity entry_price stop_price s Hs.
    unfold _update_position.
    destruct symbol as [symbol|], strategy as [strategy|]; try exact Hs.
    destruct (List.filter _ _) as [|p [|q rest]] eqn:Hfilter;
      try destruct (position_overflow _ _ _ _); cbn; try exact Hs.
    + rewrite map_app. cbn. apply NoDup_app. split; [exact Hs|].
      split; [|apply NoDup_singleton].
      intros key Hin Hkey. apply list_elem_of_In in Hin.
      apply list_elem_of_In in Hkey. destruct Hkey as [<-|[]].
      exact (filter_nil_not_in _ _ _ _ Hfilter Hin).
    + rewrite map_map.
      erewrite map_ext; [exact Hs|].
      intros row. cbn. destruct (same_key _ _ _ row); reflexivity.
Qed.

(** X4. The orders table is append-only: after a run, in either mode
    and whether it ended normally or by an exception, the table is the
    old one followed by the new rows; no recorded order is changed or
    removed. *)
Theorem run_appends_orders (dry_run : bool) (events : list Event) (s0 : t) :
  exists rows,
    orders (fst (run create_order time_ns dry_run events s0)) = orders s0 ++ rows.
Proof.
  assert (Hkeep : preserves (fun s : t => exists rows, orders s = orders s0 ++ rows)
                    (run create_order time_ns dry_run events)).
  { apply run_preserves.
    - intros lvl event s Hs. exact Hs.
    - intros s Hs. exact Hs.
    - intros client request s Hs. unfold client_create_order.
      destruct (_clients s !! client); [|exact Hs].
      destruct (create_order _ _) as [? [?|?]]; exact Hs.
    - intros id exchange strategy symbol side type price quantity request response
        status s [rows Hs].
      destruct (_record_order _ _ _ _ _ _ _ _ _ _ _ s) as [s' r] eqn:Hrecord.
      apply record_order_effect in Hrecord.
      destruct Hrecord as [[-> _] | (_ & _ & _ & ? & ? & _ & _ & _ & ->)];
        [exists rows; exact Hs|]. cbn.
      eexists. rewrite Hs, <- app_assoc. reflexivity.
    - intros symbol exchange strategy quantity entry_price stop_price s Hs.
      unfold _update_position. destruct symbol, strategy; try exact Hs.
      destruct (List.filter _ _) as [|p [|q rest]];
        try destruct (position_overflow _ _ _ _); exact Hs. }
  apply Hkeep. exists []. rewrite app_nil_r. reflexivity.
Qed.

(** X5. A signal for an exchange without a client, or without a truthy
    position size and stop distance, is never traded. With a client for
    its exchange and a null under [risk], [risk.get] raises
    [AttributeError] ahead of the [try]: the exception leaves the handler
    in either mode and nothing, the log included, is touched. In every
    other case the signal is dropped: the handler returns normally in
    either mode, the tables, the venues and the clock are left as they
    were, and the log gains exactly one error line, which tells the two
    reasons apart. *)
Theorem handle_signal_drops (dry_run : bool) (event : Event) (s : t) :
  accepted (_clients s) event = false ->
  let p := payload event in
  let client := Payload.exchange p ≫= (fun name => _clients s !! name) in
  let outcome := _handle_signal create_order time_ns dry_run event s in
  match client, Payload.risk_member p with
  | Some _, Null => outcome = (s, Raise AttributeError)
  | _, _ =>
      snd outcome = Ok tt
      /\ orders (fst outcome) = orders s
      /\ positions (fst outcome) = positions s
      /\ calls (fst outcome) = calls s
      /\ _clients (fst outcome) = _clients s
      /\ clock (fst outcome) = clock s
      /\ log (fst outcome)
         = log s ++ [(Error,
                      match client with
                      | None => "execution_service.unknown_exchange"
                      | Some _ => "execution_service.missing_risk_info"
                      end)]
  end.
Proof.
  unfold accepted, _handle_signal, Payload.get_risk, Payload.risk.
  destruct (Payload.exchange (payload event)) as [exchange_name|];
    cbn [base.mbind option_bind]; [|intros _; cbn; auto 10].
  destruct (_clients s !! exchange_name) as [venue|]; [|intros _; cbn; auto 10].
  destruct (Payload.risk_member (payload event)) as [| |risk];
    cbn [from_option id];
    [| intros _; reflexivity |];
    intros Hfalsy; rewrite <- negb_andb, Hfalsy; cbn; auto 10.
Qed.







Lemma trace_none_one {A} (l : list A) (c : A) : l = l ++ [c] -> False.
Proof.
  intros H. apply (f_equal (@length A)) in H. rewrite length_app in H. cbn in H. lia.
Qed.

Lemma trace_two_one {A} (l : list A) (a b c : A) : (l ++ [a]) ++ [b] = l ++ [c] -> False.
Proof.
  intros H. apply (f_equal (@length A)) in H. rewrite !length_app in H. cbn in H. lia.
Qed.


(** X7. When the venue refuses the entry order, so that the call of the
    handler is the one failed [create_order], nothing is recorded: the
    handler returns normally, orders and positions are unchanged, no stop
    is sent, the refused request was the limit entry order, and the log
    gains the one line [execution_service.order_failed]. *)
Theorem entry_failure_records_nothing (dry_run : bool) (event : Event) (s s' : t)
    (r : result unit) (exchange : string) (request : OrderRequest.t) (error : string) :
  _handle_signal create_order time_ns dry_run event s = (s', r) ->
  calls s' = calls s ++ [(exchange, request, Failed error)] ->
  r = Ok tt
  /\ orders s' = orders s
  /\ positions s' = positions s
  /\ OrderRequest.type request = LIMIT
  /\ log s' = log s ++ [(Error, "execution_service.order_failed")].
Proof.
  unfold _handle_signal.
  destruct (Payload.exchange (payload event)) as [exchange_name|];
    cbn [base.mbind option_bind].
  2:{ intros [= <- <-] Hcalls. cbn in Hcalls. destruct (trace_none_one _ _ Hcalls). }
  destruct (_clients s !! exchange_name) as [venue|] eqn:Hclient.
  2:{ intros [= <- <-] Hcalls. cbn in Hcalls. destruct (trace_none_one _ _ Hcalls). }
  destruct (Payload.get_risk (payload event)) as [risk|].
  2:{ intros [= <- <-] Hcalls. destruct (trace_none_one _ _ Hcalls). }
  destruct (negb _ || negb _).
  { intros [= <- <-] Hcalls. cbn in Hcalls. destruct (trace_none_one _ _ Hcalls). }
  destruct (_ !! "position_size") as [position_size|].
  2:{ intros [= <- <-] Hcalls. cbn in Hcalls. destruct (trace_none_one _ _ Hcalls). }
  destruct (_ !! "stop_distance") as [stop_distance|].
  2:{ intros [= <- <-] Hcalls. cbn in Hcalls. destruct (trace_none_one _ _ Hcalls). }
  unfold and_then at 1. unfold read_time_ns at 1.
  destruct dry_run.
  { unfold and_then at 1. unfold logger at 1.
    match goal with
    | |- context [_record_order ?x1 ?x2 ?x3 ?x4 ?x5 ?x6 ?x7 ?x8 ?x9 ?x10 ?x11 ?s0] =>
        destruct (_record_order x1 x2 x3 x4 x5 x6 x7 x8 x9 x10 x11 s0)
          as [s2 r2] eqn:Hrecord;
        apply record_order_effect in Hrecord;
        destruct Hrecord as [(-> & _) | (_ & _ & _ & ? & ? & _ & _ & _ & ->)]
    end; intros [= <- <-] Hcalls; cbn in Hcalls;
      destruct (trace_none_one _ _ Hcalls). }
  unfold try_except. unfold and_then at 1. unfold client_create_order at 1.
  cbn [_clients]. rewrite Hclient.
  destruct (create_order venue _) as [venue' [response|error1]].
  2:{ cbn. intros [= <- <-] Hcalls. cbn in Hcalls.
      apply app_inv_head in Hcalls. injection Hcalls as <- <- <-. auto. }
  unfold and_then at 1.
  match goal with
  | |- context [_record_order ?x1 ?x2 ?x3 ?x4 ?x5 ?x6 ?x7 ?x8 ?x9 ?x10 ?x11 ?s0] =>
      destruct (_record_order x1 x2 x3 x4 x5 x6 x7 x8 x9 x10 x11 s0)
        as [s1 r1] eqn:Hrecord;
      apply record_order_effect in Hrecord;
      destruct Hrecord as [(-> & e & -> & _) | (-> & _ & _ & ? & ? & _ & _ & _ & ->)]
  end.
  { cbn. intros [= <- <-] Hcalls. cbn in Hcalls.
    apply app_inv_head in Hcalls. discriminate. }
  match goal with
  | |- context [_install_stop ?co ?tn ?dr ?cl ?st ?ex ?sy ?sd ?ep ?d ?ps ?s0] =>
      destruct (_install_stop co tn dr cl st ex sy sd ep d ps s0) as [s2 r2] eqn:Hstop
  end.
  apply install_stop_effect in Hstop.
  cbn [orders positions _clients calls log clock] in Hstop.
  destruct Hstop as [_ [[Hcalls2 _] | (entry & outcome & _ & Hcalls2 & _)]];
    destruct r2; intros [= <- <-] Hcalls; cbn in Hcalls; rewrite Hcalls2 in Hcalls;
    try (apply app_inv_head in Hcalls; discriminate);
    destruct (trace_two_one _ _ _ _ Hcalls).
Qed.


(** X8. When the venue accepts the entry order and the stop, the handler
    returns normally and the position is brought up to date by its key
    (symbol, exchange, strategy): no row with the key, a new row with the
    signed quantity, the entry price and the stop price of the stop
    order; one row, that row with the quantity added, entry and stop
    price overwritten and the stop marked installed; several rows, no
    change to the table and the lookup's exception logged as
    [execution_service.stop_install_failed] although the stop is in
    place. *)
Theorem stop_accepted_updates_position (dry_run : bool) (event : Event) (s s' : t)
    (r : result unit) (exchange1 exchange2 : string)
    (entry_order stop_order : OrderRequest.t) (response1 response2 : Resp) :
  _handle_signal create_order time_ns dry_run event s = (s', r) ->
  calls s'
  = calls s ++ [(exchange1, entry_order, Accepted response1);
                (exchange2, stop_order, Accepted response2)] ->
  exists symbol strategy entry stop_price,
    Payload.symbol (payload event) = Some symbol
    /\ Payload.strategy (payload event) = Some strategy
    /\ OrderRequest.price entry_order = Some entry
    /\ OrderRequest.stopPrice (OrderRequest.params stop_order) = Some stop_price
    /\ r = Ok tt
    /\ let quantity :=
         signed_quantity (OrderRequest.side entry_order)
           (OrderRequest.amount entry_order) in
       match List.filter (same_key symbol exchange1 strategy) (positions s) with
       | [] =>
           positions s'
           = positions s
               ++ [new_position symbol exchange1 strategy quantity entry stop_price]
           /\ log s' = log s ++ [(Info, "execution_service.stop_installed")]
       | [_] =>
           positions s'
           = map (fun p => if same_key symbol exchange1 strategy p
                           then merged_position p quantity entry stop_price
                           else p) (positions s)
           /\ log s' = log s ++ [(Info, "execution_service.stop_installed")]
       | _ =>
           positions s' = positions s
           /\ log s' = log s ++ [(Info, "execution_service.stop_installed");
                                 (Error, "execution_service.stop_install_failed")]
       end.
Proof.
  unfold _handle_signal. fold (side_of (Payload.decision (payload event))).
  destruct (Payload.exchange (payload event)) as [exchange_name|];
    cbn [base.mbind option_bind].
  2:{ intros [= <- <-] Hcalls. cbn in Hcalls. destruct (trace_no_growth _ _ _ Hcalls). }
  destruct (_clients s !! exchange_name) as [venue|] eqn:Hclient.
  2:{ intros [= <- <-] Hcalls. cbn in Hcalls. destruct (trace_no_growth _ _ _ Hcalls). }
  destruct (Payload.get_risk (payload event)) as [risk|].
  2:{ intros [= <- <-] Hcalls. destruct (trace_no_growth _ _ _ Hcalls). }
  destruct (negb _ || negb _).
  { intros [= <- <-] Hcalls. cbn in Hcalls. destruct (trace_no_growth _ _ _ Hcalls). }
  destruct (_ !! "position_size") as [position_size|].
  2:{ intros [= <- <-] Hcalls. cbn in Hcalls. destruct (trace_no_growth _ _ _ Hcalls). }
  destruct (_ !! "stop_distance") as [stop_distance|].
  2:{ intros [= <- <-] Hcalls. cbn in Hcalls. destruct (trace_no_growth _ _ _ Hcalls). }
  unfold and_then at 1. unfold read_time_ns at 1.
  destruct dry_run.
  { unfold and_then at 1. unfold logger at 1.
    match goal with
    | |- context [_record_order ?x1 ?x2 ?x3 ?x4 ?x5 ?x6 ?x7 ?x8 ?x9 ?x10 ?x11 ?s0] =>
        destruct (_record_order x1 x2 x3 x4 x5 x6 x7 x8 x9 x10 x11 s0)
          as [s2 r2] eqn:Hrecord;
        apply record_order_effect in Hrecord;
        destruct Hrecord as [(-> & _) | (_ & _ & _ & ? & ? & _ & _ & _ & ->)]
    end; intros [= <- <-] Hcalls; cbn in Hcalls;
      destruct (trace_no_growth _ _ _ Hcalls). }
  unfold try_except. unfold and_then at 1. unfold client_create_order at 1.
  cbn [_clients]. rewrite Hclient.
  destruct (create_order venue _) as [venue' [response|error1]].
  2:{ cbn. intros [= <- <-] Hcalls. cbn in Hcalls.
      destruct (trace_one_call _ _ _ _ Hcalls). }
  unfold and_then at 1.
  match goal with
  | |- context [_record_order ?x1 ?x2 ?x3 ?x4 ?x5 ?x6 ?x7 ?x8 ?x9 ?x10 ?x11 ?s0] =>
      destruct (_record_order x1 x2 x3 x4 x5 x6 x7 x8 x9 x10 x11 s0)
        as [s1 r1] eqn:Hrecord;
      apply record_order_effect in Hrecord;
      destruct Hrecord as [(-> & e & -> & _)
                          | (-> & Hdatabase & _ & strategy & symbol & Hstrategy
                             & Hsymbol & Hoverflow & ->)]
  end.
  { cbn. intros [= <- <-] Hcalls. cbn in Hcalls.
    destruct (trace_one_call _ _ _ _ Hcalls). }
  cbn [database] in Hdatabase. rewrite Hstrategy, Hsymbol.
  unfold _install_stop.
  destruct (Payload.price (payload event)) as [entry|].
  2:{ cbn. intros [= <- <-] Hcalls. cbn in Hcalls.
      destruct (trace_one_call _ _ _ _ Hcalls). }
  unfold and_then at 1. unfold read_time_ns at 1.
  unfold try_except. unfold and_then at 1. unfold client_create_order at 1.
  cbn [_clients]. rewrite lookup_insert_eq.
  destruct (create_order venue' _) as [venue'' [response'|error2]].
  2:{ cbn. intros [= <- <-] Hcalls. cbn in Hcalls.
      apply trace_two_calls in Hcalls. destruct Hcalls as [_ [=]]. }
  unfold and_then at 1. unfold logger at 1. unfold _update_position.
  cbn [database orders positions _clients calls log clock].
  rewrite Hdatabase, Hoverflow.
  destruct (List.filter (same_key symbol exchange_name strategy) (positions s))
    as [|p [|q rest]] eqn:Hfilter;
    cbn; intros [= <- <-] Hcalls; cbn in Hcalls;
    apply trace_two_calls in Hcalls; destruct Hcalls as [[= <- <- <-] [= <- <- <-]];
    exists symbol, strategy, entry; eexists; cbn;
    (split; [reflexivity|]); (split; [reflexivity|]); (split; [reflexivity|]);
    (split; [reflexivity|]); (split; [reflexivity|]);
    rewrite Hfilter; (split; [|rewrite <- ?app_assoc; reflexivity]).
  - unfold new_position, signed_quantity.
    destruct (side_of (Payload.decision (payload event))); reflexivity.
  - apply map_ext. intros row. unfold merged_position, signed_quantity,
      Position.mark_stop_installed. cbn.
    destruct (same_key _ _ _ row); [|reflexivity].
    destruct (side_of (Payload.decision (payload event))); reflexivity.
  - reflexivity.
Qed.


End ExecutionBehaviour.

Lemma run_keeps_stops_installed_witness :
  Forall (fun p => Position.reduce_only_stop_installed p = true)
    (positions
       (fst (run Sample.accepting Sample.time_ns false
               [Sample.approved_signal; Sample.approved_signal]
               Sample.execution_service))).
Proof. apply run_keeps_stops_installed. simpl. constructor. Defined.

Lemma run_keeps_client_order_ids_unique_witness :
  NoDup (map Order.client_order_id
           (orders
              (fst (run Sample.accepting Sample.time_ns false
                      [Sample.approved_signal; Sample.approved_signal]
                      Sample.execution_service)))).
Proof. apply run_keeps_client_order_ids_unique. simpl. constructor. Defined.

Lemma run_keeps_position_keys_unique_witness :
  NoDup (map position_key
           (positions
              (fst (run Sample.accepting Sample.time_ns false
                      [Sample.approved_signal; Sample.approved_signal]
                      Sample.execution_service)))).
Proof. apply run_keeps_position_keys_unique. simpl. constructor. Defined.

Lemma handle_signal_drops_witness :
  (let outcome := _handle_signal Sample.accepting Sample.time_ns false
                    Sample.stray_signal Sample.execution_service in
   snd outcome = Ok tt
   /\ orders (fst outcome) = []
   /\ positions (fst outcome) = []
   /\ calls (fst outcome) = []
   /\ log (fst outcome) = [(Error, "execution_service.unknown_exchange")])
  /\ _handle_signal Sample.accepting Sample.time_ns true
       Scenario.null_risk_signal Sample.execution_service
     = (Sample.execution_service, Raise AttributeError).
Proof.
  split.
  - intros outcome. subst outcome.
    assert (Hdropped : accepted (_clients Sample.execution_service)
                         Sample.stray_signal = false) by (vm_compute; reflexivity).
    pose proof (handle_signal_drops Sample.accepting Sample.time_ns false
                  Sample.stray_signal Sample.execution_service Hdropped) as Hdrop.
    change (Payload.exchange (payload Sample.stray_signal)
              ≫= (fun name => _clients Sample.execution_service !! name))
      with (@None (list string)) in Hdrop.
    destruct Hdrop as (Hr & Horders & Hpositions & Hcalls & _ & _ & Hlog).
    split; [exact Hr|]. split; [exact Horders|]. split; [exact Hpositions|].
    split; [exact Hcalls|]. exact Hlog.
  - assert (Hdropped : accepted (_clients Sample.execution_service)
                         Scenario.null_risk_signal = false)
      by (vm_compute; reflexivity).
    exact (handle_signal_drops Sample.accepting Sample.time_ns true
             Scenario.null_risk_signal Sample.execution_service Hdropped).
Defined.


Lemma entry_failure_records_nothing_witness :
  let outcome := _handle_signal Scenario.refusing Sample.time_ns false
                   Sample.approved_signal Sample.execution_service in
  snd outcome = Ok tt
  /\ orders (fst outcome) = []
  /\ positions (fst outcome) = []
  /\ log (fst outcome) = [(Error, "execution_service.order_failed")].
Proof.
  intros outcome. subst outcome.
  destruct (_handle_signal Scenario.refusing Sample.time_ns false
              Sample.approved_signal Sample.execution_service) as [s1 r1] eqn:Hstep.
  assert (Hcalls : exists request,
             calls s1 = calls Sample.execution_service
                          ++ [("binance", request, Failed "insufficient margin")]).
  { vm_compute in Hstep. injection Hstep as <- <-. eexists. reflexivity. }
  destruct Hcalls as (request & Hcalls).
  destruct (entry_failure_records_nothing Scenario.refusing Sample.time_ns false
              Sample.approved_signal Sample.execution_service s1 r1 _ _ _ Hstep Hcalls)
    as (Hr & Horders & Hpositions & _ & Hlog).
  cbn [fst snd]. split; [exact Hr|]. split; [exact Horders|].
  split; [exact Hpositions|exact Hlog].
Defined.

Lemma stop_accepted_updates_position_witness :
  let outcome := _handle_signal Sample.accepting Sample.time_ns false
                   Sample.approved_signal Sample.execution_service in
  snd outcome = Ok tt
  /\ positions (fst outcome)
     = [new_position "BTC/USDT" "binance" "trend" 500 100 96]
  /\ log (fst outcome) = [(Info, "execution_service.stop_installed")].
Proof.
  intros outcome. subst outcome.
  destruct (_handle_signal Sample.accepting Sample.time_ns false
              Sample.approved_signal Sample.execution_service) as [s1 r1] eqn:Hstep.
  assert (Hcalls : exists entry_order stop_order,
             calls s1 = calls Sample.execution_service
                          ++ [("binance", entry_order, Accepted "accepted");
                              ("binance", stop_order, Accepted "accepted")]
             /\ OrderRequest.side entry_order = BUY
             /\ OrderRequest.amount entry_order = 500%float
             /\ OrderRequest.price entry_order = Some 100%float
             /\ OrderRequest.stopPrice (OrderRequest.params stop_order)
                = Some 96%float).
  { vm_compute in Hstep. injection Hstep as <- <-.
    eexists _, _. split; [reflexivity|]. repeat split. }
  destruct Hcalls as (entry_order & stop_order & Hcalls & Hside & Hamount & Hprice
                      & Hstop).
  destruct (stop_accepted_updates_position Sample.accepting Sample.time_ns false
              Sample.approved_signal Sample.execution_service s1 r1 _ _ _ _ _ _
              Hstep Hcalls)
    as (symbol & strategy & entry & stop_price & Hsymbol & Hstrategy & Hentry
        & Hstop_price & Hr & Hposition).
  injection Hsymbol as <-. injection Hstrategy as <-.
  rewrite Hprice in Hentry. injection Hentry as <-.
  rewrite Hstop in Hstop_price. injection Hstop_price as <-.
  rewrite Hside, Hamount in Hposition. cbn in Hposition.
  destruct Hposition as [Hpositions Hlog].
  cbn [fst snd]. split; [exact Hr|]. split; [exact Hpositions|exact Hlog].
Defined.

(* ===================================================================== *)
(** ** The risk service: what is approved, and what is left alone         *)
(* ===================================================================== *)

Lemma list_not_grown {A} (l : list A) (x : A) : l <> l ++ [x].
Proof.
  intros H. apply (f_equal (@length A)) in H. rewrite length_app in H. cbn in H. lia.
Qed.

Lemma risk_service_cases
    (event : Event) (approved_stream : string) (s : RiskService.t) :
  let s' := fst (RiskService._handle_signal event approved_stream s) in
  (RiskService.published s' = RiskService.published s /\ ~ approvable s event)
  \/ (RiskService.published s'
      = RiskService.published s ++ [(approved_stream, approved_event event)]
      /\ approvable s event).
Proof.
  cbv zeta. unfold approvable, RiskService._handle_signal.
  change (default 1%float (max_leverage (RiskService.risk s)))
    with (RiskConfig.max_leverage (RiskService.settings_risk s)).
  set (risk := default ∅ (Payload.risk (payload event))).
  destruct (risk !! "stop_distance") as [stop_distance|] eqn:Hstop.
  2:{ left. destruct (dict_truthy risk); cbn [negb PyFloat.truthy_opt orb fst];
        (split; [reflexivity|]); intros (sd & ps & [=] & _). }
  destruct (risk !! "position_size") as [position_size|] eqn:Hsize.
  2:{ left. destruct (dict_truthy risk); cbn [negb PyFloat.truthy_opt orb fst];
        rewrite ?orb_true_r; cbn [fst];
        (split; [reflexivity|]); intros (sd & ps & _ & [=] & _). }
  rewrite (dict_truthy_lookup _ _ _ Hstop). cbn [negb PyFloat.truthy_opt].
  destruct (PyFloat.truthy stop_distance) eqn:Hsd; cbn [negb orb].
  2:{ left. split; [reflexivity|]. intros (sd & ps & [= <-] & _ & Hsd' & _). congruence. }
  destruct (PyFloat.truthy position_size) eqn:Hps; cbn [negb].
  2:{ left. split; [reflexivity|].
      intros (sd & ps & _ & [= <-] & _ & Hps' & _). congruence. }
  fold (candidate_state s stop_distance position_size).
  destruct (apply_circuit_breakers _ _) eqn:Hbreakers.
  { left. split; [reflexivity|].
    intros (sd & ps & [= <-] & [= <-] & _ & _ & Hb & _). congruence. }
  unfold PyFloat.truediv, PyFloat.zero.
  destruct (PrimFloat.eqb (RiskService._equity s) 0) eqn:Hequity.
  { left. split; [reflexivity|].
    intros (sd & ps & _ & _ & _ & _ & _ & He & _). congruence. }
  destruct (PyFloat.gt _ _) eqn:Hleverage.
  { left. split; [reflexivity|].
    intros (sd & ps & _ & [= <-] & _ & _ & _ & _ & Hl). congruence. }
  right. split; [reflexivity|]. exists stop_distance, position_size. auto 10.
Qed.

(** X9. The risk service publishes at most one event per signal, the
    signal's payload with the approval flag set, on the approved stream;
    and it publishes it exactly when the signal is approvable: both risk
    fields are present and truthy, the circuit breakers do not trip on the
    portfolio with the candidate's risk added to the open risk, the equity
    is not zero, and position size over equity does not exceed
    [max_leverage] of the risk configuration (1.5 unless configured
    otherwise; the dumped configuration always holds the key, so the 1.0
    of the lookup never applies). *)
Theorem risk_service_publishes_iff_approvable
    (event : Event) (approved_stream : string) (s : RiskService.t) :
  let s' := fst (RiskService._handle_signal event approved_stream s) in
  (RiskService.published s' = RiskService.published s
   \/ RiskService.published s'
      = RiskService.published s ++ [(approved_stream, approved_event event)])
  /\ (RiskService.published s'
      = RiskService.published s ++ [(approved_stream, approved_event event)]
      <-> approvable s event).
Proof.
  cbv zeta.
  destruct (risk_service_cases event approved_stream s) as [[Hsame Hno]|[Hnew Hyes]].
  - split; [left; exact Hsame|]. split; [|intros H; destruct (Hno H)].
    rewrite Hsame. intros H. destruct (list_not_grown _ _ H).
  - split; [right; exact Hnew|]. split; auto.
Qed.

(** X10. Every event the risk service publishes is one the execution
    service does not turn away for its risk fields: it carries the
    approval flag, and the execution service accepts it exactly when it
    has a client for the event's exchange. *)
Theorem approved_signal_accepted {Venue : Type}
    (event : Event) (approved_stream : string) (s : RiskService.t)
    (clients : gmap string Venue) :
  RiskService.published (fst (RiskService._handle_signal event approved_stream s))
  = RiskService.published s ++ [(approved_stream, approved_event event)] ->
  Payload.risk_approved (payload (approved_event event)) = Some true
  /\ accepted clients (approved_event event)
     = bool_decide
         (is_Some (Payload.exchange (payload event) ≫= (fun name => clients !! name))).
Proof.
  intros Hpublished.
  destruct (risk_service_cases event approved_stream s) as [[Hsame _]|[_ Happrovable]].
  { cbv zeta in Hsame. rewrite Hsame in Hpublished.
    destruct (list_not_grown _ _ Hpublished). }
  destruct Happrovable as (sd & ps & Hsd & Hps & Tsd & Tps & _).
  split; [reflexivity|]. unfold accepted, approved_event.
  cbn [payload Payload.approve Payload.exchange].
  change (Payload.risk (Payload.approve (payload event)))
    with (Payload.risk (payload event)).
  rewrite Hsd, Hps. cbn [PyFloat.truthy_opt]. rewrite Tsd, Tps.
  destruct (Payload.exchange (payload event) ≫= _) as [venue|]; cbn [andb].
  - rewrite bool_decide_eq_true_2; eauto.
  - rewrite bool_decide_eq_false_2; [reflexivity|]. intros [x Hx]. discriminate.
Qed.


Lemma eqb_zero_cases (x : float) :
  PrimFloat.eqb x 0 = true -> x = 0%float \/ x = (-0)%float.
Proof.
  rewrite FloatAxioms.eqb_spec. unfold SFeqb.
  change (Prim2SF 0) with (S754_zero false).
  destruct (Prim2SF x) as [sign|sign| |sign m e] eqn:Hx; cbn;
    try destruct sign; try discriminate; intros _;
    rewrite <- (SF2Prim_Prim2SF x), Hx; [right|left]; reflexivity.
Qed.

Lemma finite_times_zero (limit equity : float) :
  PrimFloat.is_finite limit = true ->
  PrimFloat.eqb equity 0 = true ->
  PrimFloat.leb 0 (PrimFloat.mul (PrimFloat.opp limit) equity) = true.
Proof.
  unfold PrimFloat.is_finite, PrimFloat.is_nan, PrimFloat.is_infinity.
  rewrite !FloatAxioms.eqb_spec, abs_spec, leb_spec, mul_spec, opp_spec.
  intros Hfinite Hzero.
  assert (Hequity : exists sign, Prim2SF equity = S754_zero sign).
  { destruct (eqb_zero_cases equity) as [-> | ->].
    - rewrite FloatAxioms.eqb_spec. exact Hzero.
    - exists false. reflexivity.
    - exists true. reflexivity. }
  destruct Hequity as [sign ->]. clear Hzero.
  change (Prim2SF 0) with (S754_zero false).
  change (Prim2SF infinity) with (S754_infinity false) in Hfinite.
  destruct (Prim2SF limit) as [s|s| |s m e]; cbn in *;
    try destruct s; try destruct sign; try discriminate; reflexivity.
Qed.

(** X12. With a finite daily-loss limit (as the default 1.0 is), the
    handler never raises: a zero equity trips the daily-loss breaker, and
    the signal is rejected before its size is divided by the equity. *)
Theorem risk_service_never_raises
    (event : Event) (approved_stream : string) (s : RiskService.t) :
  PrimFloat.is_finite
    (default 1%float
       (breaker_daily_loss
          (default empty_circuit_breakers (circuit_breakers (RiskService.risk s)))))
  = true ->
  snd (RiskService._handle_signal event approved_stream s) = Ok tt.
Proof.
  intros Hfinite. unfold RiskService._handle_signal.
  destruct (negb (dict_truthy _)); [reflexivity|].
  destruct (_ !! "stop_distance") as [stop_distance|]; [|reflexivity].
  destruct (_ !! "position_size") as [position_size|];
    [|cbn [PyFloat.truthy_opt negb]; rewrite orb_true_r; reflexivity].
  destruct (negb _ || negb _); [reflexivity|].
  destruct (apply_circuit_breakers _ _) eqn:Hbreakers; [reflexivity|].
  unfold PyFloat.truediv, PyFloat.zero.
  destruct (PrimFloat.eqb (RiskService._equity s) 0) eqn:Hzero.
  - exfalso. revert Hbreakers. unfold apply_circuit_breakers.
    cbn [daily_loss equity].
    rewrite (finite_times_zero _ _ Hfinite Hzero). discriminate.
  - destruct (PyFloat.gt _ _); reflexivity.
Qed.

Lemma approved_signal_accepted_witness :
  let event := Sample.signal Scenario.risk in
  RiskService.published
    (fst (RiskService._handle_signal event "approved_signals" (Sample.risk_service [])))
  = [("approved_signals", approved_event event)]
  /\ accepted (_clients Sample.execution_service) (approved_event event) = true.
Proof.
  intros event.
  assert (Hpublished :
            RiskService.published
              (fst (RiskService._handle_signal event "approved_signals"
                      (Sample.risk_service [])))
            = RiskService.published (Sample.risk_service [])
                ++ [("approved_signals", approved_event event)])
    by (vm_compute; reflexivity).
  split; [exact Hpublished|].
  destruct (approved_signal_accepted event "approved_signals" (Sample.risk_service [])
              (_clients Sample.execution_service) Hpublished) as [_ Haccepted].
  rewrite Haccepted. vm_compute. reflexivity.
Defined.

Lemma risk_service_never_raises_witness :
  snd (RiskService._handle_signal (Sample.signal Scenario.risk) "approved_signals"
         Scenario.broke_risk_service) = Ok tt.
Proof. apply risk_service_never_raises. vm_compute. reflexivity. Defined.

(* ===================================================================== *)
(** ** The strategy service: windows, decisions and histories             *)
(* ===================================================================== *)

Lemma diff_length (a : list float) :
  length (StrategyService.diff a) = (length a - 1)%nat.
Proof.
  induction a as [|x [|y rest] IH]; [reflexivity|reflexivity|].
  cbn [StrategyService.diff length] in *. rewrite IH. lia.
Qed.

Lemma last_slice_length (k : Z) (a : list float) :
  (0 < k)%Z ->
  length (StrategyService.last_slice k a) = Nat.min (Z.to_nat k) (length a).
Proof.
  intros Hk. unfold StrategyService.last_slice.
  destruct (Z.ltb_spec 0 k); [|lia]. rewrite length_skipn. lia.
Qed.

(** X13. Whenever the trend strategy returns a decision, its averages
    were taken over full windows: for positive periods the fast and the
    slow average are over exactly that many closes and the ATR is the
    mean of exactly [atr_period] absolute differences; a fast period of
    zero, however, averages the whole history, as [closes[-0:]] is the
    whole array. *)
Theorem trend_windows (mean : list float -> float)
    (params : StrategyService.Parameters) (risk_settings : RiskSettings)
    (history : list float) (decision : StrategyService.Decision) :
  let fast_period := default 50%Z (StrategyService.fast_ma_period params) in
  let slow_period := default 200%Z (StrategyService.slow_ma_period params) in
  let atr_period := default 14%Z (StrategyService.atr_period params) in
  StrategyService._evaluate_trend_strategy mean params risk_settings history
  = Ok (Some decision) ->
  (0 < fast_period -> length (StrategyService.last_slice fast_period history)
                      = Z.to_nat fast_period)%Z
  /\ (0 < slow_period -> length (StrategyService.last_slice slow_period history)
                         = Z.to_nat slow_period)%Z
  /\ (0 < atr_period ->
      StrategyService._calculate_atr mean history atr_period
      = mean (StrategyService.last_slice atr_period
                (map PrimFloat.abs (StrategyService.diff history)))
      /\ length (StrategyService.last_slice atr_period
                   (map PrimFloat.abs (StrategyService.diff history)))
         = Z.to_nat atr_period)%Z
  /\ (fast_period = 0%Z -> StrategyService.last_slice fast_period history = history).
Proof.
  cbv zeta. unfold StrategyService._evaluate_trend_strategy.
  set (fast_period := default 50%Z (StrategyService.fast_ma_period params)).
  set (slow_period := default 200%Z (StrategyService.slow_ma_period params)).
  set (atr_period := default 14%Z (StrategyService.atr_period params)).
  destruct (Z.ltb_spec (Z.of_nat (length history))
              (Z.max (Z.max fast_period slow_period) atr_period + 1)) as [|Hlong];
    [discriminate|].
  intros _. split; [|split; [|split]].
  - intros Hk. rewrite last_slice_length by exact Hk. lia.
  - intros Hk. rewrite last_slice_length by exact Hk. lia.
  - intros Hk. split.
    + unfold StrategyService._calculate_atr.
      destruct (Z.leb_spec (Z.of_nat (length history)) atr_period); [lia|reflexivity].
    + rewrite last_slice_length by exact Hk. rewrite length_map, diff_length. lia.
  - intros Hzero. rewrite Hzero. unfold StrategyService.last_slice.
    cbn [Z.ltb Z.compare Z.opp]. rewrite Z.min_l by lia. reflexivity.
Qed.

(** X14. A decision of the trend strategy has confidence 0.6; it is a
    buy when the fast average is above the slow one by more than 0.1%,
    a sell when it is below by more than 0.1%; its stop distance, the ATR
    times the multiplier (2.0 by default), is not at or below zero; and
    its risk dictionary holds that stop distance and the position size
    [calculate_position_size] returns for it and an equity of 100000. *)
Theorem trend_decision_shape (mean : list float -> float)
    (params : StrategyService.Parameters) (risk_settings : RiskSettings)
    (history : list float) (decision : StrategyService.Decision) :
  let fast_ma :=
    mean (StrategyService.last_slice
            (default 50%Z (StrategyService.fast_ma_period params)) history) in
  let slow_ma :=
    mean (StrategyService.last_slice
            (default 200%Z (StrategyService.slow_ma_period params)) history) in
  let atr :=
    StrategyService._calculate_atr mean history
      (default 14%Z (StrategyService.atr_period params)) in
  let stop_distance :=
    PrimFloat.mul atr (default 2%float (StrategyService.atr_multiplier params)) in
  StrategyService._evaluate_trend_strategy mean params risk_settings history
  = Ok (Some decision) ->
  StrategyService.confidence decision = 0.6%float
  /\ ((StrategyService.action decision = "buy"
       /\ PyFloat.gt fast_ma (PrimFloat.mul slow_ma 1.001) = true)
      \/ (StrategyService.action decision = "sell"
          /\ PrimFloat.ltb fast_ma (PrimFloat.mul slow_ma 0.999) = true))
  /\ PrimFloat.leb stop_distance 0 = false
  /\ exists position_size,
       calculate_position_size 100000 stop_distance risk_settings
         (StrategyService.asset_volatility params) = Ok position_size
       /\ StrategyService.risk decision
          = {[ "stop_distance" := stop_distance; "position_size" := position_size ]}.
Proof.
  cbv zeta. unfold StrategyService._evaluate_trend_strategy.
  destruct (Z.ltb _ _); [discriminate|].
  destruct (StrategyService.is_nan _ || PrimFloat.leb _ 0); [discriminate|].
  set (stop_distance := PrimFloat.mul _ (default 2%float _)).
  assert (Hsize : forall action,
             (let! position_size :=
                calculate_position_size 100000 stop_distance risk_settings
                  (StrategyService.asset_volatility params) in
              Ok (Some {| StrategyService.action := action;
                          StrategyService.confidence := 0.6;
                          StrategyService.risk :=
                            {[ "stop_distance" := stop_distance;
                               "position_size" := position_size ]} |}))
             = Ok (Some decision) ->
             StrategyService.confidence decision = 0.6%float
             /\ StrategyService.action decision = action
             /\ PrimFloat.leb stop_distance 0 = false
             /\ exists position_size,
                  calculate_position_size 100000 stop_distance risk_settings
                    (StrategyService.asset_volatility params) = Ok position_size
                  /\ StrategyService.risk decision
                     = {[ "stop_distance" := stop_distance;
                          "position_size" := position_size ]}).
  { intros action.
    destruct (calculate_position_size _ _ _ _) as [position_size|] eqn:Hcalc;
      [|discriminate].
    cbn [bind]. intros [= <-]. cbn.
    destruct (calculate_position_size_cases _ _ _ _ _ Hcalc) as [Hpositive _].
    eauto 10. }
  destruct (PyFloat.gt _ _) eqn:Hbuy.
  - intros H. destruct (Hsize _ H) as (Hc & Ha & Hs & Hr). auto 10.
  - destruct (PrimFloat.ltb _ _) eqn:Hsell; [|discriminate].
    intros H. destruct (Hsize _ H) as (Hc & Ha & Hs & Hr). auto 10.
Qed.

Section StrategyFacts.
Variable mean : list float -> float.

Lemma trend_action (params : StrategyService.Parameters) (risk_settings : RiskSettings)
    (history : list float) (decision : StrategyService.Decision) :
  StrategyService._evaluate_trend_strategy mean params risk_settings history
  = Ok (Some decision) ->
  StrategyService.action decision = "buy" \/ StrategyService.action decision = "sell".
Proof.
  unfold StrategyService._evaluate_trend_strategy.
  destruct (Z.ltb _ _); [discriminate|].
  destruct (StrategyService.is_nan _ || PrimFloat.leb _ 0); [discriminate|].
  destruct (PyFloat.gt _ _).
  - destruct (calculate_position_size _ _ _ _); [|discriminate].
    cbn. intros [= <-]. auto.
  - destruct (PrimFloat.ltb _ _); [|discriminate].
    destruct (calculate_position_size _ _ _ _); [|discriminate].
    cbn. intros [= <-]. auto.
Qed.

Lemma evaluate_all_publishes
    (strategies : list (string * StrategyService.Parameters))
    (risk_settings : RiskSettings) (exchange symbol : option string)
    (close_price : float) (history : list float) (signal_stream : string)
    (published : list (string * Event)) :
  exists signals,
    fst (StrategyService.evaluate_all mean strategies risk_settings exchange symbol
           close_price history signal_stream published)
    = published ++ signals
    /\ length signals <= length strategies
    /\ Forall (signal_of strategies exchange symbol close_price signal_stream) signals.
Proof.
  revert published. induction strategies as [|[name params] rest IH]; intros published.
  - exists []. rewrite app_nil_r. cbn. auto.
  - cbn [StrategyService.evaluate_all].
    destruct (StrategyService._evaluate_trend_strategy mean params risk_settings history)
      as [[decision|]|e] eqn:Heval.
    + destruct (IH (published ++ [(signal_stream,
                  {| type := "signal";
                     payload := signal_payload name exchange symbol close_price
                                  decision |})]))
        as (signals & Hpub & Hlen & Hall).
      eexists (_ :: signals). split; [|split].
      * unfold signal_payload in Hpub. rewrite Hpub, <- app_assoc. reflexivity.
      * cbn. lia.
      * constructor.
        -- split; [reflexivity|]. split; [reflexivity|]. exists name, decision.
           split; [left; reflexivity|]. split; [|reflexivity].
           exact (trend_action _ _ _ _ Heval).
        -- eapply Forall_impl; [exact Hall|].
           intros [stream event] (H1 & H2 & n & d & Hin & Hd & Hp).
           split; [exact H1|]. split; [exact H2|]. exists n, d.
           split; [right; exact Hin|]. auto.
    + destruct (IH published) as (signals & Hpub & Hlen & Hall).
      exists signals. split; [exact Hpub|]. split; [cbn; lia|].
      eapply Forall_impl; [exact Hall|].
      intros [stream event] (H1 & H2 & n & d & Hin & Hd & Hp).
      split; [exact H1|]. split; [exact H2|]. exists n, d.
      split; [right; exact Hin|]. auto.
    + exists []. rewrite app_nil_r. cbn. split; [reflexivity|]. split; [lia|constructor].
Qed.
Lemma history_append_length (history : list float) (close : float) :
  length (StrategyService.history_append history close) <= 500.
Proof. unfold StrategyService.history_append. rewrite length_skipn, length_app. cbn. lia. Qed.

(** X15. Handling a market-data event leaves the strategy
    configuration alone, touches the history of the event's (exchange,
    symbol) only, and keeps every history within 500 closes. An event
    without rows changes nothing; a last row without a fifth entry raises
    [IndexError] and changes nothing; otherwise the close is appended to
    the pair's history, and what falls out is the oldest closes beyond
    500. *)
Theorem handle_market_event_history
    (event : StrategyService.MarketData.t) (signal_stream : string)
    (s : StrategyService.t) :
  let outcome := StrategyService._handle_market_event mean event signal_stream s in
  let key := (StrategyService.MarketData.exchange event,
              StrategyService.MarketData.symbol event) in
  StrategyService.strategy_configs (fst outcome) = StrategyService.strategy_configs s
  /\ (histories_bounded (StrategyService.price_history s) ->
      histories_bounded (StrategyService.price_history (fst outcome)))
  /\ (forall other, other <> key ->
        StrategyService.price_history (fst outcome) !! other
        = StrategyService.price_history s !! other)
  /\ match last (StrategyService.MarketData.data event) with
     | None => outcome = (s, Ok tt)
     | Some row =>
         match row !! 4%nat with
         | None => outcome = (s, Raise IndexError)
         | Some close_price =>
             exists dropped,
               default [] (StrategyService.price_history s !! key) ++ [close_price]
               = dropped
                   ++ default [] (StrategyService.price_history (fst outcome) !! key)
               /\ length dropped
                  = length (default [] (StrategyService.price_history s !! key))
                    + 1 - 500
         end
     end.
Proof.
  cbv zeta. unfold StrategyService._handle_market_event.
  destruct (last (StrategyService.MarketData.data event)) as [row|];
    [|cbn; unfold histories_bounded; auto].
  destruct (row !! 4%nat) as [close_price|]; [|cbn; unfold histories_bounded; auto].
  destruct (StrategyService.evaluate_all _ _ _ _ _ _ _ _ _) as [published' r].
  cbn [fst StrategyService.strategy_configs StrategyService.price_history].
  split; [reflexivity|]. split; [|split].
  - intros Hbound key history. rewrite lookup_insert.
    destruct (decide _) as [_|_]; [|apply Hbound].
    intros [= <-]. apply history_append_length.
  - intros other Hother. rewrite lookup_insert_ne by congruence. reflexivity.
  - rewrite lookup_insert_eq. cbn [default from_option id].
    unfold StrategyService.history_append.
    set (h := default [] _ ++ [close_price]).
    exists (firstn (length h - 500) h). rewrite firstn_skipn.
    split; [reflexivity|]. rewrite length_firstn. subst h. rewrite length_app. cbn.
    lia.
Qed.

(** X16. On an event that carries a close, the service publishes its
    signals after what was published before, at most one per configured
    strategy, each on the signal stream, of type [signal], for one of the
    configured strategies, with the event's exchange and symbol, the close
    as price, and a decision that is either [buy] or [sell]. *)
Theorem handle_market_event_signals
    (event : StrategyService.MarketData.t) (signal_stream : string)
    (s : StrategyService.t) (row : list float) (close_price : float) :
  last (StrategyService.MarketData.data event) = Some row ->
  row !! 4%nat = Some close_price ->
  let s' := fst (StrategyService._handle_market_event mean event signal_stream s) in
  exists signals,
    StrategyService.published s' = StrategyService.published s ++ signals
    /\ length signals <= length (StrategyService.strategy_configs s)
    /\ Forall (signal_of (StrategyService.strategy_configs s)
                 (StrategyService.MarketData.exchange event)
                 (StrategyService.MarketData.symbol event) close_price signal_stream)
         signals.
Proof.
  intros Hrow Hclose. cbv zeta. unfold StrategyService._handle_market_event.
  rewrite Hrow, Hclose.
  match goal with
  | |- context [StrategyService.evaluate_all ?m ?st ?rs ?ex ?sy ?c ?h ?ss ?p] =>
      destruct (evaluate_all_publishes st rs ex sy c h ss p)
        as (signals & Hpub & Hlen & Hall);
      destruct (StrategyService.evaluate_all m st rs ex sy c h ss p) as [published' r]
  end.
  cbn [fst StrategyService.published] in *. exists signals. auto.
Qed.
End StrategyFacts.

Lemma trend_windows_witness :
  length (StrategyService.last_slice 2 Sample.rising) = 2%nat
  /\ length (StrategyService.last_slice 3 Sample.rising) = 3%nat.
Proof.
  destruct (StrategyService._evaluate_trend_strategy Sample.mean Sample.parameters
              Sample.settings Sample.rising) as [[decision|]|e] eqn:Heval;
    try (vm_compute in Heval; discriminate).
  destruct (trend_windows Sample.mean Sample.parameters Sample.settings Sample.rising
              decision Heval) as (Hfast & Hslow & _).
  split; [apply Hfast|apply Hslow]; simpl; lia.
Defined.

Lemma trend_decision_shape_witness :
  exists decision,
    StrategyService._evaluate_trend_strategy Sample.mean Sample.parameters
      Sample.settings Sample.rising = Ok (Some decision)
    /\ StrategyService.confidence decision = 0.6%float
    /\ StrategyService.action decision = "buy".
Proof.
  destruct (StrategyService._evaluate_trend_strategy Sample.mean Sample.parameters
              Sample.settings Sample.rising) as [[decision|]|e] eqn:Heval;
    try (vm_compute in Heval; discriminate).
  exists decision. split; [reflexivity|].
  destruct (trend_decision_shape Sample.mean Sample.parameters Sample.settings
              Sample.rising decision Heval)
    as (Hconfidence & [[Hbuy _] | [_ Hsell]] & _).
  - split; [exact Hconfidence|exact Hbuy].
  - vm_compute in Hsell. discriminate.
Defined.

Lemma handle_market_event_history_witness :
  let s' := fst (StrategyService._handle_market_event Sample.mean Scenario.candle
                   "signals" Scenario.strategy_service) in
  histories_bounded (StrategyService.price_history s')
  /\ StrategyService.price_history s' !! (Some "kraken", Some "BTC/USDT") = None.
Proof.
  intros s'. subst s'.
  destruct (handle_market_event_history Sample.mean Scenario.candle "signals"
              Scenario.strategy_service) as (_ & Hbounded & Hothers & _).
  split.
  - apply Hbounded. intros key history Hkey.
    destruct (decide (key = (Some "binance", Some "BTC/USDT"))) as [->|Hother].
    + vm_compute in Hkey. injection Hkey as <-. simpl. lia.
    + unfold Scenario.strategy_service in Hkey. simpl in Hkey.
      rewrite lookup_singleton_ne in Hkey by congruence. discriminate.
  - rewrite Hothers by discriminate. vm_compute. reflexivity.
Defined.

Lemma handle_market_event_signals_witness :
  let s' := fst (StrategyService._handle_market_event Sample.mean Scenario.candle
                   "signals" Scenario.strategy_service) in
  exists signals,
    StrategyService.published s' = signals
    /\ length signals <= 1
    /\ Forall (fun item => fst item = "signals"
                           /\ Payload.price (payload (snd item)) = Some 106%float)
         signals.
Proof.
  intros s'. subst s'.
  destruct (handle_market_event_signals Sample.mean Scenario.candle "signals"
              Scenario.strategy_service
              [1700000000000; 103; 107; 102; 106; 12.5]%float 106%float
              eq_refl eq_refl) as (signals & Hpublished & Hlength & Hsignals).
  exists signals. split; [exact Hpublished|]. split; [exact Hlength|].
  eapply Forall_impl; [exact Hsignals|].
  intros item (Hstream & _ & name & decision & _ & _ & Hpayload).
  split; [exact Hstream|]. rewrite Hpayload. reflexivity.
Defined.

(* ===================================================================== *)
(** ** The in-process event bus                                           *)
(* ===================================================================== *)

Section EventBusFacts.
Import EventBus.

Lemma publish_all_connected (batch : list (string * Event)) (queue : list Event) :
  publish_all batch {| _queue := Some queue |}
  = ({| _queue := Some (queue ++ map snd batch) |}, Returned tt).
Proof.
  revert queue. induction batch as [|[stream event] rest IH]; intros queue.
  - cbn. rewrite app_nil_r. reflexivity.
  - cbn [publish_all publish _queue]. rewrite IH. cbn. rewrite <- app_assoc. reflexivity.
Qed.

Lemma consume_all_queue (reads : list (string * string)) (queue rest : list Event) :
  length reads = length queue ->
  consume_all reads {| _queue := Some (queue ++ rest) |}
  = ({| _queue := Some rest |}, map (fun event => (event, "")) queue).
Proof.
  revert queue. induction reads as [|[stream last_id] reads IH]; intros [|event queue];
    cbn [length]; try discriminate.
  - reflexivity.
  - intros [= Hlen]. cbn [consume_all consume _queue app].
    rewrite (IH _ Hlen). reflexivity.
Qed.

(** X17. The in-memory bus is one first-in first-out queue shared by
    all streams: after a batch is published on a freshly connected bus,
    as many reads return the batch's events in publication order, each
    with an empty message id, whatever stream each event was published on
    and whatever stream each read asks for; the read after that finds the
    queue empty and waits. *)
Theorem event_bus_fifo (bus : EventBus.t) (batch : list (string * Event))
    (reads : list (string * string)) :
  length reads = length batch ->
  let (bus1, published) := publish_all batch (connect bus) in
  published = Returned tt
  /\ consume_all reads bus1
     = (connect bus, map (fun item => (snd item, "")) batch)
  /\ forall stream last_id,
       snd (consume stream last_id (fst (consume_all reads bus1))) = Waiting.
Proof.
  intros Hlen. unfold connect. rewrite publish_all_connected. cbn [app].
  split; [reflexivity|].
  rewrite <- (app_nil_r (map snd batch)).
  rewrite consume_all_queue by (rewrite length_map; exact Hlen).
  rewrite map_map. split; [reflexivity|]. reflexivity.
Qed.

Lemma event_bus_fifo_witness :
  snd (consume_all [("signals", "$"); ("signals", "$")]
         (fst (publish_all Scenario.batch (connect new))))
  = [(Sample.signal Scenario.risk, ""); (Sample.approved_signal, "")].
Proof.
  pose proof (event_bus_fifo new Scenario.batch [("signals", "$"); ("signals", "$")]
                eq_refl) as Hfifo.
  destruct (publish_all Scenario.batch (connect new)) as [bus1 published].
  destruct Hfifo as (_ & Hreads & _). cbn [fst]. rewrite Hreads. reflexivity.
Defined.

End EventBusFacts.

(* ===================================================================== *)
(** ** Configuration: placeholder resolution                              *)
(* ===================================================================== *)

Section ConfigFacts.
Import Config.

Lemma first_unset_app (environ : gmap string string) (l r : list string) :
  first_unset environ (l ++ r)
  = match first_unset environ l with
    | Some k => Some k
    | None => first_unset environ r
    end.
Proof.
  unfold first_unset. induction l as [|k l IH]; [reflexivity|].
  cbn. destruct (bool_decide _); [reflexivity|exact IH].
Qed.

(** X18. Resolution of a configuration tree is decided by the
    environment variables its placeholder strings name, in document
    order: it raises [EnvironmentError] for the first of them that is not
    set, and when all are set it returns a tree of the same shape, with
    the same keys and the same scalars, in which only placeholder strings
    have been replaced. *)
Theorem resolve_first_unset (environ : gmap string string) (v : value) :
  match first_unset environ (placeholders v) with
  | Some env_key => _resolve_env_placeholders environ v = EnvironmentError env_key
  | None =>
      exists v', _resolve_env_placeholders environ v = Resolved v' /\ same_shape v v'
  end.
Proof.
  change (resolves_to environ v (resolve environ v)).
  induction v as [| | | |s|items IH|items IH] using value_rect_nested;
    unfold resolves_to; cbn [placeholders resolve first_unset List.find];
    try (eexists; split; [reflexivity|]; cbn; auto; fail).
  - destruct (is_placeholder s) eqn:Hs; cbn [List.find].
    + destruct (environ !! env_key_of s) eqn:Hkey.
      * rewrite bool_decide_eq_false_2 by congruence.
        eexists. split; [reflexivity|]. cbn. congruence.
      * rewrite bool_decide_eq_true_2 by reflexivity. reflexivity.
    + eexists. split; [reflexivity|]. cbn. auto.
  - fold (first_unset environ (flat_map placeholders items)).
    induction IH as [|item rest Hitem _ IHrest]; cbn [flat_map].
    + cbn. eexists. split; [reflexivity|]. cbn. auto.
    + rewrite first_unset_app. unfold resolves_to in Hitem.
      destruct (first_unset environ (placeholders item)) as [k|].
      * rewrite Hitem. reflexivity.
      * destruct Hitem as (item' & -> & Hshape).
        destruct (first_unset environ (flat_map placeholders rest)) as [k|].
        -- destruct ((fix resolve_list (items : list value) := _) rest);
             [discriminate|]. injection IHrest as ->. reflexivity.
        -- destruct IHrest as (v' & Hrest & Hshapes).
           destruct ((fix resolve_list (items : list value) := _) rest)
             as [rest'|]; [|discriminate].
           injection Hrest as <-. eexists. split; [reflexivity|].
           cbn. auto.
  - fold (first_unset environ
            (flat_map (fun item => placeholders (snd item)) items)).
    induction IH as [|[key item] rest Hitem _ IHrest]; cbn [flat_map snd].
    + cbn. eexists. split; [reflexivity|]. cbn. auto.
    + rewrite first_unset_app. unfold resolves_to in Hitem. cbn [snd] in Hitem.
      destruct (first_unset environ (placeholders item)) as [k|].
      * rewrite Hitem. reflexivity.
      * destruct Hitem as (item' & -> & Hshape).
        destruct (first_unset environ
                    (flat_map (fun item => placeholders (snd item)) rest)) as [k|].
        -- destruct ((fix resolve_items (items : list (string * value)) := _) rest);
             [discriminate|]. injection IHrest as ->. reflexivity.
        -- destruct IHrest as (v' & Hrest & Hshapes).
           destruct ((fix resolve_items (items : list (string * value)) := _) rest)
             as [rest'|]; [|discriminate].
           injection Hrest as <-. eexists. split; [reflexivity|].
           cbn. auto.
Qed.

Lemma endswith_brace_snoc (k : string) : endswith_brace (k ++ "}") = true.
Proof.
  induction k as [|a k IH]; [reflexivity|].
  simpl. destruct (k +:+ "}") eqn:Hk.
  - destruct k; discriminate.
  - exact IH.
Qed.

Lemma drop_last_snoc (k : string) : drop_last (k ++ "}") = k.
Proof.
  induction k as [|a k IH]; [reflexivity|].
  simpl. destruct (k +:+ "}") eqn:Hk.
  - destruct k; discriminate.
  - rewrite IH. reflexivity.
Qed.

Lemma endswith_brace_cons (a : ascii) (s : string) :
  s <> EmptyString -> endswith_brace (String a s) = endswith_brace s.
Proof. destruct s; [congruence|reflexivity]. Qed.

Lemma snoc_not_empty (k : string) : (k +:+ "}") <> EmptyString.
Proof. destruct k; discriminate. Qed.

Lemma placeholder_wrap (k : string) :
  is_placeholder ("${" +:+ k +:+ "}") = true
  /\ env_key_of ("${" +:+ k +:+ "}") = k.
Proof.
  change ("${" +:+ k +:+ "}") with (String "$" (String "{" (k +:+ "}"))).
  unfold is_placeholder, env_key_of. split.
  - rewrite !endswith_brace_cons, endswith_brace_snoc.
    + reflexivity.
    + apply snoc_not_empty.
    + discriminate.
  - apply drop_last_snoc.
Qed.

(** X19. A placeholder is replaced by the variable's value as it
    stands: the result is that string, whatever it holds, so a value that
    itself looks like a placeholder is not resolved again and a numeric
    value stays a string; an unset variable raises [EnvironmentError]
    naming it. *)
Theorem resolve_placeholder_once (environ : gmap string string) (env_key : string) :
  resolve environ (Str ("${" +:+ env_key +:+ "}"))
  = match environ !! env_key with
    | Some env_value => Resolved (Str env_value)
    | None => EnvironmentError env_key
    end.
Proof.
  destruct (placeholder_wrap env_key) as [Hshape Hkey].
  cbn [resolve]. rewrite Hshape, Hkey. reflexivity.
Qed.

(** X20. A configuration without placeholder strings is returned
    unchanged, whatever the environment. *)
Theorem resolve_without_placeholders (environ : gmap string string) (v : value) :
  placeholders v = [] -> resolve environ v = Resolved v.
Proof.
  induction v as [| | | |s|items IH|items IH] using value_rect_nested;
    cbn [placeholders resolve]; try reflexivity.
  - destruct (is_placeholder s); [discriminate|reflexivity].
  - intros Hnone.
    assert (Hitems : (fix resolve_list (items : list value) : outcome (list value) :=
                        match items with
                        | [] => Resolved []
                        | item :: rest =>
                            match resolve environ item with
                            | EnvironmentError env_key => EnvironmentError env_key
                            | Resolved item' =>
                                match resolve_list rest with
                                | EnvironmentError env_key => EnvironmentError env_key
                                | Resolved rest' => Resolved (item' :: rest')
                                end
                            end
                        end) items = Resolved items).
    { induction IH as [|item rest Hitem _ IHrest]; [reflexivity|].
      cbn [flat_map] in Hnone. apply app_eq_nil in Hnone. destruct Hnone as [H1 H2].
      rewrite (Hitem H1), (IHrest H2). reflexivity. }
    rewrite Hitems. reflexivity.
  - intros Hnone.
    assert (Hitems : (fix resolve_items (items : list (string * value))
                        : outcome (list (string * value)) :=
                        match items with
                        | [] => Resolved []
                        | (k, v) :: rest =>
                            match resolve environ v with
                            | EnvironmentError env_key => EnvironmentError env_key
                            | Resolved v' =>
                                match resolve_items rest with
                                | EnvironmentError env_key => EnvironmentError env_key
                                | Resolved rest' => Resolved ((k, v') :: rest')
                                end
                            end
                        end) items = Resolved items).
    { induction IH as [|[key item] rest Hitem _ IHrest]; [reflexivity|].
      cbn [flat_map snd] in Hnone. apply app_eq_nil in Hnone.
      destruct Hnone as [H1 H2]. cbn [snd] in Hitem.
      rewrite (Hitem H1), (IHrest H2). reflexivity. }
    rewrite Hitems. reflexivity.
Qed.

Lemma resolve_without_placeholders_witness :
  resolve ∅ Scenario.config = Resolved Scenario.config.
Proof. apply resolve_without_placeholders. vm_compute. reflexivity. Defined.

End ConfigFacts.

(* ===================================================================== *)
(** ** The reconciliation service                                         *)
(* ===================================================================== *)

Section ReconciliationFacts.
Import ReconciliationService.
Context {Venue : Type}.
Variable fetch_positions :
  Venue -> list string -> Venue * fetched (list ExchangePosition.t).
Variable fetch_open_orders :
  Venue -> string -> Venue * fetched (list OpenOrder.t).

Local Abbreviation t := (@ReconciliationService.t Venue).

Lemma eqb_abs_zero (x : float) :
  PrimFloat.eqb (PrimFloat.abs x) 0 = PrimFloat.eqb x 0.
Proof.
  rewrite !FloatAxioms.eqb_spec, abs_spec. unfold SFeqb.
  change (Prim2SF 0) with (S754_zero false).
  destruct (Prim2SF x) as [sign|sign| |sign m e]; cbn; try destruct sign; reflexivity.
Qed.


Lemma or_else_quantity (p : ExchangePosition.t) :
  match or_else (or_else (ExchangePosition.contracts p) (ExchangePosition.positionAmt p))
                (ExchangePosition.size p) with
  | Some qty => PrimFloat.eqb (PrimFloat.abs qty) 0
  | None => false
  end = reported_flat p.
Proof.
  unfold or_else, reported_flat.
  destruct (ExchangePosition.contracts p) as [c|]; cbn [PyFloat.truthy_opt].
  - destruct (PyFloat.truthy c) eqn:Hc; cbn [PyFloat.truthy_opt negb andb].
    + rewrite Hc. rewrite eqb_abs_zero. unfold PyFloat.truthy, PyFloat.zero in Hc.
      destruct (PrimFloat.eqb c 0); [discriminate|reflexivity].
    + destruct (ExchangePosition.positionAmt p) as [a|]; cbn [PyFloat.truthy_opt].
      * destruct (PyFloat.truthy a) eqn:Ha; cbn [negb andb].
        -- rewrite eqb_abs_zero. unfold PyFloat.truthy, PyFloat.zero in Ha.
           destruct (PrimFloat.eqb a 0); [discriminate|reflexivity].
        -- destruct (ExchangePosition.size p); [apply eqb_abs_zero|reflexivity].
      * cbn. destruct (ExchangePosition.size p); [apply eqb_abs_zero|reflexivity].
  - destruct (ExchangePosition.positionAmt p) as [a|]; cbn [PyFloat.truthy_opt].
    + destruct (PyFloat.truthy a) eqn:Ha; cbn [negb andb].
      * rewrite eqb_abs_zero. unfold PyFloat.truthy, PyFloat.zero in Ha.
        destruct (PrimFloat.eqb a 0); [discriminate|reflexivity].
      * destruct (ExchangePosition.size p); [apply eqb_abs_zero|reflexivity].
    + cbn. destruct (ExchangePosition.size p); [apply eqb_abs_zero|reflexivity].
Qed.

(** X22. When the venue lists the position, the check logs
    [position_closed_but_local_open] exactly when the venue reports it
    flat, and at most once, before anything else it logs. Flat means a
    zero under [size] with nothing truthy under [contracts] and
    [positionAmt]: since the three keys are joined by [or], a zero under
    [contracts] alone is passed over, not read as a closed position. *)
Theorem verify_position_reports (local : Position.t)
    (exchange_positions : list ExchangePosition.t) (open_orders : list OpenOrder.t)
    (s : t) (matching : ExchangePosition.t) :
  List.find
    (fun p => bool_decide (ExchangePosition.symbol p = Some (Position.symbol local)))
    exchange_positions = Some matching ->
  let s' := fst (_verify_position local exchange_positions open_orders s) in
  exists tail,
    log s'
    = log s
        ++ (if reported_flat matching
            then [(Critical, "reconciliation.position_closed_but_local_open")]
            else [])
        ++ tail
    /\ ~ In (Critical, "reconciliation.position_closed_but_local_open") tail.
Proof.
  intros Hmatch. cbv zeta. unfold _verify_position. rewrite Hmatch.
  pose proof (or_else_quantity matching) as Hqty.
  destruct (or_else _ (ExchangePosition.size matching)) as [qty|].
  - rewrite <- Hqty.
    destruct (PrimFloat.eqb (PrimFloat.abs qty) 0);
      destruct (_has_reduce_only_stop local open_orders) as [exc|[|]];
      cbn [fst]; try (exists []; cbn; rewrite ?app_nil_r; auto; fail);
      cbn [auto_repair logger];
      destruct (auto_repair s); cbn; rewrite <- ?app_assoc; cbn;
      eexists; (split; [reflexivity|]); cbn; intros H;
      repeat (destruct H as [H|H]; [discriminate|]); exact H.
  - rewrite <- Hqty.
    destruct (_has_reduce_only_stop local open_orders) as [exc|[|]];
      cbn [fst]; try (exists []; cbn; rewrite ?app_nil_r; auto; fail);
      cbn [auto_repair logger];
      destruct (auto_repair s); cbn;  rewrite <- ?app_assoc; cbn;
      eexists; (split; [reflexivity|]); cbn; intros H;
      repeat (destruct H as [H|H]; [discriminate|]); exact H.
Qed.

Lemma find_symbol_exists (local : Position.t)
    (exchange_positions : list ExchangePosition.t) :
  Exists (fun p => ExchangePosition.symbol p = Some (Position.symbol local))
    exchange_positions
  <-> is_Some
        (List.find
           (fun p => bool_decide
                       (ExchangePosition.symbol p = Some (Position.symbol local)))
           exchange_positions).
Proof.
  split.
  - intros Hexists. apply Exists_exists in Hexists. destruct Hexists as (p & Hin & Hp).
    destruct (List.find _ exchange_positions) eqn:Hfind; [eauto|].
    apply list_elem_of_In in Hin.
    pose proof (find_none _ _ Hfind p Hin) as Hnone. cbn in Hnone.
    rewrite bool_decide_eq_true_2 in Hnone by exact Hp. discriminate.
  - intros [matching Hfind]. apply find_some in Hfind. destruct Hfind as [Hin Hsym].
    apply Exists_exists. exists matching. split; [apply list_elem_of_In, Hin|].
    apply bool_decide_eq_true in Hsym. exact Hsym.
Qed.

(** X23. One pass of [_reconcile_once] checks nothing. The rows are
    loaded inside [session_scope], which commits and closes the session
    before the loop starts: on a table that is not empty the first
    [position.exchange], read ahead of the [try], raises
    [DetachedInstanceError], which leaves [_reconcile_once]. No venue is
    asked, nothing is logged and nothing is published, whatever
    [auto_repair] says and whether or not the exchange has a client. On
    an empty table the pass returns with nothing done. *)
Theorem reconcile_once_detached (s : t) :
  _reconcile_once fetch_positions fetch_open_orders s
  = (s, match positions s with
        | [] => Ok tt
        | _ :: _ => Raise DetachedInstanceError
        end).
Proof.
  unfold _reconcile_once. destruct (positions s) as [|position rest]; reflexivity.
Qed.

(** X26. What the check of one position publishes. It publishes one
    [reinstall_stop] request, on the reconciliations stream and carrying
    the position's symbol, exchange, strategy, quantity and stop price,
    exactly when [auto_repair] is on, the venue lists the position's
    symbol and no open order is a reduce-only stop; otherwise it
    publishes nothing. The positions table, the settings and the clients
    are left as they were. *)
Theorem verify_position_repairs (local : Position.t)
    (exchange_positions : list ExchangePosition.t) (open_orders : list OpenOrder.t)
    (s : t) :
  let s' := fst (_verify_position local exchange_positions open_orders s) in
  same_settings s s'
  /\ _clients s' = _clients s
  /\ published s'
     = published s
         ++ match _has_reduce_only_stop local open_orders with
            | inr false =>
                if auto_repair s
                   && bool_decide
                        (Exists (fun p => ExchangePosition.symbol p
                                          = Some (Position.symbol local))
                           exchange_positions)
                then [(reconciliations s, repair_of local)]
                else []
            | _ => []
            end.
Proof.
  cbv zeta. unfold _verify_position, same_settings.
  destruct (List.find _ exchange_positions) as [matching|] eqn:Hfind.
  2:{ rewrite bool_decide_eq_false_2.
      - rewrite andb_false_r. cbn.
        destruct (_has_reduce_only_stop local open_orders) as [exc|[|]];
          rewrite app_nil_r; auto 10.
      - intros Hexists. apply find_symbol_exists in Hexists. rewrite Hfind in Hexists.
        destruct Hexists as [? [=]]. }
  rewrite (bool_decide_eq_true_2 (Exists _ _))
    by (apply find_symbol_exists; rewrite Hfind; eauto).
  rewrite andb_true_r.
  set (s1 := match or_else _ _ with Some _ => _ | None => s end).
  assert (Hs1 : positions s1 = positions s /\ auto_repair s1 = auto_repair s
                /\ reconciliations s1 = reconciliations s /\ _clients s1 = _clients s
                /\ published s1 = published s).
  { subst s1. destruct (or_else _ _) as [qty|]; [|auto 10].
    destruct (PrimFloat.eqb _ 0); cbn; auto 10. }
  destruct Hs1 as (H1 & H2 & H3 & H4 & H5).
  destruct (_has_reduce_only_stop local open_orders) as [exc|[|]]; cbn [fst];
    rewrite ?H1, ?H2, ?H3, ?H4, ?H5, ?app_nil_r; auto 10.
  cbn [auto_repair logger]. rewrite H2.
  destruct (auto_repair s); cbn; rewrite ?H1, ?H3, ?H4, ?H5, ?app_nil_r; auto 10.
Qed.

End ReconciliationFacts.

Lemma verify_position_reports_witness :
  let s' := fst (ReconciliationService._verify_position Sample.open_position
                   [Scenario.flat_position] [] Scenario.reconciliation_service) in
  exists tail,
    ReconciliationService.log s'
    = (Critical, "reconciliation.position_closed_but_local_open") :: tail.
Proof.
  intros s'. subst s'.
  destruct (verify_position_reports Sample.open_position [Scenario.flat_position] []
              Scenario.reconciliation_service Scenario.flat_position eq_refl)
    as (tail & Hlog & _).
  exists tail. exact Hlog.
Defined.

Example reconcile_once_sample :
  ReconciliationService._reconcile_once Scenario.fetch_positions
    Scenario.fetch_open_orders Scenario.reconciliation_service
  = (Scenario.reconciliation_service, Raise DetachedInstanceError).
Proof. reflexivity. Qed.
(* ===================================================================== *)
(** ** The data service                                                   *)
(* ===================================================================== *)

Section DataFacts.
Import DataService.
Context {Venue : Type}.
Variable fetch_ohlcv :
  Venue -> string -> string -> nat
  -> Venue * ReconciliationService.fetched (list (list float)).
Variable utcnow : nat -> string.

Local Abbreviation t := (@DataService.t Venue).

Lemma polled_refl (s : t) : polled [] s s.
Proof.
  unfold polled. repeat (split; [reflexivity|]). exists [], [].
  cbn. rewrite !app_nil_r. repeat split. constructor.
Qed.

Lemma combine_append {A B} (l1 l2 : list A) (o1 o2 : list B) :
  length o1 = length l1 ->
  combine (l1 ++ l2) (o1 ++ o2) = combine l1 o1 ++ combine l2 o2.
Proof.
  revert o1. induction l1 as [|x l1 IH]; intros [|o o1]; cbn; try discriminate.
  - reflexivity.
  - intros [= Hlen]. rewrite (IH _ Hlen). reflexivity.
Qed.

Lemma answered_app (pairs1 pairs2 : list (string * string)) (o1 o2 : list bool) :
  length o1 = length pairs1 ->
  answered (pairs1 ++ pairs2) (o1 ++ o2) = answered pairs1 o1 ++ answered pairs2 o2.
Proof.
  intros Hlen. unfold answered.
  rewrite combine_append by exact Hlen.
  rewrite List.filter_app, map_app. reflexivity.
Qed.

Lemma polled_trans (pairs1 pairs2 : list (string * string)) (s1 s2 s3 : t) :
  polled pairs1 s1 s2 -> polled pairs2 s2 s3 -> polled (pairs1 ++ pairs2) s1 s3.
Proof.
  intros (E1 & M1 & D1 & o1 & ev1 & L1 & G1 & P1 & R1)
         (E2 & M2 & D2 & o2 & ev2 & L2 & G2 & P2 & R2).
  unfold polled. split; [congruence|]. split; [congruence|]. split; [congruence|].
  exists (o1 ++ o2), (ev1 ++ ev2).
  split; [rewrite !length_app; congruence|].
  split; [rewrite G2, G1, map_app, app_assoc; reflexivity|].
  split; [rewrite P2, P1, app_assoc; reflexivity|].
  rewrite answered_app by exact L1. apply Forall2_app; [exact R1|].
  rewrite <- M1. exact R2.
Qed.

Lemma poll_symbol_polled (exchange_name symbol : string) (s : t) :
  is_Some (_clients s !! exchange_name) ->
  polled [(exchange_name, symbol)] s (poll_symbol fetch_ohlcv utcnow exchange_name symbol s)
  /\ is_Some (_clients (poll_symbol fetch_ohlcv utcnow exchange_name symbol s)
                !! exchange_name).
Proof.
  intros [client Hclient]. unfold poll_symbol. rewrite Hclient.
  assert (Hdom : forall venue,
             dom (<[exchange_name := venue]> (_clients s)) = dom (_clients s)).
  { intros venue. apply dom_insert_lookup_L. eauto. }
  destruct (fetch_ohlcv client symbol "1m" 2) as [client' [ohlcv|error]];
    (split; [|cbn; rewrite lookup_insert_eq; eauto]);
    unfold polled; cbn [exchanges market_data _clients log published];
    rewrite Hdom; repeat (split; [reflexivity|]).
  - exists [true]. eexists. split; [reflexivity|]. split; [reflexivity|].
    split; [reflexivity|]. cbn. repeat constructor.
  - exists [false], []. cbn. rewrite app_nil_r. repeat split. constructor.
Qed.

Lemma poll_symbols_polled (exchange_name : string) (symbols : list string) (s : t) :
  is_Some (_clients s !! exchange_name) ->
  polled (map (fun symbol => (exchange_name, symbol)) symbols) s
    (fold_left (fun s symbol => poll_symbol fetch_ohlcv utcnow exchange_name symbol s)
       symbols s).
Proof.
  revert s. induction symbols as [|symbol rest IH]; intros s Hclient.
  - apply polled_refl.
  - cbn [fold_left map].
    destruct (poll_symbol_polled exchange_name symbol s Hclient) as [Hstep Hclient'].
    exact (polled_trans [_] _ _ _ _ Hstep (IH _ Hclient')).
Qed.

Lemma polled_pairs_dom (clients clients' : gmap string Venue)
    (confs : list ExchangeConf) :
  dom clients' = dom clients -> polled_pairs clients' confs = polled_pairs clients confs.
Proof.
  intros Hdom. unfold polled_pairs. apply flat_map_ext. intros conf.
  destruct (clients !! name conf) eqn:H1, (clients' !! name conf) eqn:H2;
    try reflexivity; exfalso.
  - apply not_elem_of_dom in H2. rewrite Hdom in H2. apply H2, elem_of_dom. eauto.
  - apply not_elem_of_dom in H1. rewrite <- Hdom in H1. apply H1, elem_of_dom. eauto.
Qed.

(** X24. One poll goes through every configured symbol of every
    exchange that has a client, in configuration order, and through
    nothing else. Each of them leaves exactly one log line,
    [data_service.published] or [data_service.fetch_failed]; the events
    published, after what was published before and all on the market-data
    stream, are one [market_data] event with the 1m timeframe per fetch
    that succeeded, in the same order and for the same exchange and
    symbol. A failed fetch does not stop the poll. *)
Theorem poll_once_reports (s : t) :
  let s' := _poll_once fetch_ohlcv utcnow s in
  let pairs := polled_pairs (_clients s) (exchanges s) in
  exists outcomes events,
    length outcomes = length pairs
    /\ log s' = log s ++ map poll_line outcomes
    /\ published s' = published s ++ events
    /\ Forall2 (reports (market_data s)) (answered pairs outcomes) events.
Proof.
  cbv zeta. unfold _poll_once.
  assert (Hfold : forall confs s0,
             polled (polled_pairs (_clients s0) confs) s0
               (fold_left (fun s1 conf => poll_exchange fetch_ohlcv utcnow conf s1)
                  confs s0)).
  { induction confs as [|conf rest IH]; intros s0; [apply polled_refl|].
    cbn [fold_left]. unfold polled_pairs. cbn [flat_map].
    fold (polled_pairs (_clients s0) rest).
    assert (Hstep : polled
                      match _clients s0 !! name conf with
                      | Some _ => map (fun symbol => (name conf, symbol))
                                    (default [] (symbols conf))
                      | None => []
                      end s0 (poll_exchange fetch_ohlcv utcnow conf s0)).
    { unfold poll_exchange. destruct (_clients s0 !! name conf) eqn:Hclient.
      - apply poll_symbols_polled. eauto.
      - apply polled_refl. }
    eapply polled_trans; [exact Hstep|].
    rewrite <- (polled_pairs_dom (_clients s0)
                  (_clients (poll_exchange fetch_ohlcv utcnow conf s0))).
    - apply IH.
    - destruct Hstep as (_ & _ & Hdom & _). exact Hdom. }
  destruct (Hfold (exchanges s) s) as (_ & _ & _ & Hresult). exact Hresult.
Qed.

End DataFacts.

(* ===================================================================== *)
(** ** Position sizing: which calls fail                                  *)
(* ===================================================================== *)

Lemma leb_false_nonzero (x : float) :
  PrimFloat.leb x 0 = false -> PrimFloat.eqb x 0 = false.
Proof.
  rewrite leb_spec, FloatAxioms.eqb_spec. unfold SFleb, SFeqb.
  destruct (SFcompare (Prim2SF x) (Prim2SF 0)) as [[]|]; congruence.
Qed.

(** X25. [calculate_position_size] fails in three cases only, and never
    by a division by zero: with [ValueError] when the stop distance is at
    or below zero; and, when volatility targeting is enabled and a truthy
    asset volatility is given, with [KeyError] when the settings hold no
    [target_portfolio_vol], or with the [ValueError] of
    [calculate_volatility_targeted_position_value] when that volatility
    compares at or below zero. In every other case it returns. *)
Theorem calculate_position_size_errors
    (equity stop_distance : float) (settings : RiskSettings)
    (asset_vol : option float) :
  let vt := default empty_volatility_targeting (volatility_targeting settings) in
  let targeting := default false (enabled vt) && PyFloat.truthy_opt asset_vol in
  match calculate_position_size equity stop_distance settings asset_vol with
  | Raise e =>
      (PrimFloat.leb stop_distance 0 = true
       /\ e = ValueError "stop_distance must be positive")
      \/ (PrimFloat.leb stop_distance 0 = false /\ targeting = true
          /\ ((target_portfolio_vol vt = None /\ e = KeyError "target_portfolio_vol")
              \/ (exists vol,
                    asset_vol = Some vol /\ PrimFloat.leb vol 0 = true
                    /\ e = ValueError "Asset volatility must be positive.")))
  | Ok size =>
      PrimFloat.leb stop_distance 0 = false
      /\ (targeting = true ->
          exists target_vol vol,
            target_portfolio_vol vt = Some target_vol
            /\ asset_vol = Some vol /\ PrimFloat.leb vol 0 = false)
  end.
Proof.
  cbv zeta. unfold calculate_position_size.
  destruct (PrimFloat.leb stop_distance 0) eqn:Hstop; [left; auto|].
  unfold PyFloat.truediv at 1. unfold PyFloat.zero.
  rewrite (leb_false_nonzero _ Hstop). cbn [bind].
  destruct (default false _ && PyFloat.truthy_opt asset_vol) eqn:Htargeting;
    [|split; [reflexivity|discriminate]].
  destruct (target_portfolio_vol _) as [target_vol|]; [|right; auto 10].
  destruct asset_vol as [vol|];
    [|rewrite andb_false_r in Htargeting; discriminate].
  unfold calculate_volatility_targeted_position_value.
  destruct (PrimFloat.leb vol 0) eqn:Hvol; [right; eauto 10|].
  unfold PyFloat.truediv, PyFloat.zero.
  rewrite (leb_false_nonzero _ Hvol), (leb_false_nonzero _ Hstop). cbn [bind].
  split; [reflexivity|]. intros _. eauto.
Qed.

